(** * THU canteen annual report: the data-shaping logic of [main.py]

    A shallow embedding of the file resolver, the preprocessor, the
    meal-period classifier and the aggregators of [main.py], followed by
    the properties the specification states about them.

    Conventions of the embedding.
    - A [DataFrame] is the list of its rows together with the flag telling
      whether the location column exists. A row keeps the columns the code
      reads (time, event kind, location, amount) and the period column the
      classifier adds. A missing cell (NaN, NaT) is [None] or [NaT].
    - A table records whether its location column holds text; the text
      accessor raises on a column that does not.
    - Amounts are rational numbers ([Q]), as the values of floating point
      numbers are. A sum or a quotient of the model stands for the sum or
      the quotient the code computes over the same values; nothing is
      stated that equates sums of amounts over different groupings, which
      agree up to rounding only.
    - [pd.to_datetime] on text is a parameter ([parse]); a cell that already
      holds a timestamp is returned as it is.
    - [groupby] yields the observed groups only, sorted by key.
    - [sort_values] and [sorted] are modelled by one stable sort; the
      sort of pandas may order rows with equal keys differently.
    - Strings are byte strings holding UTF-8, on which substring search
      agrees with substring search on code points. *)

From Stdlib Require Import List Bool Arith ZArith QArith Lia String Ascii.
From Stdlib Require Import Permutation Sorted DecimalString.
Import ListNotations.

Local Open Scope string_scope.
Local Open Scope Z_scope.

Set Implicit Arguments.

(** * Part I: the model *)

(** ** Outcomes of a routine *)

Inductive Exn : Type :=
| FileNotFoundError (msg : string)
| KeyError (column : string)
| TypeError
| ZeroDivisionError
| AttributeError
| RuntimeError
| OSError (msg : string).

(** A routine either produces its value, prints a skip message and returns
    early, or raises. *)
Inductive Outcome (A : Type) : Type :=
| Ok (value : A)
| Skip (message : string)
| Raise (e : Exn).

Arguments Ok {A} value.
Arguments Skip {A} message.
Arguments Raise {A} e.

(** ** Orders and stable sorting *)

Section Orders.
Variables A B : Type.

(** [le x y = true]: [x] may stay in front of [y]. *)
Variable le : A -> A -> bool.

Fixpoint insert_sorted (x : A) (l : list A) : list A :=
  match l with
  | [] => [x]
  | y :: ys => if le x y then x :: l else y :: insert_sorted x ys
  end.

(** Elements are inserted from the right: on a tie the element that came
    first in the input stays first. *)
Fixpoint sort_by (l : list A) : list A :=
  match l with
  | [] => []
  | x :: xs => insert_sorted x (sort_by xs)
  end.

(** Sorting on a column. *)
Definition by_key (f : B -> A) : B -> B -> bool :=
  fun x y => le (f x) (f y).

(** [ascending=False]. *)
Definition descending : A -> A -> bool := fun x y => le y x.

(** Missing values are placed last, whatever the direction. *)
Definition nan_last : option A -> option A -> bool :=
  fun x y =>
    match x, y with
    | Some a, Some b => le a b
    | Some _, None => true
    | None, Some _ => false
    | None, None => true
    end.

(** Sorting on two columns: the second decides among ties of the first. *)
Definition lex (le2 : A -> A -> bool) : A -> A -> bool :=
  fun x y => if le x y then (if le y x then le2 x y else true) else false.

Definition le_all (x : A) (l : list A) : Prop :=
  forall y, In y l -> le x y = true.

End Orders.

Definition Total {A : Type} (le : A -> A -> bool) : Prop :=
  forall x y, le x y = true \/ le y x = true.

Definition Transitive {A : Type} (le : A -> A -> bool) : Prop :=
  forall x y z, le x y = true -> le y z = true -> le x z = true.

(** Lexicographic order on tuples of integers, as Python compares dates
    and timestamps. *)
Fixpoint tuple_leb (a b : list Z) : bool :=
  match a, b with
  | [], _ => true
  | _ :: _, [] => false
  | x :: xs, y :: ys =>
      if x <? y then true else if y <? x then false else tuple_leb xs ys
  end.

(** ** File resolver *)

(** A directory entry: its path and the modification time that
    [p.stat()] reports when it succeeds. *)
Record File : Type := { path : string; st_mtime : Z }.

(** What the resolver asks of the file system. Each call can raise:
    [expanduser] on a home directory that cannot be found, [is_dir] and
    [exists] on a name the system refuses, [stat] on an entry that is
    listed but cannot be read, such as a link to nothing. [listdir d]
    gives the entries of [d] in the order [glob] walks them;
    [stat_error f] is the error [f.stat()] raises, if any. *)
Record FileSystem : Type := {
  expanduser : string -> Exn + string;
  is_dir : string -> Exn + bool;
  exists_ : string -> Exn + bool;
  listdir : string -> list File;
  stat_error : File -> option Exn
}.

Definition ends_with (suffix s : string) : bool :=
  (String.length suffix <=? String.length s)%nat
  && String.eqb
       (substring (String.length s - String.length suffix)
                  (String.length suffix) s)
       suffix.

(** [search_dir.glob('*' + ext)] *)
Definition glob (fs : FileSystem) (search_dir ext : string) : list File :=
  filter (fun p => ends_with ext (path p)) (listdir fs search_dir).

(** [sorted(..., key=lambda p: p.stat().st_mtime, reverse=True)] *)
Definition newest_first : File -> File -> bool :=
  by_key (descending Z.leb) st_mtime.

Definition sorted_by_mtime (l : list File) : list File :=
  sort_by newest_first l.

(** The keys are computed entry by entry before anything is ordered: the
    first [stat] that fails ends the call. *)
Fixpoint first_stat_error (fs : FileSystem) (l : list File) : option Exn :=
  match l with
  | [] => None
  | f :: l' =>
      match stat_error fs f with
      | Some e => Some e
      | None => first_stat_error fs l'
      end
  end.

Definition sorted_candidates (fs : FileSystem) (l : list File)
  : Exn + list File :=
  match first_stat_error fs l with
  | Some e => inl e
  | None => inr (sorted_by_mtime l)
  end.

Definition nonempty {A : Type} (l : list A) : bool :=
  match l with [] => false | _ => true end.

Definition no_data_file : string := "未找到 .csv 或 .xlsx/.xls 数据文件".
Definition note_csv : string :=
  "检测到多个数据文件，已优先选择最新 CSV 文件。".
Definition note_excel : string :=
  "检测到多个 Excel 数据文件，已默认选择最新文件。".

(** Lines 101-112: the choice among the three sorted lists. The result
    carries the lines printed. *)
Definition choose (csv_candidates xlsx_candidates xls_candidates : list File)
  : list string * Outcome string :=
  if negb (nonempty csv_candidates) && negb (nonempty xlsx_candidates)
     && negb (nonempty xls_candidates)
  then ([], Raise (FileNotFoundError no_data_file))
  else
    match csv_candidates with
    | first :: _ =>
        ((if (1 <? List.length csv_candidates)%nat
             || nonempty xlsx_candidates || nonempty xls_candidates
          then [note_csv] else []),
         Ok (path first))
    | [] =>
        let excel_candidates := (xlsx_candidates ++ xls_candidates)%list in
        match excel_candidates with
        | first :: _ =>
            ((if (1 <? List.length excel_candidates)%nat
              then [note_excel] else []),
             Ok (path first))
        | [] => ([], Raise (FileNotFoundError no_data_file))
        end
    end.

(** Lines 85-112: the search in the directory finally chosen. The three
    lists are sorted, in this order, before any of them is looked at. *)
Definition search (fs : FileSystem) (search_dir : string)
  : list string * Outcome string :=
  match sorted_candidates fs (glob fs search_dir ".csv") with
  | inl e => ([], Raise e)
  | inr csv_candidates =>
      match sorted_candidates fs (glob fs search_dir ".xlsx") with
      | inl e => ([], Raise e)
      | inr xlsx_candidates =>
          match sorted_candidates fs (glob fs search_dir ".xls") with
          | inl e => ([], Raise e)
          | inr xls_candidates =>
              choose csv_candidates xlsx_candidates xls_candidates
          end
      end
  end.

(** The search when every [stat] succeeds. *)
Definition search_sorted (fs : FileSystem) (search_dir : string)
  : list string * Outcome string :=
  choose (sorted_by_mtime (glob fs search_dir ".csv"))
         (sorted_by_mtime (glob fs search_dir ".xlsx"))
         (sorted_by_mtime (glob fs search_dir ".xls")).

(** [find_data_file(file_path=None, search_dir=Path.cwd())]. An empty
    string is falsy, like [None]. *)
Definition find_data_file (fs : FileSystem) (file_path : option string)
           (search_dir : string) : list string * Outcome string :=
  match file_path with
  | Some fp =>
      if String.eqb fp "" then search fs search_dir
      else
        match expanduser fs fp with
        | inl e => ([], Raise e)
        | inr p =>
            match is_dir fs p with
            | inl e => ([], Raise e)
            | inr true => search fs p
            | inr false =>
                match exists_ fs p with
                | inl e => ([], Raise e)
                | inr true => ([], Ok p)
                | inr false => search fs search_dir
                end
            end
        end
  | None => search fs search_dir
  end.

(** A directory holds a candidate when some entry carries one of the three
    extensions. *)
Definition has_extension (f : File) : Prop :=
  ends_with ".csv" (path f) = true
  \/ ends_with ".xlsx" (path f) = true
  \/ ends_with ".xls" (path f) = true.

Definition has_candidate (fs : FileSystem) (d : string) : Prop :=
  exists f, In f (listdir fs d) /\ has_extension f.

(** Every candidate of the directory can be read by [stat]. *)
Definition stat_ok (fs : FileSystem) (d : string) : Prop :=
  forall f, In f (listdir fs d) -> has_extension f -> stat_error fs f = None.

(** [f] is a most recently modified file of [l]. *)
Definition is_newest (f : File) (l : list File) : Prop :=
  In f l /\ forall g, In g l -> st_mtime g <= st_mtime f.

(** ** Dates and timestamps *)

Record date : Type := { d_year : Z; d_month : Z; d_day : Z }.

Record datetime : Type := {
  year : Z; month : Z; day : Z;
  hour : Z; minute : Z; second : Z
}.

(** [.dt.date] *)
Definition dt_date (t : datetime) : date :=
  {| d_year := year t; d_month := month t; d_day := day t |}.

Definition date_tuple (d : date) : list Z := [d_year d; d_month d; d_day d].

Definition datetime_tuple (t : datetime) : list Z :=
  [year t; month t; day t; hour t; minute t; second t].

Definition date_leb (a b : date) : bool :=
  tuple_leb (date_tuple a) (date_tuple b).

Definition datetime_leb (a b : datetime) : bool :=
  tuple_leb (datetime_tuple a) (datetime_tuple b).

Definition date_eqb (a b : date) : bool :=
  (d_year a =? d_year b) && (d_month a =? d_month b) && (d_day a =? d_day b).

(** Python's [date.toordinal], which date subtraction goes through. *)
Definition is_leap (y : Z) : bool :=
  (y mod 4 =? 0) && (negb (y mod 100 =? 0) || (y mod 400 =? 0)).

Definition days_before_year (y : Z) : Z :=
  let p := y - 1 in p * 365 + p / 4 - p / 100 + p / 400.

Definition days_before_month (y m : Z) : Z :=
  nth (Z.to_nat m) [0; 0; 31; 59; 90; 120; 151; 181; 212; 243; 273; 304; 334] 0
  + (if (2 <? m) && is_leap y then 1 else 0).

Definition toordinal (d : date) : Z :=
  days_before_year (d_year d) + days_before_month (d_year d) (d_month d)
  + d_day d.

(** [(b - a).days] *)
Definition days_between (a b : date) : Z := toordinal b - toordinal a.

(** ** Tables *)

(** A cell of the time column: text as read from the file, a timestamp
    once the column was converted, or a missing value. *)
Inductive TimeCell : Type :=
| Text (s : string)
| Stamp (t : datetime)
| NaT.

Record Row : Type := {
  tx_time : TimeCell;            (* 交易时间 *)
  tx_event : string;             (* 交易事件 *)
  tx_location : option string;   (* 交易地点 *)
  tx_amount : Q;                 (* 交易金额（元） *)
  meal : option string           (* 餐次 *)
}.

(** [str_location] tells whether the location column holds text, so that
    its [.str] accessor exists. The reader types a column by its cells: a
    column of missing values only comes out as a column of numbers.
    Selecting rows keeps the type of a column. *)
Record DataFrame : Type := {
  has_location : bool;           (* '交易地点' in df.columns *)
  str_location : bool;
  rows : list Row
}.

Definition with_rows (df : DataFrame) (l : list Row) : DataFrame :=
  {| has_location := has_location df; str_location := str_location df;
     rows := l |}.

(** The continuation of a routine that may raise. *)
Definition and_then {A B : Type} (o : Outcome A) (f : A -> Outcome B)
  : Outcome B :=
  match o with
  | Ok v => f v
  | Skip m => Skip m
  | Raise e => Raise e
  end.

Definition empty (df : DataFrame) : bool := negb (nonempty (rows df)).

Definition is_some {A : Type} (o : option A) : bool :=
  match o with Some _ => true | None => false end.

(** The non-missing values of a column. *)
Definition values {A B : Type} (col : A -> option B) (l : list A) : list B :=
  flat_map (fun r => match col r with Some v => [v] | None => [] end) l.

Definition stamp (r : Row) : option datetime :=
  match tx_time r with Stamp t => Some t | _ => None end.

(** The derived column 日期: [df['交易时间'].dt.date]. *)
Definition row_date (r : Row) : option date := option_map dt_date (stamp r).

Definition Qsum (l : list Q) : Q := fold_right Qplus 0%Q l.

(** ** pandas operations used by the code *)

(** [s in l], [Series.isin] *)
Definition isin (x : string) (l : list string) : bool :=
  existsb (String.eqb x) l.

(** Truthiness of an optional message ([if err:]). *)
Definition truthy (o : option string) : bool :=
  match o with Some s => negb (String.eqb s "") | None => false end.

(** Equality and order on group keys. *)
Record KeyOps (K : Type) : Type := {
  key_eqb : K -> K -> bool;
  key_leb : K -> K -> bool
}.

Definition option_eqb {A : Type} (eqb : A -> A -> bool) (x y : option A)
  : bool :=
  match x, y with
  | Some a, Some b => eqb a b
  | None, None => true
  | _, _ => false
  end.

Definition pair_key {A B : Type} (ka : KeyOps A) (kb : KeyOps B)
  : KeyOps (A * B) :=
  {| key_eqb := fun x y =>
       key_eqb ka (fst x) (fst y) && key_eqb kb (snd x) (snd y);
     key_leb := lex (by_key (key_leb ka) fst) (by_key (key_leb kb) snd) |}.

Definition string_key : KeyOps string :=
  {| key_eqb := String.eqb; key_leb := String.leb |}.

Definition date_key : KeyOps date :=
  {| key_eqb := date_eqb; key_leb := date_leb |}.

(** [df.dropna(subset=[col])] *)
Definition dropna {A : Type} (col : Row -> option A) (df : DataFrame)
  : DataFrame :=
  with_rows df (filter (fun r => is_some (col r)) (rows df)).

(** The distinct values of a list, each at its first occurrence. *)
Fixpoint distinct {K : Type} (eqb : K -> K -> bool) (l : list K) : list K :=
  match l with
  | [] => []
  | x :: xs => x :: filter (fun y => negb (eqb y x)) (distinct eqb xs)
  end.

(** [df.drop_duplicates(subset=...)]: of the rows sharing a key only the
    first is kept; missing values compare equal. *)
Fixpoint drop_duplicates {K : Type} (eqb : K -> K -> bool) (key : Row -> K)
         (l : list Row) : list Row :=
  match l with
  | [] => []
  | r :: rs =>
      r :: filter (fun r' => negb (eqb (key r') (key r)))
                  (drop_duplicates eqb key rs)
  end.

(** [df.groupby(key)]: rows whose key is missing belong to no group. *)
Definition group_keys {A K : Type} (ops : KeyOps K) (key : A -> option K)
           (l : list A) : list K :=
  sort_by (key_leb ops) (distinct (key_eqb ops) (values key l)).

Definition group {A K : Type} (ops : KeyOps K) (key : A -> option K) (k : K)
           (l : list A) : list A :=
  filter (fun r => match key r with
                   | Some k' => key_eqb ops k' k
                   | None => false
                   end) l.

Definition groupby {A K V : Type} (ops : KeyOps K) (key : A -> option K)
           (agg : list A -> V) (l : list A) : list (K * V) :=
  map (fun k => (k, agg (group ops key k l))) (group_keys ops key l).

(** [...['交易金额（元）'].sum()] and [.size()] *)
Definition sum_amount (g : list Row) : Q := Qsum (map tx_amount g).

Definition size (g : list Row) : Q := inject_Z (Z.of_nat (List.length g)).

Fixpoint lookup {K V : Type} (eqb : K -> K -> bool) (k : K)
         (s : list (K * V)) : option V :=
  match s with
  | [] => None
  | (k', v) :: s' => if eqb k' k then Some v else lookup eqb k s'
  end.

(** [s.reindex(index, fill_value=fill)] *)
Definition reindex {K V : Type} (eqb : K -> K -> bool) (index : list K)
           (fill : V) (s : list (K * V)) : list (K * V) :=
  map (fun k => (k, match lookup eqb k s with Some v => v | None => fill end))
      index.

(** [s.where(s != 0)]: zero entries become missing. *)
Definition where_nonzero {K : Type} (s : list (K * Q))
  : list (K * option Q) :=
  map (fun kv => (fst kv, if Qeq_bool (snd kv) 0 then None else Some (snd kv)))
      s.

(** One quotient of [a.divide(b)]. A missing divisor gives a missing
    quotient; a zero divisor is counted as a division fault. *)
Definition divide_cell (x : Q) (d : option (option Q)) : Outcome (option Q) :=
  match d with
  | Some (Some c) =>
      if Qeq_bool c 0 then Raise ZeroDivisionError else Ok (Some (x / c)%Q)
  | _ => Ok None
  end.

(** [a.divide(b)] for two series carrying the same index. *)
Fixpoint divide {K : Type} (eqb : K -> K -> bool) (a : list (K * Q))
         (b : list (K * option Q)) : Outcome (list (K * option Q)) :=
  match a with
  | [] => Ok []
  | (k, x) :: a' =>
      match divide_cell x (lookup eqb k b) with
      | Ok q =>
          match divide eqb a' b with
          | Ok rest => Ok ((k, q) :: rest)
          | Skip m => Skip m
          | Raise e => Raise e
          end
      | Skip m => Skip m
      | Raise e => Raise e
      end
  end.

(** [s.fillna(v)] *)
Definition fillna {K : Type} (v : Q) (s : list (K * option Q))
  : list (K * Q) :=
  map (fun kv => (fst kv, match snd kv with Some q => q | None => v end)) s.

(** ** Preprocessor *)

Fixpoint contains (needle s : string) : bool :=
  if prefix needle s then true
  else match s with
       | EmptyString => false
       | String _ s' => contains needle s'
       end.

(** The alternatives of the pattern ['楼|天猫|学生卡成本']. *)
Definition denylist : list string := ["楼"; "天猫"; "学生卡成本"].

(** [col.str.contains(pattern, na=na)] for a pattern that is an
    alternation of literals. *)
Definition str_contains (alternatives : list string) (na : bool)
           (cell : option string) : bool :=
  match cell with
  | Some s => existsb (fun tok => contains tok s) alternatives
  | None => na
  end.

(** [df['交易地点'].str] raises on a column that does not hold text. *)
Definition preprocess_data (df : DataFrame) : Outcome DataFrame :=
  if negb (has_location df) then Ok df
  else if str_location df
  then Ok (with_rows df
             (filter (fun r =>
                        negb (str_contains denylist false (tx_location r)))
                     (rows df)))
  else Raise AttributeError.

(** The text [s] holds [tok] somewhere. *)
Definition occurs_in (tok s : string) : Prop :=
  exists before after, s = before ++ tok ++ after.

(** ** Meal-period classifier *)

Definition set_time (r : Row) (c : TimeCell) : Row :=
  {| tx_time := c; tx_event := tx_event r; tx_location := tx_location r;
     tx_amount := tx_amount r; meal := meal r |}.

Definition set_meal (r : Row) (m : option string) : Row :=
  {| tx_time := tx_time r; tx_event := tx_event r;
     tx_location := tx_location r; tx_amount := tx_amount r; meal := m |}.

(** [bins.searchsorted(x, side='right')] on increasing bins. *)
Fixpoint searchsorted_right (bins : list Z) (x : Z) : nat :=
  match bins with
  | [] => O
  | b :: bs => if b <=? x then S (searchsorted_right bs x) else O
  end.

(** [pd.cut(x, bins=bins, labels=labels, right=False)] on one value. *)
Definition pd_cut (bins : list Z) (labels : list string) (x : option Z)
  : option string :=
  match x with
  | None => None
  | Some v =>
      let ids := searchsorted_right bins v in
      if (ids =? 0)%nat || (ids =? List.length bins)%nat then None
      else nth_error labels (ids - 1)
  end.

Definition bins : list Z :=
  [6 * 60 + 30; 10 * 60; 15 * 60; 19 * 60 + 30; 22 * 60 + 30].

Definition labels : list string := ["早饭"; "午饭"; "晚饭"; "夜宵"].

Definition no_time_data : string := "没有可用于统计的交易时间数据".
Definition no_window_data : string := "未找到 6:30-22:30 的消费记录".

(** [df['交易时间'].dt.hour * 60 + df['交易时间'].dt.minute] *)
Definition minutes (r : Row) : option Z :=
  option_map (fun t => hour t * 60 + minute t) (stamp r).

(** The order of the categories of the period column. *)
Fixpoint label_index (ls : list string) (l : string) : nat :=
  match ls with
  | [] => O
  | x :: xs => if String.eqb x l then O else S (label_index xs l)
  end.

Definition meal_key : KeyOps string :=
  {| key_eqb := String.eqb;
     key_leb := by_key Nat.leb (label_index labels) |}.

Definition visit_key : KeyOps (date * string) := pair_key date_key meal_key.

(** The subset [['日期', '餐次']] of a row, for [drop_duplicates]. *)
Definition date_meal (r : Row) : option date * option string :=
  (row_date r, meal r).

Definition date_meal_eqb (a b : option date * option string) : bool :=
  option_eqb date_eqb (fst a) (fst b) && option_eqb String.eqb (snd a) (snd b).

(** The key [['日期', '餐次']] of a row, for [groupby]. *)
Definition visit_of (r : Row) : option (date * string) :=
  match row_date r, meal r with
  | Some d, Some m => Some (d, m)
  | _, _ => None
  end.

Section Pipeline.

(** [pd.to_datetime] on one text cell, with [errors='coerce']. *)
Variable parse : string -> option datetime.

Definition to_datetime (c : TimeCell) : TimeCell :=
  match c with
  | Text s => match parse s with Some t => Stamp t | None => NaT end
  | Stamp t => Stamp t
  | NaT => NaT
  end.

(** [df['交易时间'] = pd.to_datetime(df['交易时间'], errors='coerce')]
    followed by [df.dropna(subset=['交易时间'])]. *)
Definition convert_time (df : DataFrame) : DataFrame :=
  with_rows df (map (fun r => set_time r (to_datetime (tx_time r))) (rows df)).

Definition parsed (df : DataFrame) : DataFrame :=
  dropna stamp (convert_time df).

Definition prepare_meal_period_data (spending_df : DataFrame)
  : option DataFrame * option (list string) * option string :=
  let df := parsed spending_df in
  if empty df then (None, None, Some no_time_data)
  else
    let df :=
      with_rows df
        (map (fun r => set_meal r (pd_cut bins labels (minutes r))) (rows df))
    in
    let df := dropna meal df in
    if empty df then (None, Some labels, Some no_window_data)
    else (Some df, Some labels, None).

End Pipeline.

(** ** Aggregators *)

Definition spending_events : list string := ["持卡人消费"; "离线码在线消费"].

(** [df[df['交易事件'].isin([...])]] *)
Definition select_spending (df : DataFrame) : DataFrame :=
  with_rows df (filter (fun r => isin (tx_event r) spending_events) (rows df)).

(** [main], step 3:
    [spending_df.groupby('交易地点')['交易金额（元）'].sum()
     .sort_values(ascending=False)]. *)
Definition location_spending (spending_df : DataFrame)
  : Outcome (list (string * Q)) :=
  if has_location spending_df
  then Ok (sort_by (by_key (descending Qle_bool) snd)
             (groupby string_key tx_location sum_amount (rows spending_df)))
  else Raise (KeyError "交易地点").

(** [Series.min()], and [Series.max()] with the order reversed. *)
Definition min_by {A : Type} (le : A -> A -> bool) (l : list A) : option A :=
  match l with
  | [] => None
  | x :: xs => Some (fold_left (fun m y => if le m y then m else y) xs x)
  end.

(** A row of [meal_summary]: one visit, that is one (date, period) group. *)
Record Visit : Type := {
  v_date : date;                  (* 日期 *)
  v_meal : string;                (* 餐次 *)
  first_time : option datetime;
  first_location : string;
  total_amount : option Q;
  clock_minutes : option Q
}.

(** [GroupBy.first()] on one column: its first value that is not missing. *)
Fixpoint first_valid {A : Type} (l : list (option A)) : option A :=
  match l with
  | [] => None
  | Some v :: _ => Some v
  | None :: l' => first_valid l'
  end.

(** [hour * 60 + minute + second / 60] *)
Definition clock_of (t : datetime) : Q :=
  (inject_Z (hour t * 60 + minute t) + inject_Z (second t) / 60)%Q.

Definition by_first_time : Visit -> Visit -> bool :=
  by_key (nan_last datetime_leb) first_time.

Definition by_first_time_desc : Visit -> Visit -> bool :=
  by_key (nan_last (descending datetime_leb)) first_time.

Definition by_clock : Visit -> Visit -> bool :=
  by_key (nan_last Qle_bool) clock_minutes.

Definition by_clock_desc : Visit -> Visit -> bool :=
  by_key (nan_last (descending Qle_bool)) clock_minutes.

(** [data.sort_values('first_time').iloc[0]] *)
Definition pick_first_row (data : list Visit) : option Visit :=
  match data with
  | [] => None
  | _ => hd_error (sort_by by_first_time data)
  end.

(** [data.sort_values('first_time', ascending=False).iloc[0]] *)
Definition pick_last_row (data : list Visit) : option Visit :=
  match data with
  | [] => None
  | _ => hd_error (sort_by by_first_time_desc data)
  end.

(** [idxmax]: the first row holding the largest value that is not missing. *)
Fixpoint idxmax_from (best : Visit) (top : Q) (l : list Visit) : Visit :=
  match l with
  | [] => best
  | v :: vs =>
      match total_amount v with
      | Some q =>
          if Qle_bool q top then idxmax_from best top vs
          else idxmax_from v q vs
      | None => idxmax_from best top vs
      end
  end.

Fixpoint idxmax (l : list Visit) : option Visit :=
  match l with
  | [] => None
  | v :: vs =>
      match total_amount v with
      | Some q => Some (idxmax_from v q vs)
      | None => idxmax vs
      end
  end.

(** [data.loc[data['total_amount'].idxmax()]] *)
Definition pick_max_amount (data : list Visit) : option Visit :=
  match data with
  | [] => None
  | _ => idxmax data
  end.

Record Extremes : Type := {
  first_meal : option Visit;
  earliest_breakfast : option Visit;
  latest_night : option Visit;
  most_expensive : option Visit
}.

Definition breakfast : string := "早饭".
Definition night : string := "夜宵".

Definition of_meal (m : string) (ms : list Visit) : list Visit :=
  filter (fun v => String.eqb (v_meal v) m) ms.

(** Lines 568-579. *)
Definition select_extremes (meal_summary : list Visit) : Extremes :=
  let breakfast_meals := of_meal breakfast meal_summary in
  let night_meals := of_meal night meal_summary in
  {| first_meal := pick_first_row meal_summary;
     earliest_breakfast :=
       if nonempty breakfast_meals
       then hd_error (sort_by (lex by_clock by_first_time) breakfast_meals)
       else None;
     latest_night :=
       if nonempty night_meals
       then hd_error (sort_by (lex by_clock_desc by_first_time_desc)
                              night_meals)
       else None;
     most_expensive := pick_max_amount meal_summary |}.

(** A cell of the rendered table. [Money q] stands for the amount printed
    with two decimals and [Moment t] for the timestamp printed by
    [strftime]. *)
Inductive Cell : Type :=
| Txt (s : string)
| Money (q : option Q)
| Moment (t : datetime).

Definition no_record : string := "无记录".
Definition unknown_location : string := "未知".

Definition format_row (row : option Visit) : list Cell :=
  match row with
  | None => [Txt no_record; Txt no_record; Txt no_record]
  | Some v =>
      match first_time v with
      | None => [Txt no_record; Txt no_record; Txt no_record]
      | Some t => [Txt (first_location v); Money (total_amount v); Moment t]
      end
  end.

Definition table_rows (e : Extremes) : list (list Cell) :=
  [ Txt "刷的第一顿食堂" :: format_row (first_meal e);
    Txt "吃的最早的一顿早饭" :: format_row (earliest_breakfast e);
    Txt "吃的最晚的一顿夜宵" :: format_row (latest_night e);
    Txt "吃的最贵的一顿饭" :: format_row (most_expensive e) ].

(** [df.sort_values('交易时间')] *)
Definition sort_by_time (l : list Row) : list Row :=
  sort_by (by_key (nan_last datetime_leb) stamp) l.

(** Lines 533-551, on the classified rows: the per-visit records. *)
Definition meal_summary_of (df : list Row) : list Visit :=
  let df_sorted := sort_by_time df in
  let first_info :=
    groupby visit_key visit_of
      (fun g => (first_valid (map stamp g), first_valid (map tx_location g)))
      df_sorted in
  let total_amount := groupby visit_key visit_of sum_amount df in
  map (fun kv =>
         let '(k, (t, loc)) := kv in
         {| v_date := fst k;
            v_meal := snd k;
            first_time := t;
            first_location :=
              match loc with Some s => s | None => unknown_location end;
            total_amount := lookup (key_eqb visit_key) k total_amount;
            clock_minutes := option_map clock_of t |})
      first_info.

Section Aggregators.

Variable parse : string -> option datetime.

(** The classified rows, or the message that makes a chart be skipped. *)
Definition classified (spending_df : DataFrame) (what : string)
  : Outcome (DataFrame * list string) :=
  let '(df, labels, err) := prepare_meal_period_data parse spending_df in
  if truthy err
  then Skip (match err with Some e => e | None => "" end ++ what)
  else match df, labels with
       | Some df, Some labels => Ok (df, labels)
       | _, _ => Raise TypeError
       end.

(** The series [meal_counts] of the charts: distinct (date, period) pairs
    counted per period. *)
Definition visits_per_meal (df : DataFrame) (labels : list string)
  : list (string * Q) :=
  reindex String.eqb labels 0%Q
    (groupby meal_key meal size
       (drop_duplicates date_meal_eqb date_meal (rows df))).

(** [create_meal_avg_chart], up to the series that is plotted. *)
Definition create_meal_avg_chart (spending_df : DataFrame)
  : Outcome (list (string * Q)) :=
  match classified spending_df "，跳过各餐顿均消费图表生成。" with
  | Ok (df, labels) =>
      let meal_spending :=
        reindex String.eqb labels 0%Q
          (groupby meal_key meal sum_amount (rows df)) in
      let meal_counts := visits_per_meal df labels in
      match divide String.eqb meal_spending (where_nonzero meal_counts) with
      | Ok quotient => Ok (fillna 0%Q quotient)
      | Skip m => Skip m
      | Raise e => Raise e
      end
  | Skip m => Skip m
  | Raise e => Raise e
  end.

(** [create_meal_attendance_chart], up to the series that is plotted. *)
Definition create_meal_attendance_chart (spending_df : DataFrame)
  : Outcome (list (string * Q)) :=
  let df_all := parsed parse spending_df in
  if empty df_all
  then Skip "没有可用于统计的交易时间数据，跳过各餐出勤率图表生成。"
  else
    match classified spending_df "，跳过各餐出勤率图表生成。" with
    | Ok (df, labels) =>
        let dates := values row_date (rows df_all) in
        match min_by date_leb dates, min_by (descending date_leb) dates with
        | Some min_date, Some max_date =>
            let total_days := days_between min_date max_date + 1 in
            if total_days =? 0
            then Skip "未找到有效消费日期，跳过各餐出勤率图表生成。"
            else
              let meal_days := visits_per_meal df labels in
              Ok (fillna 0%Q
                    (map (fun kv =>
                            (fst kv,
                             Some (snd kv / inject_Z total_days * 100)%Q))
                         meal_days))
        | _, _ => Raise TypeError
        end
    | Skip m => Skip m
    | Raise e => Raise e
    end.

(** [df[df['交易时间'].dt.year == year]] *)
Definition of_year (y : Z) (df : DataFrame) : DataFrame :=
  with_rows df
    (filter (fun r => match stamp r with
                      | Some t => year t =? y
                      | None => false
                      end) (rows df)).

(** [f'{year}'] *)
Definition decimal (y : Z) : string := NilEmpty.string_of_int (Z.to_int y).

Definition year_message (y : Z) : string :=
  "没有 " ++ decimal y ++ " 年的刷卡消费记录，跳过“之最”表格生成。".

(** [create_yearly_extremes_table], up to the rows of the table. The
    column selection after [first()] needs the location column. *)
Definition yearly_extremes (spending_df : DataFrame) (y : Z)
  : Outcome Extremes :=
  let df := of_year y (parsed parse spending_df) in
  if empty df then Skip (year_message y)
  else
    match classified df "，跳过“之最”表格生成。" with
    | Ok (df, _) =>
        if has_location df
        then Ok (select_extremes (meal_summary_of (rows df)))
        else Raise (KeyError "交易地点")
    | Skip m => Skip m
    | Raise e => Raise e
    end.

Definition create_yearly_extremes_table (spending_df : DataFrame) (y : Z)
  : Outcome (list (list Cell)) :=
  match yearly_extremes spending_df y with
  | Ok e => Ok (table_rows e)
  | Skip m => Skip m
  | Raise e => Raise e
  end.

End Aggregators.

(** ** Vocabulary of the properties

    Predicates that say, in the words of the specification, what is
    stated of the code, and closed forms of what the code computes for
    one row or one group. *)

Definition EqbSpec {K : Type} (eqb : K -> K -> bool) : Prop :=
  forall a b, eqb a b = true <-> a = b.

(** A row carries a denylisted location when its location text holds one
    of the three tokens. *)
Definition denylisted (r : Row) : Prop :=
  exists s tok,
    tx_location r = Some s /\ In tok denylist /\ occurs_in tok s.

(** *** Meal periods *)

(** The four half-open clock intervals, in minutes since midnight:
    [06:30,10:00), [10:00,15:00), [15:00,19:30), [19:30,22:30). *)
Definition intervals : list (Z * Z * string) :=
  [ (390, 600, "早饭"); (600, 900, "午饭");
    (900, 1170, "晚饭"); (1170, 1350, "夜宵") ].

Definition within (m : Z) (i : Z * Z * string) : Prop :=
  fst (fst i) <= m < snd (fst i).

(** [m] falls in exactly one of the intervals, the one labelled [l]. *)
Definition in_exactly_one (m : Z) (l : string) : Prop :=
  exists i, In i intervals /\ within m i /\ snd i = l
            /\ forall j, In j intervals -> within m j -> j = i.

(** What the classifier makes of one row: nothing when the time does not
    parse or lies outside every interval, else the row with its timestamp
    and its period. *)
Definition classify_row (parse : string -> option datetime) (r : Row)
  : option Row :=
  match to_datetime parse (tx_time r) with
  | Stamp t =>
      match pd_cut bins labels (Some (hour t * 60 + minute t)) with
      | Some l => Some (set_meal (set_time r (Stamp t)) (Some l))
      | None => None
      end
  | _ => None
  end.

(** The classifier returns a table that holds row [r], read at time [t],
    with [x] in its period column. *)
Definition returned_as (parse : string -> option datetime) (df : DataFrame)
           (r : Row) (t : datetime) (x : option string) : Prop :=
  exists out,
    fst (fst (prepare_meal_period_data parse df)) = Some out
    /\ In (set_meal (set_time r (Stamp t)) x) (rows out).

(** Row [r], read at time [t], is in no table the classifier returns,
    whatever its period column would hold. *)
Definition dropped (parse : string -> option datetime) (df : DataFrame)
           (r : Row) (t : datetime) : Prop :=
  forall x, ~ returned_as parse df r t x.

(** A row as the classifier leaves it: it holds a timestamp and the period
    of that timestamp. *)
Definition well_classified (r : Row) : Prop :=
  exists t l, stamp r = Some t /\ meal r = Some l
              /\ pd_cut bins labels (Some (hour t * 60 + minute t)) = Some l.

(** The time of the row parses and falls in the day window
    [06:30, 22:30). *)
Definition in_window (parse : string -> option datetime) (r : Row) : Prop :=
  exists t, to_datetime parse (tx_time r) = Stamp t
            /\ 390 <= hour t * 60 + minute t < 1350.

(** *** Location totals and per-meal figures *)

Definition at_location (loc : string) (l : list Row) : list Row :=
  filter (fun r => option_eqb String.eqb (tx_location r) (Some loc)) l.

(** The row belongs to period [m]. *)
Definition in_meal (m : string) (r : Row) : bool :=
  match meal r with Some k => String.eqb k m | None => false end.

(** The rows of a period, and the period's total spending. *)
Definition period_rows (m : string) (l : list Row) : list Row :=
  filter (fun r => option_eqb String.eqb (meal r) (Some m)) l.

Definition period_total (m : string) (l : list Row) : Q :=
  sum_amount (period_rows m l).

(** [n] is the number of distinct (date, period) visits of period [m]:
    the number of distinct dates on which the period has a row. *)
Definition visit_count (m : string) (l : list Row) (n : nat) : Prop :=
  exists ds : list (option date),
    NoDup ds
    /\ (forall d, In d ds <->
                  exists r, In r l /\ meal r = Some m /\ row_date r = d)
    /\ n = List.length ds.

(** *** Calendar dates and the attendance span *)

Definition days_in_month (y m : Z) : Z :=
  if (m =? 2) && is_leap y then 29
  else nth (Z.to_nat m) [0; 31; 28; 31; 30; 31; 30; 31; 31; 30; 31; 30; 31] 0.

(** The dates a timestamp can hold. *)
Definition valid_date (d : date) : Prop :=
  1 <= d_month d <= 12 /\ 1 <= d_day d <= days_in_month (d_year d) (d_month d).

(** The dates of all rows whose time parses, inside the day window or
    not. *)
Definition all_dates (parse : string -> option datetime) (df : DataFrame)
  : list date :=
  values row_date (rows (parsed parse df)).

Definition is_earliest (d : date) (l : list date) : Prop :=
  In d l /\ forall x, In x l -> date_leb d x = true.

Definition is_latest (d : date) (l : list date) : Prop :=
  In d l /\ forall x, In x l -> date_leb x d = true.

(** *** Visits and extremes *)

(** The rows of the visit on date [d] in period [m]. *)
Definition visit_rows (d : date) (m : string) (l : list Row) : list Row :=
  group visit_key visit_of (d, m) l.

(** [v] is the record of a visit of the classified rows [l]: the visit has
    rows, its first time is the earliest timestamp among them, its clock
    time is that of the first time, and its total is the sum of their
    amounts. *)
Definition is_visit (l : list Row) (v : Visit) : Prop :=
  let g := visit_rows (v_date v) (v_meal v) l in
  g <> []
  /\ (exists t,
        first_time v = Some t
        /\ clock_minutes v = Some (clock_of t)
        /\ (exists r, In r g /\ stamp r = Some t)
        /\ forall r t', In r g -> stamp r = Some t' ->
                        datetime_leb t t' = true)
  /\ total_amount v = Some (sum_amount g).

(** Visits that carry their first time and the clock time of it. *)
Definition timed (v : Visit) : Prop :=
  exists t, first_time v = Some t /\ clock_minutes v = Some (clock_of t).

(** Visits that carry a total. *)
Definition priced (v : Visit) : Prop := exists q, total_amount v = Some q.

Definition time_of (v : Visit) (t : datetime) : Prop := first_time v = Some t.

(** The record [meal_summary] holds for the group key [k]. *)
Definition visit_record (l : list Row) (k : date * string) : Visit :=
  let g := group visit_key visit_of k (sort_by_time l) in
  {| v_date := fst k;
     v_meal := snd k;
     first_time := first_valid (map stamp g);
     first_location :=
       match first_valid (map tx_location g) with
       | Some s => s
       | None => unknown_location
       end;
     total_amount :=
       lookup (key_eqb visit_key) k (groupby visit_key visit_of sum_amount l);
     clock_minutes := option_map clock_of (first_valid (map stamp g)) |}.

(** The pick is the visit with the earliest first timestamp. *)
Definition earliest_overall (ms : list Visit) (pick : option Visit) : Prop :=
  match pick with
  | Some v =>
      In v ms
      /\ exists t, time_of v t
           /\ forall w t', In w ms -> time_of w t' ->
                           datetime_leb t t' = true
  | None => ms = []
  end.

(** The pick has the earliest clock time of day; among equal clock times
    it has the earliest timestamp. *)
Definition earliest_by_clock (ms : list Visit) (pick : option Visit) : Prop :=
  match pick with
  | Some v =>
      In v ms
      /\ exists t, time_of v t
           /\ forall w t', In w ms -> time_of w t' ->
                (clock_of t < clock_of t')%Q
                \/ ((clock_of t == clock_of t')%Q
                    /\ datetime_leb t t' = true)
  | None => ms = []
  end.

(** The pick has the latest clock time of day; among equal clock times it
    has the latest timestamp. *)
Definition latest_by_clock (ms : list Visit) (pick : option Visit) : Prop :=
  match pick with
  | Some v =>
      In v ms
      /\ exists t, time_of v t
           /\ forall w t', In w ms -> time_of w t' ->
                (clock_of t' < clock_of t)%Q
                \/ ((clock_of t' == clock_of t)%Q
                    /\ datetime_leb t' t = true)
  | None => ms = []
  end.

(** The pick has the highest total; among equal totals it is the one that
    appears first. *)
Definition costliest (ms : list Visit) (pick : option Visit) : Prop :=
  match pick with
  | Some v =>
      exists before after q,
        ms = (before ++ v :: after)%list
        /\ total_amount v = Some q
        /\ (forall w q', In w before -> total_amount w = Some q' ->
                         (q' < q)%Q)
        /\ (forall w q', In w after -> total_amount w = Some q' ->
                         (q' <= q)%Q)
  | None => ms = []
  end.

Definition placeholder : list Cell :=
  [Txt no_record; Txt no_record; Txt no_record].

(** What the table shows for a pick among [candidates]: the placeholder
    when there is no candidate, else the location, total and first time of
    the picked visit. *)
Definition shown (candidates : list Visit) (pick : option Visit) : Prop :=
  (candidates = [] /\ format_row pick = placeholder)
  \/ (exists v t,
        candidates <> [] /\ pick = Some v /\ first_time v = Some t
        /\ format_row pick
           = [Txt (first_location v); Money (total_amount v); Moment t]).

(** ** Sample inputs *)

Definition at_time (y m d h mi s : Z) : datetime :=
  {| year := y; month := m; day := d; hour := h; minute := mi; second := s |}.

Definition row_at (t : datetime) (event : string) (loc : option string)
           (amount : Q) : Row :=
  {| tx_time := Stamp t; tx_event := event; tx_location := loc;
     tx_amount := amount; meal := None |}.

Definition never_parses (s : string) : option datetime := None.

(** A directory with an older [.xlsx] file and a newer [.xls] file. *)
Definition two_excel_files : FileSystem :=
  {| expanduser := fun p => inr p;
     is_dir := fun p => inr (String.eqb p ".");
     exists_ := fun p => inr (String.eqb p ".");
     listdir := fun _ => [ {| path := "old.xlsx"; st_mtime := 100 |};
                           {| path := "new.xls"; st_mtime := 200 |} ];
     stat_error := fun _ => None |}.

(** The report sits in [reports/data.xlsx]; the working directory holds an
    unrelated [other.csv]. *)
Definition typo_fs : FileSystem :=
  {| expanduser := fun p => inr p;
     is_dir := fun p => inr (String.eqb p ".");
     exists_ := fun p =>
       inr (String.eqb p "." || String.eqb p "reports/data.xlsx");
     listdir := fun d =>
       if String.eqb d "." then [ {| path := "other.csv"; st_mtime := 7 |} ]
       else [];
     stat_error := fun _ => None |}.


Definition no_such_file (name : string) : Exn :=
  FileNotFoundError
    ("[Errno 2] No such file or directory: '" ++ name ++ "'").

(** A directory with a data file and a link to nothing. *)
Definition dangling_link_fs : FileSystem :=
  {| expanduser := fun p => inr p;
     is_dir := fun p => inr (String.eqb p ".");
     exists_ := fun p => inr (String.eqb p ".");
     listdir := fun _ => [ {| path := "real.xlsx"; st_mtime := 5 |};
                           {| path := "gone.csv"; st_mtime := 0 |} ];
     stat_error := fun f =>
       if String.eqb (path f) "gone.csv" then Some (no_such_file "gone.csv")
       else None |}.


(** A spending row of the e-commerce platform, a row without location and
    an ordinary canteen row. *)
Definition tmall_table : DataFrame :=
  {| has_location := true; str_location := true;
     rows := [ row_at (at_time 2025 3 1 12 0 0) "持卡人消费"
                      (Some "天猫校园店") 30;
               row_at (at_time 2025 3 1 12 5 0) "持卡人消费" None 4;
               row_at (at_time 2025 3 1 12 9 0) "持卡人消费"
                      (Some "观畴园") 12 ] |}.

(** The same table after the preprocessor. *)
Definition tmall_table_filtered : DataFrame :=
  {| has_location := true; str_location := true;
     rows := [ row_at (at_time 2025 3 1 12 5 0) "持卡人消费" None 4;
               row_at (at_time 2025 3 1 12 9 0) "持卡人消费"
                      (Some "观畴园") 12 ] |}.

(** Four transactions at the edges of the day window. *)
Definition boundary_table : DataFrame :=
  {| has_location := true; str_location := true;
     rows := [ row_at (at_time 2025 3 1 6 29 0) "持卡人消费" (Some "A") 1;
               row_at (at_time 2025 3 1 6 30 0) "持卡人消费" (Some "A") 2;
               row_at (at_time 2025 3 1 22 29 0) "持卡人消费" (Some "A") 3;
               row_at (at_time 2025 3 1 22 30 0) "持卡人消费" (Some "A") 4
             ] |}.

(** The example of the specification: two breakfast swipes on one day. *)
Definition two_swipes : DataFrame :=
  {| has_location := true; str_location := true;
     rows := [ row_at (at_time 2025 3 1 7 0 0) "持卡人消费"
                      (Some "Canteen A") 10;
               row_at (at_time 2025 3 1 7 10 0) "持卡人消费"
                      (Some "Canteen A") 5 ] |}.

(** A single transaction at 23:00. *)
Definition late_only : DataFrame :=
  {| has_location := true; str_location := true;
     rows := [ row_at (at_time 2025 3 1 23 0 0) "持卡人消费"
                      (Some "Canteen A") 8 ] |}.

(** One lunch on the only day of the dataset. *)
Definition one_lunch : DataFrame :=
  {| has_location := true; str_location := true;
     rows := [ row_at (at_time 2025 3 1 12 0 0) "持卡人消费"
                      (Some "Canteen A") 8 ] |}.

(** The scenario of the specification: on one day, a transaction at 23:00
    and another at 20:00. *)
Definition late_snack_scenario : DataFrame :=
  {| has_location := true; str_location := true;
     rows := [ row_at (at_time 2025 3 1 23 0 0) "持卡人消费"
                      (Some "Canteen B") 9;
               row_at (at_time 2025 3 1 20 0 0) "持卡人消费"
                      (Some "Canteen A") 6 ] |}.

Definition visit_at_20 : Visit :=
  {| v_date := {| d_year := 2025; d_month := 3; d_day := 1 |};
     v_meal := "夜宵";
     first_time := Some (at_time 2025 3 1 20 0 0);
     first_location := "Canteen A";
     total_amount := Some 6%Q;
     clock_minutes := Some (clock_of (at_time 2025 3 1 20 0 0)) |}.

(** ** Further routines of [main.py] *)

(** [main], lines 912-922: the location totals of the preprocessed
    spending rows. *)
Definition main_location_spending (df : DataFrame)
  : Outcome (list (string * Q)) :=
  and_then (preprocess_data df)
    (fun df => location_spending (select_spending df)).

(** The candidates of a directory, of the three extensions. *)
Definition candidates (fs : FileSystem) (d : string) : list File :=
  (glob fs d ".csv" ++ glob fs d ".xlsx" ++ glob fs d ".xls")%list.

(** A directory with one Excel file, and one with a CSV file older than an
    Excel file. *)
Definition single_excel : FileSystem :=
  {| expanduser := fun p => inr p;
     is_dir := fun p => inr (String.eqb p ".");
     exists_ := fun p => inr (String.eqb p ".");
     listdir := fun _ => [ {| path := "notes.txt"; st_mtime := 9 |};
                           {| path := "card.xlsx"; st_mtime := 5 |} ];
     stat_error := fun _ => None |}.

Definition csv_and_excel : FileSystem :=
  {| expanduser := fun p => inr p;
     is_dir := fun p => inr (String.eqb p ".");
     exists_ := fun p => inr (String.eqb p ".");
     listdir := fun _ => [ {| path := "new.xlsx"; st_mtime := 50 |};
                           {| path := "a.csv"; st_mtime := 10 |};
                           {| path := "b.csv"; st_mtime := 20 |} ];
     stat_error := fun _ => None |}.

(** The time of the row parses. *)
Definition parses (parse : string -> option datetime) (r : Row) : Prop :=
  exists t, to_datetime parse (tx_time r) = Stamp t.

(** What a transaction says besides its time and period. *)
Definition payload (r : Row) : string * option string * Q :=
  (tx_event r, tx_location r, tx_amount r).

Section MealCharts.

Variable parse : string -> option datetime.

(** [create_meal_period_chart], up to the series that is plotted. *)
Definition create_meal_period_chart (spending_df : DataFrame)
  : Outcome (list (string * Q)) :=
  match classified parse spending_df "，跳过各餐消费图表生成。" with
  | Ok (df, labels) =>
      Ok (reindex String.eqb labels 0%Q
            (groupby meal_key meal sum_amount (rows df)))
  | Skip m => Skip m
  | Raise e => Raise e
  end.

(** [create_meal_count_chart], up to the series that is plotted. *)
Definition create_meal_count_chart (spending_df : DataFrame)
  : Outcome (list (string * Q)) :=
  match classified parse spending_df "，跳过各餐次数图表生成。" with
  | Ok (df, labels) => Ok (visits_per_meal df labels)
  | Skip m => Skip m
  | Raise e => Raise e
  end.

End MealCharts.

(** Text that never parses except for one known timestamp. *)
Definition parses_noon (s : string) : option datetime :=
  if String.eqb s "2025-03-01 12:00:00"
  then Some (at_time 2025 3 1 12 0 0) else None.

(** A table of raw text: one cell that parses, one that does not, and a
    timestamp outside the day window. *)
Definition mixed_table : DataFrame :=
  {| has_location := true; str_location := true;
     rows := [ {| tx_time := Text "2025-03-01 12:00:00";
                  tx_event := "持卡人消费"; tx_location := Some "A";
                  tx_amount := 8; meal := None |};
               {| tx_time := Text "n/a";
                  tx_event := "持卡人消费"; tx_location := Some "A";
                  tx_amount := 1; meal := None |};
               row_at (at_time 2025 3 1 23 0 0) "持卡人消费" (Some "B") 2
             ] |}.

(** The subset [['日期', '餐次', '交易地点']] of a row. *)
Definition date_meal_location (r : Row)
  : option date * option string * option string :=
  (row_date r, meal r, tx_location r).

Definition date_meal_location_eqb
           (a b : option date * option string * option string) : bool :=
  date_meal_eqb (fst a) (fst b) && option_eqb String.eqb (snd a) (snd b).

(** [n] is the number of distinct (date, period) visits that touch
    location [loc]. *)
Definition location_visit_count (loc : string) (l : list Row) (n : nat)
  : Prop :=
  exists vs : list (option date * option string),
    NoDup vs
    /\ (forall v, In v vs <->
                  exists r, In r l /\ tx_location r = Some loc
                            /\ date_meal r = v)
    /\ n = List.length vs.

(** The row belongs to the group of location [loc]. *)
Definition at_loc (loc : string) (r : Row) : bool :=
  match tx_location r with Some k => String.eqb k loc | None => false end.

Section CanteenAverage.

Variable parse : string -> option datetime.

(** [create_canteen_avg_per_meal_chart], up to the series that is
    plotted. *)
Definition create_canteen_avg_per_meal_chart (spending_df : DataFrame)
  : Outcome (list (string * Q)) :=
  match classified parse spending_df "，跳过各食堂顿均消费图表生成。" with
  | Ok (df, _) =>
      if negb (has_location df)
      then Skip "缺少交易地点字段，跳过各食堂顿均消费图表生成。"
      else
        let total_spending :=
          groupby string_key tx_location sum_amount (rows df) in
        let meal_counts :=
          groupby string_key tx_location size
            (drop_duplicates date_meal_location_eqb date_meal_location
               (rows df)) in
        match divide String.eqb total_spending (where_nonzero meal_counts)
        with
        | Ok quotient =>
            let avg_spending :=
              sort_by (by_key (descending Qle_bool) snd)
                      (fillna 0%Q quotient) in
            if negb (nonempty avg_spending)
            then Skip "没有可用于统计的食堂数据，跳过各食堂顿均消费图表生成。"
            else Ok avg_spending
        | Skip m => Skip m
        | Raise e => Raise e
        end
  | Skip m => Skip m
  | Raise e => Raise e
  end.

End CanteenAverage.

(** Two visits to canteen A (one of two swipes) and one to canteen B. *)
Definition three_visits : DataFrame :=
  {| has_location := true; str_location := true;
     rows := [ row_at (at_time 2025 3 1 7 0 0) "持卡人消费" (Some "A") 10;
               row_at (at_time 2025 3 1 7 10 0) "持卡人消费" (Some "A") 5;
               row_at (at_time 2025 3 1 12 0 0) "持卡人消费" (Some "A") 9;
               row_at (at_time 2025 3 2 12 0 0) "持卡人消费" (Some "B") 20;
               row_at (at_time 2025 3 2 12 30 0) "持卡人消费" None 3 ] |}.

(** ** Spending of one year, month by month *)

Definition int_key : KeyOps Z := {| key_eqb := Z.eqb; key_leb := Z.leb |}.

(** The derived column 月份: [df['交易时间'].dt.month]. *)
Definition row_month (r : Row) : option Z := option_map month (stamp r).

(** [range(1, 13)] *)
Definition months : list Z := [1; 2; 3; 4; 5; 6; 7; 8; 9; 10; 11; 12].

Definition no_records_of_year (y : Z) : string :=
  "没有 " ++ decimal y ++ " 年的交易记录，跳过消费/充值统计图表生成。".

Section YearlySpending.

Variable parse : string -> option datetime.

(** [create_yearly_spending_chart], up to the total of the title and the
    twelve bars. The table it is given holds every event, not only the
    spending. *)
Definition create_yearly_spending_chart (all_df : DataFrame) (y : Z)
  : Outcome (Q * list (Z * Q)) :=
  let df := of_year y (parsed parse all_df) in
  if empty df then Skip (no_records_of_year y)
  else
    let spending_total := sum_amount (rows (select_spending df)) in
    let monthly :=
      groupby int_key row_month sum_amount (rows (select_spending df)) in
    Ok (spending_total, reindex Z.eqb months 0%Q monthly).

(** A spending row of the source table whose time falls in year [y]. *)
Definition spent_in_year (y : Z) (r : Row) : bool :=
  isin (tx_event r) spending_events
  && match to_datetime parse (tx_time r) with
     | Stamp t => year t =? y
     | _ => false
     end.

(** A spending row of the source table whose time falls in month [m] of
    year [y]. *)
Definition spent_in_month (y m : Z) (r : Row) : bool :=
  isin (tx_event r) spending_events
  && match to_datetime parse (tx_time r) with
     | Stamp t => (year t =? y) && (month t =? m)
     | _ => false
     end.

End YearlySpending.

(** Spending in two months of 2025, a recharge, and a row of 2024. *)
Definition year_table : DataFrame :=
  {| has_location := true; str_location := true;
     rows := [ row_at (at_time 2025 3 1 12 0 0) "持卡人消费" (Some "A") 10;
               row_at (at_time 2025 3 9 12 0 0) "离线码在线消费" (Some "A") 5;
               row_at (at_time 2025 11 2 18 0 0) "持卡人消费" (Some "B") 7;
               row_at (at_time 2025 4 2 9 0 0) "领取圈存" None 100;
               row_at (at_time 2024 12 31 12 0 0) "持卡人消费" (Some "A") 8 ] |}.

(** Only a recharge in 2025. *)
Definition recharge_only : DataFrame :=
  {| has_location := true; str_location := true;
     rows := [ row_at (at_time 2025 4 2 9 0 0) "领取圈存" None 100 ] |}.

(** ** Average spending per active day, month by month *)

(** [.dt.to_period('M')]: a month of a year; periods are ordered in
    time. *)
Definition to_period_M (d : date) : Z * Z := (d_year d, d_month d).

Definition period_key : KeyOps (Z * Z) := pair_key int_key int_key.

(** [.mean()]: missing for an empty group. *)
Definition mean (l : list Q) : option Q :=
  match l with
  | [] => None
  | _ :: _ => Some (Qsum l / inject_Z (Z.of_nat (List.length l)))%Q
  end.

Section MonthlyDailyAverage.

Variable parse : string -> option datetime.

(** [create_monthly_daily_avg_chart], up to the series that is plotted. *)
Definition create_monthly_daily_avg_chart (spending_df : DataFrame)
  : Outcome (list (Z * Z * option Q)) :=
  let df := parsed parse spending_df in
  if empty df
  then Skip "没有可用于统计的交易时间数据，跳过各月份日均食堂消费图表生成。"
  else
    let daily_totals := groupby date_key row_date sum_amount (rows df) in
    let monthly_avg :=
      sort_by (by_key (key_leb period_key) fst)
        (groupby period_key
           (fun dt : date * Q => Some (to_period_M (fst dt)))
           (fun g => mean (map snd g)) daily_totals) in
    Ok monthly_avg.

(** [days] are the distinct dates of the month [ym] on which the table has
    a row whose time parses. *)
Definition active_days (df : DataFrame) (ym : Z * Z) (days : list date)
  : Prop :=
  NoDup days
  /\ forall d, In d days <->
               In d (all_dates parse df) /\ to_period_M d = ym.

(** A row of the source table whose time falls on the date [d], and the
    sum of the amounts of these rows. *)
Definition on_date (d : date) (r : Row) : bool :=
  match to_datetime parse (tx_time r) with
  | Stamp t => date_eqb (dt_date t) d
  | _ => false
  end.

Definition daily_total (df : DataFrame) (d : date) : Q :=
  sum_amount (filter (on_date d) (rows df)).

End MonthlyDailyAverage.

(** Two swipes on one day and one on another day of March 2025, and one
    swipe in January. *)
Definition two_months : DataFrame :=
  {| has_location := true; str_location := true;
     rows := [ row_at (at_time 2025 3 1 7 0 0) "持卡人消费" (Some "A") 10;
               row_at (at_time 2025 3 1 12 0 0) "持卡人消费" (Some "A") 6;
               row_at (at_time 2025 1 5 12 0 0) "持卡人消费" (Some "B") 9;
               row_at (at_time 2025 3 20 12 0 0) "持卡人消费" (Some "B") 4 ] |}.

(** ** Pie chart: merging the small slices *)

(** [a < b] on amounts. *)
Definition Qlt_bool (a b : Q) : bool := negb (Qle_bool b a).

Definition other : string := "其他".

Section PieChart.

(** The arithmetic of the chart is done on floating point numbers:
    [series_sum] stands for [Series.sum()] and [percent total x] for the
    rounded [x / total * 100]. *)
Variable series_sum : list Q -> Q.
Variable percent : Q -> Q -> Q.

(** [location_spending / total * 100], entry by entry. *)
Definition share (total : Q) (kv : string * Q) : Q := percent total (snd kv).

(** [create_pie_chart], up to the slices that are drawn. *)
Definition create_pie_chart (location_spending : list (string * Q))
           (min_percent : Q) : list (string * Q) :=
  let total := series_sum (map snd location_spending) in
  if Qlt_bool 0 total
  then
    let major :=
      filter (fun kv => Qle_bool min_percent (share total kv))
             location_spending in
    let minor :=
      filter (fun kv => Qlt_bool (share total kv) min_percent)
             location_spending in
    if nonempty minor
    then (major ++ [(other, series_sum (map snd minor))])%list
    else location_spending
  else location_spending.

End PieChart.

(** The percentage without rounding. *)
Definition exact_percent (total x : Q) : Q := (x / total * 100)%Q.

(** Totals in descending order, two of them under three percent. *)
Definition pie_totals : list (string * Q) :=
  [("A", 60%Q); ("B", 37%Q); ("C", 2%Q); ("D", 1%Q)].

(** ** First and last time of each period *)

(** [.agg(first='min', last='max')] on the time column of one group. *)
Definition first_last (g : list Row) : option datetime * option datetime :=
  (min_by datetime_leb (values stamp g),
   min_by (descending datetime_leb) (values stamp g)).

(** [per_meal_day]: one line per (date, period) visit. *)
Definition per_meal_day (l : list Row)
  : list (date * string * (option datetime * option datetime)) :=
  groupby visit_key visit_of first_last l.

Definition first_minute_of
           (v : date * string * (option datetime * option datetime))
  : option Q := option_map clock_of (fst (snd v)).

Definition last_minute_of
           (v : date * string * (option datetime * option datetime))
  : option Q := option_map clock_of (snd (snd v)).

(** A line of [summary]. *)
Record TimeSummary : Type := {
  first_minute : option Q;
  last_minute : option Q;
  avg_first_minute : option Q
}.

Definition summarise
           (g : list (date * string * (option datetime * option datetime)))
  : TimeSummary :=
  {| first_minute := min_by Qle_bool (values first_minute_of g);
     last_minute := min_by (descending Qle_bool) (values last_minute_of g);
     avg_first_minute := mean (values first_minute_of g) |}.

(** The line that [reindex] gives a period without a visit. *)
Definition missing_summary : TimeSummary :=
  {| first_minute := None; last_minute := None; avg_first_minute := None |}.

Section FirstLastTime.

Variable parse : string -> option datetime.

(** [create_meal_first_last_time_chart], up to the table [summary] that is
    drawn. *)
Definition create_meal_first_last_time_chart (spending_df : DataFrame)
  : Outcome (list (string * TimeSummary)) :=
  match classified parse spending_df
          "，跳过各餐第一笔与最后一笔消费时间图表生成。" with
  | Ok (df, labels) =>
      let per_meal_day := per_meal_day (rows df) in
      if negb (nonempty per_meal_day)
      then Skip "没有可用于统计的餐次数据，跳过各餐第一笔与最后一笔消费时间图表生成。"
      else
        Ok (reindex String.eqb labels missing_summary
              (groupby meal_key
                 (fun v : date * string
                          * (option datetime * option datetime) =>
                    Some (snd (fst v)))
                 summarise per_meal_day))
  | Skip m => Skip m
  | Raise e => Raise e
  end.

End FirstLastTime.

(** The times of day, in minutes, of the rows of period [m]. *)
Definition clock_times (m : string) (l : list Row) : list Q :=
  map clock_of (values stamp (period_rows m l)).

(** The dates on which period [m] has a row, each once. *)
Definition visit_dates (m : string) (l : list Row) (days : list date)
  : Prop :=
  NoDup days
  /\ forall d, In d days <->
               exists r t, In r l /\ meal r = Some m /\ stamp r = Some t
                           /\ dt_date t = d.

(** [x] is the time of day of the first row of period [m] on date [d]. *)
Definition first_clock_of_visit (m : string) (l : list Row) (d : date)
           (x : Q) : Prop :=
  (exists r t, In r l /\ meal r = Some m /\ stamp r = Some t
               /\ dt_date t = d /\ clock_of t = x)
  /\ forall r t, In r l -> meal r = Some m -> stamp r = Some t ->
                 dt_date t = d -> (x <= clock_of t)%Q.

(** A time of day as a timestamp holds it. *)
Definition valid_clock (t : datetime) : Prop :=
  0 <= minute t < 60 /\ 0 <= second t < 60.

(** Two breakfasts, on two days, and one lunch. *)
Definition breakfasts : DataFrame :=
  {| has_location := true; str_location := true;
     rows := [ row_at (at_time 2025 3 1 7 0 30) "持卡人消费" (Some "A") 10;
               row_at (at_time 2025 3 1 7 20 0) "持卡人消费" (Some "A") 5;
               row_at (at_time 2025 3 2 8 0 0) "持卡人消费" (Some "A") 9;
               row_at (at_time 2025 3 2 12 0 0) "持卡人消费" (Some "B") 20 ] |}.

(** ** Which canteen at which meal *)

(** The key [['餐次', '交易地点']] of a row. *)
Definition meal_location (r : Row) : option (string * string) :=
  match meal r, tx_location r with
  | Some m, Some l => Some (m, l)
  | _, _ => None
  end.

Definition meal_location_key : KeyOps (string * string) :=
  pair_key meal_key string_key.

(** A table of numbers with a row index and columns; a cell can be
    missing. *)
Record Frame : Type := {
  f_index : list string;
  f_columns : list string;
  f_cell : string -> string -> option Q
}.

(** [s.unstack(fill_value=0).reindex(labels)] on a series indexed by
    (period, location): the columns are the locations in order, a period
    of the series gets 0 where it has no entry, and a period that the
    series does not hold gets a row of missing cells. *)
Definition unstack_reindex (labels : list string)
           (s : list (string * string * Q)) : Frame :=
  {| f_index := labels;
     f_columns :=
       sort_by String.leb
         (distinct String.eqb (map (fun e => snd (fst e)) s));
     f_cell := fun m c =>
       if isin m (map (fun e => fst (fst e)) s)
       then Some match lookup (key_eqb meal_location_key) (m, c) s with
                 | Some n => n
                 | None => 0%Q
                 end
       else None |}.

(** [DataFrame.empty] *)
Definition frame_empty (f : Frame) : bool :=
  negb (nonempty (f_index f)) || negb (nonempty (f_columns f)).

Definition cells (f : Frame) : list (option Q) :=
  flat_map (fun m => map (f_cell f m) (f_columns f)) (f_index f).

(** [f.values.sum()]: missing as soon as one cell is missing. *)
Definition values_sum (f : Frame) : option Q :=
  if forallb is_some (cells f)
  then Some (Qsum (values (fun c => c) (cells f)))
  else None.

(** [f.sum()]: the sum of each column, missing cells left out. *)
Definition column_sums (f : Frame) : list (string * Q) :=
  map (fun c => (c, Qsum (values (fun m => f_cell f m c) (f_index f))))
      (f_columns f).

(** [f.loc[meal]] *)
Definition frame_loc (f : Frame) (m : string) : list (string * option Q) :=
  map (fun c => (c, f_cell f m c)) (f_columns f).

(** [row[row > 0]] *)
Definition above_zero (row : list (string * option Q))
  : list (string * Q) :=
  values (fun cv => match snd cv with
                    | Some n => if Qlt_bool 0 n then Some (fst cv, n)
                                else None
                    | None => None
                    end) row.

Definition row_sum (row : list (string * Q)) : Q := Qsum (map snd row).

Definition is_small (cv : string * Q) : bool := Qlt_bool (snd cv) 3.

Definition is_other (cv : string * Q) : bool := String.eqb (fst cv) other.

(** The first loop over the periods: is there a bar of three visits or
    more with a canteen of fewer than three? *)
Definition needs_others (f : Frame) (labels : list string) : bool :=
  existsb (fun m =>
             let row := above_zero (frame_loc f m) in
             nonempty row
             && negb (Qlt_bool (row_sum row) 3)
             && nonempty (filter is_small row))
          labels.

(** Inside a bar of three visits or more, the canteens with fewer than
    three are merged into one segment. *)
Definition merge_small (row : list (string * Q)) : list (string * Q) :=
  if Qle_bool 3 (row_sum row)
  then
    let small := filter is_small row in
    let row := filter (fun cv => Qle_bool 3 (snd cv)) row in
    if nonempty small then (row ++ [(other, row_sum small)])%list else row
  else row.

(** The segment labelled 其他 is moved to the end. A label that occurs
    twice makes [row.loc] return a series instead of a number; that case
    is left out of the model. *)
Definition others_last (row : list (string * Q))
  : option (list (string * Q)) :=
  match filter is_other row with
  | [] => Some row
  | [(_, others_value)] =>
      Some (filter (fun cv => negb (is_other cv)) row
            ++ [(other, others_value)])%list
  | _ :: _ :: _ => None
  end.

(** The segments of the bar of one period, from the bottom up. *)
Definition segments (f : Frame) (m : string)
  : option (list (string * Q)) :=
  others_last
    (sort_by (by_key (descending Qle_bool) snd)
       (merge_small (above_zero (frame_loc f m)))).

(** The second loop: every segment looks up its colour,
    [canteen_colors[canteen]]. *)
Fixpoint draw_bars (legend : list string) (f : Frame) (ms : list string)
  : option (Outcome (list (string * list (string * Q)))) :=
  match ms with
  | [] => Some (Ok [])
  | m :: ms' =>
      match segments f m with
      | None => None
      | Some segs =>
          match find (fun cv => negb (isin (fst cv) legend)) segs with
          | Some cv => Some (Raise (KeyError (fst cv)))
          | None =>
              match draw_bars legend f ms' with
              | Some (Ok bars) => Some (Ok ((m, segs) :: bars))
              | o => o
              end
          end
      end
  end.

Definition no_canteen_data : string :=
  "没有可用于统计的食堂数据，跳过每餐去哪家食堂图表生成。".

Section MealCanteen.

Variable parse : string -> option datetime.

(** The table [meal_canteen] of the classified rows. *)
Definition meal_canteen_of (df : DataFrame) (labels : list string)
  : Frame :=
  let dedup :=
    drop_duplicates date_meal_location_eqb date_meal_location (rows df) in
  unstack_reindex labels
    (groupby meal_location_key meal_location size dedup).

(** [create_meal_canteen_chart], up to the legend and the stacked bars.
    [None] stands for the case left out of [others_last]. *)
Definition create_meal_canteen_chart (spending_df : DataFrame)
  : option (Outcome (list string * list (string * list (string * Q)))) :=
  match classified parse spending_df "，跳过每餐去哪家食堂图表生成。" with
  | Ok (df, labels) =>
      if negb (has_location df)
      then Some (Skip "缺少交易地点字段，跳过每餐去哪家食堂图表生成。")
      else
        let meal_canteen := meal_canteen_of df labels in
        if frame_empty meal_canteen
           || match values_sum meal_canteen with
              | Some s => Qeq_bool s 0
              | None => false
              end
        then Some (Skip no_canteen_data)
        else
          let totals :=
            sort_by (by_key (descending Qle_bool) snd)
              (filter (fun cv => Qlt_bool 0 (snd cv))
                 (column_sums meal_canteen)) in
          let canteens := map fst totals in
          let need_others := needs_others meal_canteen labels in
          if negb (nonempty canteens) then Some (Skip no_canteen_data)
          else
            let legend :=
              if need_others then (canteens ++ [other])%list
              else canteens in
            match draw_bars legend meal_canteen labels with
            | Some (Ok bars) => Some (Ok (legend, bars))
            | Some (Skip m) => Some (Skip m)
            | Some (Raise e) => Some (Raise e)
            | None => None
            end
  | Skip m => Some (Skip m)
  | Raise e => Some (Raise e)
  end.

End MealCanteen.

(** Lunches on four days: three at canteen A, one at B and, on one of
    the days, also one at C. *)
Definition lunches : DataFrame :=
  {| has_location := true; str_location := true;
     rows := [ row_at (at_time 2025 3 1 12 0 0) "持卡人消费" (Some "A") 10;
               row_at (at_time 2025 3 2 12 0 0) "持卡人消费" (Some "A") 10;
               row_at (at_time 2025 3 3 12 0 0) "持卡人消费" (Some "A") 10;
               row_at (at_time 2025 3 3 12 30 0) "持卡人消费" (Some "C") 4;
               row_at (at_time 2025 3 4 12 0 0) "持卡人消费" (Some "B") 8;
               row_at (at_time 2025 3 4 7 0 0) "持卡人消费" (Some "B") 3 ] |}.

(** ** Outcomes of the extremes table *)

(** The time of the row parses into year [y]. *)
Definition in_year (parse : string -> option datetime) (y : Z) (r : Row)
  : Prop :=
  exists t, to_datetime parse (tx_time r) = Stamp t /\ year t = y.

(** The time of the row parses into year [y] and into the day window. *)
Definition in_year_window (parse : string -> option datetime) (y : Z)
           (r : Row) : Prop :=
  exists t, to_datetime parse (tx_time r) = Stamp t /\ year t = y
            /\ 390 <= hour t * 60 + minute t < 1350.

(** A lunch in a table without the location column. *)
Definition lunch_without_column : DataFrame :=
  {| has_location := false; str_location := false;
     rows := [ row_at (at_time 2025 3 1 12 0 0) "持卡人消费" None 8 ] |}.

(** * Part II: properties *)

(** ** Sorting *)

Section SortFacts.
Variable A : Type.
Variable le : A -> A -> bool.

Lemma insert_sorted_perm (x : A) (l : list A) :
  Permutation (insert_sorted le x l) (x :: l).
Proof.
  induction l as [|y ys IH]; simpl; [reflexivity|].
  destruct (le x y); [reflexivity|].
  rewrite IH. apply perm_swap.
Qed.

Lemma sort_by_perm (l : list A) : Permutation (sort_by le l) l.
Proof.
  induction l as [|x xs IH]; simpl; [reflexivity|].
  rewrite insert_sorted_perm. now constructor.
Qed.

Lemma sort_by_In (l : list A) (x : A) : In x (sort_by le l) <-> In x l.
Proof.
  split; apply Permutation_in;
    [apply sort_by_perm | symmetry; apply sort_by_perm].
Qed.

Lemma sort_by_nil (l : list A) : sort_by le l = [] -> l = [].
Proof.
  intros H. apply Permutation_nil. rewrite <- H. apply sort_by_perm.
Qed.

Lemma sort_by_nonempty (l : list A) :
  nonempty (sort_by le l) = nonempty l.
Proof.
  destruct l as [|x xs]; [reflexivity|].
  destruct (sort_by le (x :: xs)) eqn:E; [|reflexivity].
  apply sort_by_nil in E. discriminate.
Qed.

Hypothesis le_total : Total le.
Hypothesis le_trans : Transitive le.

Lemma insert_sorted_sorted (x : A) (l : list A) :
  StronglySorted (fun a b => le a b = true) l ->
  StronglySorted (fun a b => le a b = true) (insert_sorted le x l).
Proof.
  induction 1 as [|y ys Hs IH Hy]; simpl.
  - repeat constructor.
  - destruct (le x y) eqn:E.
    + constructor; [now constructor|].
      constructor; [exact E|].
      rewrite Forall_forall in *. intros z Hz. eauto.
    + constructor; [exact IH|].
      rewrite Forall_forall in *. intros z Hz.
      apply (Permutation_in _ (insert_sorted_perm x ys)) in Hz.
      destruct Hz as [<-|Hz]; [|auto].
      destruct (le_total x y) as [H|H]; congruence.
Qed.

Lemma sort_by_sorted (l : list A) :
  StronglySorted (fun a b => le a b = true) (sort_by le l).
Proof.
  induction l; simpl; [constructor | now apply insert_sorted_sorted].
Qed.

(** The first row of a sorted table is an element of the input that no
    element of the input precedes strictly. *)
Lemma sort_by_head (l : list A) (x : A) :
  hd_error (sort_by le l) = Some x -> In x l /\ le_all le x l.
Proof.
  destruct (sort_by le l) as [|h t] eqn:E; [discriminate|].
  intros [= ->]. split.
  - apply sort_by_In. rewrite E. now left.
  - intros y Hy. apply sort_by_In in Hy. rewrite E in Hy.
    pose proof (sort_by_sorted l) as S. rewrite E in S.
    inversion S as [|? ? _ F]; subst.
    destruct Hy as [<-|Hy].
    + destruct (le_total x x); assumption.
    + rewrite Forall_forall in F. auto.
Qed.

Lemma sort_by_head_exists (l : list A) :
  l <> [] -> exists x, hd_error (sort_by le l) = Some x.
Proof.
  intros H. destruct (sort_by le l) eqn:E.
  - apply sort_by_nil in E. contradiction.
  - eexists. reflexivity.
Qed.

End SortFacts.

(** ** The orders used by the code are total and transitive *)

Lemma by_key_total (A B : Type) (le : A -> A -> bool) (f : B -> A) :
  Total le -> Total (by_key le f).
Proof. intros T x y. apply T. Qed.

Lemma by_key_trans (A B : Type) (le : A -> A -> bool) (f : B -> A) :
  Transitive le -> Transitive (by_key le f).
Proof. intros T x y z. apply T. Qed.

Lemma descending_total (A : Type) (le : A -> A -> bool) :
  Total le -> Total (descending le).
Proof. intros T x y. destruct (T x y); [right|left]; assumption. Qed.

Lemma descending_trans (A : Type) (le : A -> A -> bool) :
  Transitive le -> Transitive (descending le).
Proof. intros T x y z H1 H2. exact (T z y x H2 H1). Qed.

Lemma nan_last_total (A : Type) (le : A -> A -> bool) :
  Total le -> Total (nan_last le).
Proof. intros T [x|] [y|]; simpl; auto. Qed.

Lemma nan_last_trans (A : Type) (le : A -> A -> bool) :
  Transitive le -> Transitive (nan_last le).
Proof.
  intros T [x|] [y|] [z|]; simpl; auto; try discriminate. apply T.
Qed.

Lemma lex_total (A : Type) (le le2 : A -> A -> bool) :
  Total le -> Total le2 -> Total (lex le le2).
Proof.
  intros T T2 x y. unfold lex.
  destruct (le x y) eqn:E1, (le y x) eqn:E2; auto.
  destruct (T x y); congruence.
Qed.

Lemma lex_trans (A : Type) (le le2 : A -> A -> bool) :
  Transitive le -> Transitive le2 -> Transitive (lex le le2).
Proof.
  intros T T2 x y z. unfold lex.
  destruct (le x y) eqn:Exy; [|discriminate].
  destruct (le y z) eqn:Eyz; [|destruct (le y x); discriminate].
  rewrite (T _ _ _ Exy Eyz).
  destruct (le z x) eqn:Ezx; [|reflexivity].
  rewrite (T _ _ _ Eyz Ezx), (T _ _ _ Ezx Exy). apply T2.
Qed.

Lemma Zleb_total : Total Z.leb.
Proof. intros x y. rewrite !Z.leb_le. lia. Qed.

Lemma Zleb_trans : Transitive Z.leb.
Proof. intros x y z. rewrite !Z.leb_le. lia. Qed.

Lemma Qle_bool_total : Total Qle_bool.
Proof.
  intros x y. rewrite !Qle_bool_iff.
  destruct (Qlt_le_dec x y) as [H|H]; [left; now apply Qlt_le_weak|now right].
Qed.

Lemma Qle_bool_trans : Transitive Qle_bool.
Proof. intros x y z. rewrite !Qle_bool_iff. apply Qle_trans. Qed.

Lemma tuple_leb_total : Total tuple_leb.
Proof.
  intros a. induction a as [|x xs IH]; intros [|y ys]; simpl; auto.
  destruct (x <? y) eqn:E1, (y <? x) eqn:E2; auto.
Qed.

Lemma tuple_leb_trans : Transitive tuple_leb.
Proof.
  intros a. induction a as [|x xs IH]; intros [|y ys] [|z zs]; simpl; auto;
    try discriminate.
  destruct (x <? y) eqn:E1, (y <? x) eqn:E2, (y <? z) eqn:E3,
    (z <? y) eqn:E4, (x <? z) eqn:E5, (z <? x) eqn:E6;
    try discriminate; auto;
    rewrite ?Z.ltb_lt, ?Z.ltb_ge in *; try lia.
  apply IH.
Qed.

Lemma datetime_leb_total : Total datetime_leb.
Proof. intros x y. apply tuple_leb_total. Qed.

Lemma datetime_leb_trans : Transitive datetime_leb.
Proof. intros x y z. apply tuple_leb_trans. Qed.

Lemma date_leb_total : Total date_leb.
Proof. intros x y. apply tuple_leb_total. Qed.

Lemma date_leb_trans : Transitive date_leb.
Proof. intros x y z. apply tuple_leb_trans. Qed.

Lemma newest_first_total : Total newest_first.
Proof. apply by_key_total, descending_total, Zleb_total. Qed.

Lemma newest_first_trans : Transitive newest_first.
Proof. apply by_key_trans, descending_trans, Zleb_trans. Qed.

(** ** File resolver *)

Lemma glob_In (fs : FileSystem) (d ext : string) (f : File) :
  In f (glob fs d ext) <->
  In f (listdir fs d) /\ ends_with ext (path f) = true.
Proof. unfold glob. apply filter_In. Qed.

Lemma sorted_by_mtime_head (l : list File) (f : File) :
  hd_error (sorted_by_mtime l) = Some f -> is_newest f l.
Proof.
  intros H.
  apply (sort_by_head newest_first_total newest_first_trans) in H.
  destruct H as [Hin Hall]. split; [exact Hin|].
  intros g Hg. specialize (Hall g Hg).
  unfold newest_first, by_key, descending in Hall. now apply Z.leb_le.
Qed.

Lemma nonempty_false (A : Type) (l : list A) : nonempty l = false -> l = [].
Proof. destruct l; [reflexivity|discriminate]. Qed.

Lemma has_candidate_globs (fs : FileSystem) (d : string) :
  has_candidate fs d <->
  nonempty (glob fs d ".csv") || nonempty (glob fs d ".xlsx")
  || nonempty (glob fs d ".xls") = true.
Proof.
  split.
  - intros (f & Hin & H).
    destruct H as [H|[H|H]];
      pose proof (proj2 (glob_In fs d _ f) (conj Hin H)) as G;
      [ destruct (glob fs d ".csv")
      | destruct (glob fs d ".xlsx")
      | destruct (glob fs d ".xls") ];
      try contradiction; simpl; rewrite ?orb_true_r; reflexivity.
  - intros H. apply orb_true_iff in H. destruct H as [H|H];
      [apply orb_true_iff in H; destruct H as [H|H]|].
    + destruct (glob fs d ".csv") as [|f l] eqn:E; [discriminate|].
      assert (G : In f (glob fs d ".csv")) by (rewrite E; now left).
      apply glob_In in G. exists f. unfold has_extension. tauto.
    + destruct (glob fs d ".xlsx") as [|f l] eqn:E; [discriminate|].
      assert (G : In f (glob fs d ".xlsx")) by (rewrite E; now left).
      apply glob_In in G. exists f. unfold has_extension. tauto.
    + destruct (glob fs d ".xls") as [|f l] eqn:E; [discriminate|].
      assert (G : In f (glob fs d ".xls")) by (rewrite E; now left).
      apply glob_In in G. exists f. unfold has_extension. tauto.
Qed.

(** The search is the choice among the sorted lists, unless a [stat] of a
    candidate fails. *)
Lemma first_stat_error_In (fs : FileSystem) (l : list File) (e : Exn) :
  first_stat_error fs l = Some e ->
  exists f, In f l /\ stat_error fs f = Some e.
Proof.
  induction l as [|f l IH]; [discriminate|]. cbn [first_stat_error].
  destruct (stat_error fs f) as [e'|] eqn:E.
  - intros [= <-]. exists f. split; [now left|exact E].
  - intros H. destruct (IH H) as (g & Hg & Eg). exists g.
    split; [now right|exact Eg].
Qed.

Lemma first_stat_error_None (fs : FileSystem) (l : list File) :
  (forall f, In f l -> stat_error fs f = None) ->
  first_stat_error fs l = None.
Proof.
  induction l as [|f l IH]; intros H; [reflexivity|].
  cbn [first_stat_error]. rewrite (H f (or_introl eq_refl)).
  apply IH. intros g Hg. apply H. now right.
Qed.

Lemma search_cases (fs : FileSystem) (d : string) :
  search fs d = search_sorted fs d
  \/ exists e f,
       search fs d = ([], Raise e)
       /\ In f (listdir fs d) /\ has_extension f
       /\ stat_error fs f = Some e.
Proof.
  unfold search, search_sorted, sorted_candidates.
  destruct (first_stat_error fs (glob fs d ".csv")) as [e|] eqn:C.
  { right. apply first_stat_error_In in C. destruct C as (f & Hf & E).
    apply glob_In in Hf. exists e, f. unfold has_extension. tauto. }
  destruct (first_stat_error fs (glob fs d ".xlsx")) as [e|] eqn:X.
  { right. apply first_stat_error_In in X. destruct X as (f & Hf & E).
    apply glob_In in Hf. exists e, f. unfold has_extension. tauto. }
  destruct (first_stat_error fs (glob fs d ".xls")) as [e|] eqn:L.
  { right. apply first_stat_error_In in L. destruct L as (f & Hf & E).
    apply glob_In in Hf. exists e, f. unfold has_extension. tauto. }
  now left.
Qed.

Lemma search_stat_ok (fs : FileSystem) (d : string) :
  stat_ok fs d -> search fs d = search_sorted fs d.
Proof.
  intros S. destruct (search_cases fs d) as [H|(e & f & _ & Hf & X & E)];
    [exact H|]. rewrite (S f Hf X) in E. discriminate.
Qed.

(** A search that returns a path met no failing [stat]. *)
Lemma search_Ok (fs : FileSystem) (d p : string) :
  snd (search fs d) = Ok p -> search fs d = search_sorted fs d.
Proof.
  intros H. destruct (search_cases fs d) as [E|(e & f & E & _)];
    [exact E|]. rewrite E in H. discriminate.
Qed.

(** When every [stat] succeeds, the search raises exactly when the
    directory holds no candidate, and the only error it raises is the
    no-data-file one. *)
Lemma search_outcome (fs : FileSystem) (d : string) :
  (has_candidate fs d /\ exists p, snd (search_sorted fs d) = Ok p)
  \/ (~ has_candidate fs d
      /\ search_sorted fs d = ([], Raise (FileNotFoundError no_data_file))).
Proof.
  rewrite has_candidate_globs. unfold search_sorted, choose, sorted_by_mtime.
  rewrite !sort_by_nonempty.
  destruct (nonempty (glob fs d ".csv")) eqn:C.
  - left. split; [reflexivity|]. simpl.
    destruct (sort_by newest_first (glob fs d ".csv")) eqn:E.
    + apply sort_by_nil in E. rewrite E in C. discriminate.
    + eexists. reflexivity.
  - apply nonempty_false in C. rewrite C. simpl.
    destruct (nonempty (glob fs d ".xlsx")) eqn:X.
    + left. split; [reflexivity|]. simpl.
      destruct (sort_by newest_first (glob fs d ".xlsx")) eqn:E.
      * apply sort_by_nil in E. rewrite E in X. discriminate.
      * eexists. reflexivity.
    + apply nonempty_false in X. rewrite X. simpl.
      destruct (nonempty (glob fs d ".xls")) eqn:L.
      * left. split; [reflexivity|]. simpl.
        destruct (sort_by newest_first (glob fs d ".xls")) eqn:E.
        -- apply sort_by_nil in E. rewrite E in L. discriminate.
        -- eexists. reflexivity.
      * right. split; [discriminate|reflexivity].
Qed.

(** With a CSV file present the newest CSV file is returned, whatever
    Excel files there are. *)
Lemma search_prefers_csv (fs : FileSystem) (d : string) :
  glob fs d ".csv" <> [] ->
  exists f, snd (search_sorted fs d) = Ok (path f) /\ is_newest f (glob fs d ".csv").
Proof.
  intros H. unfold search_sorted, choose.
  destruct (sort_by_head_exists newest_first H) as [f Hf].
  pose proof (sorted_by_mtime_head _ Hf) as N.
  unfold sorted_by_mtime in *.
  destruct (sort_by newest_first (glob fs d ".csv")) as [|f' t] eqn:E;
    [discriminate|].
  injection Hf as ->. exists f. simpl. split; [reflexivity|exact N].
Qed.

(** Without a CSV file, the first of [xlsx_candidates + xls_candidates] is
    returned: the newest [.xlsx] file when there is one, and the newest
    [.xls] file only when there is no [.xlsx] file. *)
Lemma search_excel_order (fs : FileSystem) (d : string) :
  glob fs d ".csv" = [] ->
  (glob fs d ".xlsx" <> [] ->
   exists f, snd (search_sorted fs d) = Ok (path f)
             /\ is_newest f (glob fs d ".xlsx"))
  /\ (glob fs d ".xlsx" = [] -> glob fs d ".xls" <> [] ->
      exists f, snd (search_sorted fs d) = Ok (path f)
                /\ is_newest f (glob fs d ".xls")).
Proof.
  intros C. unfold search_sorted, choose. rewrite C. simpl. split.
  - intros H.
    destruct (sort_by_head_exists newest_first H) as [f Hf].
    pose proof (sorted_by_mtime_head _ Hf) as N.
    unfold sorted_by_mtime in *.
    destruct (sort_by newest_first (glob fs d ".xlsx")) as [|f' t] eqn:E;
      [discriminate|].
    injection Hf as ->. exists f. simpl. split; [reflexivity|exact N].
  - intros X H. rewrite X. simpl.
    destruct (sort_by_head_exists newest_first H) as [f Hf].
    pose proof (sorted_by_mtime_head _ Hf) as N.
    unfold sorted_by_mtime in *.
    destruct (sort_by newest_first (glob fs d ".xls")) as [|f' t] eqn:E;
      [discriminate|].
    injection Hf as ->. exists f. simpl. split; [reflexivity|exact N].
Qed.

(** C8. With no CSV file, an [.xlsx] file modified at time 100 and an
    [.xls] file modified at time 200, [find_data_file] announces that it
    chose the newest file and returns the [.xlsx] file, which is not the
    most recently modified Excel candidate: the [.xls] file is. *)
Theorem find_data_file_excel_not_newest :
  let candidates :=
    (glob two_excel_files "." ".xlsx" ++ glob two_excel_files "." ".xls")%list
  in
  find_data_file two_excel_files None "." = ([note_excel], Ok "old.xlsx")
  /\ ~ is_newest {| path := "old.xlsx"; st_mtime := 100 |} candidates
  /\ is_newest {| path := "new.xls"; st_mtime := 200 |} candidates.
Proof.
  cbv zeta. split; [reflexivity|]. split.
  - intros [_ H].
    specialize (H {| path := "new.xls"; st_mtime := 200 |}).
    cbn in H. assert (200 <= 100) by (apply H; right; now left). lia.
  - split; [right; now left|].
    intros g [<-|[<-|[]]]; simpl; lia.
Qed.





(** ** Preprocessor *)

Lemma prefix_spec (n s : string) :
  prefix n s = true <-> exists after, s = n ++ after.
Proof.
  revert s. induction n as [|a n IH]; intros s; simpl.
  - destruct s; simpl; split; eauto.
  - destruct s as [|b s]; simpl.
    + split; [discriminate|]. intros [after H]. discriminate.
    + destruct (Ascii.ascii_dec a b) as [->|N].
      * rewrite IH. split; intros [after H]; exists after; congruence.
      * split; [discriminate|]. intros [after H]. congruence.
Qed.

Lemma contains_unfold (n s : string) :
  contains n s =
  if prefix n s then true
  else match s with
       | EmptyString => false
       | String _ s' => contains n s'
       end.
Proof. destruct s; reflexivity. Qed.

(** [contains] is substring search. *)
Lemma contains_spec (n s : string) : contains n s = true <-> occurs_in n s.
Proof.
  split.
  - induction s as [|c s IH]; rewrite contains_unfold;
      destruct (prefix n _) eqn:P; try discriminate.
    + intros _. apply prefix_spec in P. destruct P as [after ->].
      exists "", after. reflexivity.
    + intros _. apply prefix_spec in P. destruct P as [after ->].
      exists "", after. reflexivity.
    + intros H. destruct (IH H) as (before & after & ->).
      exists (String c before), after. reflexivity.
  - intros (before & after & ->).
    induction before as [|c before IH]; rewrite contains_unfold.
    + assert (P : prefix n ("" ++ n ++ after) = true)
        by (apply prefix_spec; now exists after).
      now rewrite P.
    + destruct (prefix n _); [reflexivity|]. exact IH.
Qed.

Lemma str_contains_denylist (r : Row) :
  str_contains denylist false (tx_location r) = true <-> denylisted r.
Proof.
  unfold str_contains, denylisted. destruct (tx_location r) as [s|].
  - rewrite existsb_exists. split.
    + intros (tok & Hin & H). apply contains_spec in H.
      exists s, tok. auto.
    + intros (s' & tok & [= <-] & Hin & H). exists tok.
      split; [exact Hin|]. now apply contains_spec.
  - split; [discriminate|]. intros (s & tok & H & _). discriminate.
Qed.

Lemma filter_ext_in_iff (A : Type) (f g : A -> bool) (l : list A) :
  (forall x, In x l -> f x = g x) -> filter f l = filter g l.
Proof.
  induction l as [|x xs IH]; intros H; simpl; [reflexivity|].
  rewrite (H x (or_introl eq_refl)), IH; [reflexivity|].
  intros y Hy. apply H. now right.
Qed.

(** The filter of the preprocessor keeps the rows that are not
    denylisted. *)
Lemma denylist_filter_In (l : list Row) (r : Row) :
  In r (filter (fun r => negb (str_contains denylist false (tx_location r)))
          l) <->
  In r l /\ ~ denylisted r.
Proof.
  rewrite filter_In, negb_true_iff, <- str_contains_denylist.
  destruct (str_contains _ _ _); split; intros [H1 H2]; split; auto;
    congruence.
Qed.







(** ** Meal-period classifier *)

Lemma pd_cut_cases (m : Z) :
  pd_cut bins labels (Some m) =
  if m <? 390 then None
  else if m <? 600 then Some "早饭"
  else if m <? 900 then Some "午饭"
  else if m <? 1170 then Some "晚饭"
  else if m <? 1350 then Some "夜宵"
  else None.
Proof.
  change bins with [390; 600; 900; 1170; 1350].
  unfold pd_cut, labels. cbn [searchsorted_right].
  destruct (m <? 390) eqn:E1; [apply Z.ltb_lt in E1|apply Z.ltb_ge in E1].
  { destruct (390 <=? m) eqn:F; [apply Z.leb_le in F; lia|reflexivity]. }
  replace (390 <=? m) with true by (symmetry; apply Z.leb_le; lia).
  destruct (m <? 600) eqn:E2; [apply Z.ltb_lt in E2|apply Z.ltb_ge in E2].
  { destruct (600 <=? m) eqn:F; [apply Z.leb_le in F; lia|reflexivity]. }
  replace (600 <=? m) with true by (symmetry; apply Z.leb_le; lia).
  destruct (m <? 900) eqn:E3; [apply Z.ltb_lt in E3|apply Z.ltb_ge in E3].
  { destruct (900 <=? m) eqn:F; [apply Z.leb_le in F; lia|reflexivity]. }
  replace (900 <=? m) with true by (symmetry; apply Z.leb_le; lia).
  destruct (m <? 1170) eqn:E4; [apply Z.ltb_lt in E4|apply Z.ltb_ge in E4].
  { destruct (1170 <=? m) eqn:F; [apply Z.leb_le in F; lia|reflexivity]. }
  replace (1170 <=? m) with true by (symmetry; apply Z.leb_le; lia).
  destruct (m <? 1350) eqn:E5; [apply Z.ltb_lt in E5|apply Z.ltb_ge in E5].
  { destruct (1350 <=? m) eqn:F; [apply Z.leb_le in F; lia|reflexivity]. }
  replace (1350 <=? m) with true by (symmetry; apply Z.leb_le; lia).
  reflexivity.
Qed.

Ltac split_ltb :=
  repeat match goal with
    | |- context [?a <? ?b] =>
        let E := fresh "E" in
        destruct (a <? b) eqn:E;
        [apply Z.ltb_lt in E | apply Z.ltb_ge in E]
    | H : context [?a <? ?b] |- _ =>
        let E := fresh "E" in
        destruct (a <? b) eqn:E;
        [apply Z.ltb_lt in E | apply Z.ltb_ge in E]
    end.

(** The value [pd.cut] assigns is the label of the one interval that holds
    the minute, and there is a value exactly when there is such an
    interval. *)
Lemma pd_cut_intervals (m : Z) (l : string) :
  pd_cut bins labels (Some m) = Some l <-> in_exactly_one m l.
Proof.
  rewrite pd_cut_cases. unfold in_exactly_one, intervals, within. split.
  - intros H. split_ltb; try discriminate; injection H as <-;
      [ exists (390, 600, "早饭") | exists (600, 900, "午饭")
      | exists (900, 1170, "晚饭") | exists (1170, 1350, "夜宵") ];
      (split; [simpl; tauto|]); (split; [simpl; lia|]);
      (split; [reflexivity|]);
      intros j [<-|[<-|[<-|[<-|[]]]]]; simpl; intros; try reflexivity; lia.
  - intros (i & Hin & Hw & <- & _).
    destruct Hin as [<-|[<-|[<-|[<-|[]]]]]; simpl in Hw; split_ltb;
      try reflexivity; lia.
Qed.

Lemma pd_cut_window (m : Z) :
  (exists l, pd_cut bins labels (Some m) = Some l) <-> 390 <= m < 1350.
Proof.
  rewrite pd_cut_cases. split.
  - intros [l H]. split_ltb; try discriminate; lia.
  - intros H. split_ltb; try lia; eexists; reflexivity.
Qed.

Section ClassifierFacts.
Variable parse : string -> option datetime.

Lemma stamp_set_time (r : Row) (c : TimeCell) :
  stamp (set_time r c) = match c with Stamp t => Some t | _ => None end.
Proof. reflexivity. Qed.

(** The rows of the classifier's result, row by row. *)
Lemma classified_rows_spec (l : list Row) :
  filter (fun r => is_some (meal r))
    (map (fun r => set_meal r (pd_cut bins labels (minutes r)))
       (filter (fun r => is_some (stamp r))
          (map (fun r => set_time r (to_datetime parse (tx_time r))) l)))
  = values (classify_row parse) l.
Proof.
  induction l as [|r l IH]; [reflexivity|].
  unfold values in *. cbn [map filter flat_map].
  unfold classify_row at 1. rewrite stamp_set_time.
  destruct (to_datetime parse (tx_time r)) as [s|t|]; cbn [is_some];
    try exact IH.
  cbn [map filter].
  change (minutes (set_time r (Stamp t)))
    with (Some (hour t * 60 + minute t)).
  cbn [meal set_meal].
  destruct (pd_cut bins labels (Some (hour t * 60 + minute t)));
    cbn [is_some app]; [now rewrite IH|exact IH].
Qed.

Lemma prepare_meal_period_data_spec (df : DataFrame) :
  prepare_meal_period_data parse df =
  if empty (parsed parse df) then (None, None, Some no_time_data)
  else match values (classify_row parse) (rows df) with
       | [] => (None, Some labels, Some no_window_data)
       | l => (Some (with_rows df l), Some labels, None)
       end.
Proof.
  unfold prepare_meal_period_data.
  destruct (empty (parsed parse df)); [reflexivity|].
  unfold dropna, with_rows, empty. cbn [rows has_location].
  unfold parsed, dropna, convert_time, with_rows. cbn [rows has_location].
  rewrite classified_rows_spec.
  destruct (values (classify_row parse) (rows df)); reflexivity.
Qed.

Lemma values_In (A B : Type) (f : A -> option B) (l : list A) (y : B) :
  In y (values f l) <-> exists x, In x l /\ f x = Some y.
Proof.
  unfold values. rewrite in_flat_map. split.
  - intros (x & Hin & H). exists x. split; [exact Hin|].
    destruct (f x); [destruct H as [->|[]]; reflexivity|contradiction].
  - intros (x & Hin & H). exists x. split; [exact Hin|].
    rewrite H. now left.
Qed.

Lemma values_nil_iff (A B : Type) (f : A -> option B) (l : list A) :
  values f l = [] <-> forall x, In x l -> f x = None.
Proof.
  split.
  - intros E x Hx. destruct (f x) as [y|] eqn:F; [|reflexivity].
    assert (H : In y (values f l)) by (apply values_In; eauto).
    rewrite E in H. contradiction.
  - intros H. destruct (values f l) as [|y ys] eqn:E; [reflexivity|].
    assert (Hy : In y (values f l)) by (rewrite E; now left).
    apply values_In in Hy. destruct Hy as (x & Hx & F).
    rewrite (H x Hx) in F. discriminate.
Qed.

Lemma values_classify_parsed (l : list Row) :
  values (classify_row parse) l <> [] ->
  filter (fun r => is_some (stamp r))
    (map (fun r => set_time r (to_datetime parse (tx_time r))) l) <> [].
Proof.
  induction l as [|r l IH]; [intros H; now apply H|].
  unfold values. cbn [flat_map map filter]. rewrite stamp_set_time.
  unfold classify_row at 1.
  destruct (to_datetime parse (tx_time r)); cbn [is_some app];
    try exact IH.
  discriminate.
Qed.

(** The result of the classifier: the table of the classified rows when
    there is one, no table otherwise. *)
Lemma prepare_meal_period_data_rows (df out : DataFrame) :
  fst (fst (prepare_meal_period_data parse df)) = Some out <->
  values (classify_row parse) (rows df) <> []
  /\ out = with_rows df (values (classify_row parse) (rows df)).
Proof.
  rewrite prepare_meal_period_data_spec.
  destruct (values (classify_row parse) (rows df)) as [|x xs] eqn:V.
  - destruct (empty _); simpl; split; try discriminate; intros [H _];
      now contradiction H.
  - assert (P : empty (parsed parse df) = false).
    { unfold empty, parsed, dropna, convert_time, with_rows.
      cbn [rows]. pose proof (@values_classify_parsed (rows df)) as H.
      rewrite V in H.
      destruct (filter _ _); [exfalso; now apply H|reflexivity]. }
    rewrite P. simpl. split.
    + intros [= <-]. split; [discriminate|reflexivity].
    + intros [_ ->]. reflexivity.
Qed.

(** The rows of a returned table that come from row [r] read at [t]. *)
Lemma returned_as_iff (df : DataFrame) (r : Row) (t : datetime)
      (x : option string) :
  In r (rows df) -> to_datetime parse (tx_time r) = Stamp t ->
  (returned_as parse df r t x <->
   exists l, x = Some l
             /\ pd_cut bins labels (Some (hour t * 60 + minute t)) = Some l).
Proof.
  intros Hin Ht. unfold returned_as. split.
  - intros (out & Hout & Hr).
    apply prepare_meal_period_data_rows in Hout. destruct Hout as [_ ->].
    cbn [rows with_rows] in Hr. apply values_In in Hr.
    destruct Hr as (r' & _ & Hc). unfold classify_row in Hc.
    destruct (to_datetime parse (tx_time r')) as [|t'|]; try discriminate.
    destruct (pd_cut bins labels (Some (hour t' * 60 + minute t')))
      as [l'|] eqn:C; [|discriminate].
    injection Hc as -> _ _ _ <-. exists l'. auto.
  - intros (l & -> & Hl).
    assert (V : In (set_meal (set_time r (Stamp t)) (Some l))
                   (values (classify_row parse) (rows df))).
    { apply values_In. exists r. split; [exact Hin|].
      unfold classify_row. now rewrite Ht, Hl. }
    exists (with_rows df (values (classify_row parse) (rows df))).
    split; [|exact V].
    apply prepare_meal_period_data_rows. split; [|reflexivity].
    intros E. rewrite E in V. contradiction.
Qed.

(** C1. A row whose time reads as [t] is given a period exactly when its
    minute of the day, [hour * 60 + minute], lies in exactly one of the
    four half-open intervals, and then the period is that interval's
    label. The table the classifier returns holds the row exactly in that
    case, with that label and no other entry in its period column;
    otherwise the row is in no returned table, labelled or not. Every row
    of a returned table is a source row carrying the label of the
    interval of its own time. So 06:29 and 22:30 get no period and are
    dropped, 06:30 and 22:29 are returned as breakfast and late snack. *)
Theorem classifier_assigns_by_interval
  (df : DataFrame) (r : Row) (t : datetime) :
  In r (rows df) ->
  to_datetime parse (tx_time r) = Stamp t ->
  let m := hour t * 60 + minute t in
  (forall l, pd_cut bins labels (Some m) = Some l <-> in_exactly_one m l)
  /\ (forall x, returned_as parse df r t x <->
                exists l, x = Some l /\ in_exactly_one m l)
  /\ (dropped parse df r t <-> ~ exists l, in_exactly_one m l)
  /\ (forall out r',
        fst (fst (prepare_meal_period_data parse df)) = Some out ->
        In r' (rows out) ->
        exists r0 t0 l0,
          In r0 (rows df)
          /\ to_datetime parse (tx_time r0) = Stamp t0
          /\ in_exactly_one (hour t0 * 60 + minute t0) l0
          /\ r' = set_meal (set_time r0 (Stamp t0)) (Some l0))
  /\ (hour t = 6 -> minute t = 29 ->
      pd_cut bins labels (Some m) = None /\ dropped parse df r t)
  /\ (hour t = 22 -> minute t = 30 ->
      pd_cut bins labels (Some m) = None /\ dropped parse df r t)
  /\ (hour t = 6 -> minute t = 30 ->
      returned_as parse df r t (Some "早饭")
      /\ forall x, returned_as parse df r t x -> x = Some "早饭")
  /\ (hour t = 22 -> minute t = 29 ->
      returned_as parse df r t (Some "夜宵")
      /\ forall x, returned_as parse df r t x -> x = Some "夜宵").
Proof.
  intros Hin Ht m.
  pose proof (fun x => returned_as_iff df r x Hin Ht) as K. fold m in K.
  assert (R : forall x, returned_as parse df r t x <->
                        exists l, x = Some l /\ in_exactly_one m l).
  { intros x. rewrite K. split; intros (l & E & H); exists l;
      (split; [exact E|]); now apply pd_cut_intervals. }
  split; [intros l; apply pd_cut_intervals|].
  split; [exact R|].
  split.
  { unfold dropped. split.
    - intros D (l & H). apply (D (Some l)). apply R. eauto.
    - intros N x H. apply R in H. destruct H as (l & _ & H). eauto. }
  split.
  { intros out r' Hout Hr'.
    apply prepare_meal_period_data_rows in Hout. destruct Hout as [_ ->].
    cbn [rows with_rows] in Hr'. apply values_In in Hr'.
    destruct Hr' as (r0 & Hr0 & Hc). unfold classify_row in Hc.
    destruct (to_datetime parse (tx_time r0)) as [|t0|] eqn:T0;
      try discriminate.
    destruct (pd_cut bins labels (Some (hour t0 * 60 + minute t0)))
      as [l0|] eqn:C; [|discriminate].
    injection Hc as <-. exists r0, t0, l0.
    split; [exact Hr0|]. split; [exact T0|].
    split; [now apply pd_cut_intervals|reflexivity]. }
  assert (C : forall h mi, hour t = h -> minute t = mi -> m = h * 60 + mi)
    by (intros; subst m; congruence).
  assert (Out : pd_cut bins labels (Some m) = None -> dropped parse df r t).
  { intros N x H. apply K in H. destruct H as (l & _ & H). congruence. }
  assert (Lab : forall l, pd_cut bins labels (Some m) = Some l ->
                returned_as parse df r t (Some l)
                /\ forall x, returned_as parse df r t x -> x = Some l).
  { intros l H. split; [apply K; eauto|].
    intros x Hx. apply K in Hx. destruct Hx as (l' & -> & H').
    congruence. }
  split; [|split; [|split]]; intros Hh Hm.
  - assert (N : pd_cut bins labels (Some m) = None)
      by (rewrite (C _ _ Hh Hm); reflexivity). auto.
  - assert (N : pd_cut bins labels (Some m) = None)
      by (rewrite (C _ _ Hh Hm); reflexivity). auto.
  - apply Lab. rewrite (C _ _ Hh Hm). reflexivity.
  - apply Lab. rewrite (C _ _ Hh Hm). reflexivity.
Qed.

End ClassifierFacts.

Lemma classifier_boundary_example :
  dropped never_parses boundary_table
    (row_at (at_time 2025 3 1 6 29 0) "持卡人消费" (Some "A") 1)
    (at_time 2025 3 1 6 29 0)
  /\ returned_as never_parses boundary_table
       (row_at (at_time 2025 3 1 6 30 0) "持卡人消费" (Some "A") 2)
       (at_time 2025 3 1 6 30 0) (Some "早饭")
  /\ returned_as never_parses boundary_table
       (row_at (at_time 2025 3 1 22 29 0) "持卡人消费" (Some "A") 3)
       (at_time 2025 3 1 22 29 0) (Some "夜宵")
  /\ dropped never_parses boundary_table
       (row_at (at_time 2025 3 1 22 30 0) "持卡人消费" (Some "A") 4)
       (at_time 2025 3 1 22 30 0)
  /\ exists out,
       fst (fst (prepare_meal_period_data never_parses boundary_table))
       = Some out
       /\ List.length (rows out) = 2%nat.
Proof.
  assert (In1 : In (row_at (at_time 2025 3 1 6 29 0) "持卡人消费" (Some "A") 1)
                   (rows boundary_table)) by (simpl; tauto).
  assert (In2 : In (row_at (at_time 2025 3 1 6 30 0) "持卡人消费" (Some "A") 2)
                   (rows boundary_table)) by (simpl; tauto).
  assert (In3 : In (row_at (at_time 2025 3 1 22 29 0) "持卡人消费" (Some "A") 3)
                   (rows boundary_table)) by (simpl; tauto).
  assert (In4 : In (row_at (at_time 2025 3 1 22 30 0) "持卡人消费" (Some "A") 4)
                   (rows boundary_table)) by (simpl; tauto).
  destruct (classifier_assigns_by_interval never_parses boundary_table
              _ In1 eq_refl) as (_ & _ & _ & _ & H1 & _).
  destruct (classifier_assigns_by_interval never_parses boundary_table
              _ In2 eq_refl) as (_ & _ & _ & _ & _ & _ & H2 & _).
  destruct (classifier_assigns_by_interval never_parses boundary_table
              _ In3 eq_refl) as (_ & _ & _ & _ & _ & _ & _ & H3).
  destruct (classifier_assigns_by_interval never_parses boundary_table
              _ In4 eq_refl) as (_ & _ & _ & _ & _ & H4 & _).
  split; [apply H1; reflexivity|].
  split; [apply H2; reflexivity|].
  split; [apply H3; reflexivity|].
  split; [apply H4; reflexivity|].
  eexists. split; reflexivity.
Defined.

Lemma values_fixed (A : Type) (f : A -> option A) (l : list A) :
  (forall x, In x l -> f x = Some x) -> values f l = l.
Proof.
  induction l as [|x xs IH]; intros H; [reflexivity|].
  unfold values in *. cbn [flat_map]. rewrite (H x (or_introl eq_refl)).
  simpl. f_equal. apply IH. intros y Hy. apply H. now right.
Qed.

(** A classified row is classified to itself, whatever the text parser. *)
Lemma classify_row_fixed
  (parse parse' : string -> option datetime) (r r' : Row) :
  classify_row parse r = Some r' -> classify_row parse' r' = Some r'.
Proof.
  unfold classify_row.
  destruct (to_datetime parse (tx_time r)) as [|t|]; try discriminate.
  destruct (pd_cut bins labels (Some (hour t * 60 + minute t)))
    as [l|] eqn:C; [|discriminate].
  intros [= <-]. cbn [tx_time set_meal set_time to_datetime].
  rewrite C. reflexivity.
Qed.

(** C6. When the classifier returns a table, classifying that table again
    (with any text parser: no text is left to parse) returns the very same
    table, rows and period labels included, the four labels and no
    message. *)
Theorem classifier_idempotent
  (parse parse' : string -> option datetime) (df out : DataFrame) :
  fst (fst (prepare_meal_period_data parse df)) = Some out ->
  prepare_meal_period_data parse df = (Some out, Some labels, None)
  /\ prepare_meal_period_data parse' out = (Some out, Some labels, None).
Proof.
  intros H. pose proof H as H0.
  apply prepare_meal_period_data_rows in H. destruct H as [N E].
  assert (F : values (classify_row parse') (rows out) = rows out).
  { apply values_fixed. intros x Hx. rewrite E in Hx. cbn [rows with_rows] in Hx.
    apply values_In in Hx. destruct Hx as (r & _ & Hr).
    exact (classify_row_fixed parse parse' r Hr). }
  assert (G : forall p d l, values (classify_row p) (rows d) = l -> l <> [] ->
                prepare_meal_period_data p d
                = (Some (with_rows d l), Some labels, None)).
  { intros p d l V Hl. rewrite prepare_meal_period_data_spec.
    assert (P : empty (parsed p d) = false).
    { unfold empty, parsed, dropna, convert_time, with_rows. cbn [rows].
      pose proof (@values_classify_parsed p (rows d)) as Q. rewrite V in Q.
      destruct (filter _ _); [exfalso; now apply Q|reflexivity]. }
    rewrite P, V. destruct l; [now contradiction Hl|reflexivity]. }
  split.
  - rewrite (G parse df _ eq_refl N). now rewrite E.
  - rewrite (G parse' out _ F).
    + rewrite E. reflexivity.
    + rewrite E. exact N.
Qed.

Lemma classifier_idempotent_example :
  exists out,
    fst (fst (prepare_meal_period_data never_parses boundary_table)) = Some out
    /\ List.length (rows out) = 2%nat
    /\ prepare_meal_period_data never_parses out
       = (Some out, Some labels, None).
Proof.
  eexists. split; [reflexivity|]. split; [reflexivity|].
  apply (classifier_idempotent never_parses never_parses boundary_table).
  reflexivity.
Defined.

(** ** Grouping *)

Lemma Qsum_cons (x : Q) (l : list Q) : Qsum (x :: l) = (x + Qsum l)%Q.
Proof. reflexivity. Qed.

Lemma Qsum_perm (a b : list Q) : Permutation a b -> (Qsum a == Qsum b)%Q.
Proof.
  induction 1; simpl.
  - reflexivity.
  - now rewrite IHPermutation.
  - rewrite !Qplus_assoc, (Qplus_comm y x). reflexivity.
  - now rewrite IHPermutation1.
Qed.

Lemma Qsum_zero (l : list Q) :
  (forall x, In x l -> (x == 0)%Q) -> (Qsum l == 0)%Q.
Proof.
  induction l as [|x l IH]; intros H; simpl; [reflexivity|].
  rewrite (H x (or_introl eq_refl)), IH; [reflexivity|].
  intros y Hy. apply H. now right.
Qed.

Lemma filter_filter_comm (A : Type) (f g : A -> bool) (l : list A) :
  filter f (filter g l) = filter g (filter f l).
Proof.
  induction l as [|x l IH]; [reflexivity|]. simpl.
  destruct (f x) eqn:F, (g x) eqn:G; simpl; rewrite ?F, ?G, IH; reflexivity.
Qed.

Lemma map_filter_key (A B : Type) (f : A -> B) (g : B -> bool) (l : list A) :
  map f (filter (fun x => g (f x)) l) = filter g (map f l).
Proof.
  induction l as [|x l IH]; [reflexivity|]. simpl.
  destruct (g (f x)); simpl; now rewrite IH.
Qed.

Section GroupFacts.
Variables A K : Type.
Variable ops : KeyOps K.
Hypothesis eqb_spec : EqbSpec (key_eqb ops).

Lemma key_eqb_refl (k : K) : key_eqb ops k k = true.
Proof. now apply eqb_spec. Qed.

Lemma key_eqb_false (a b : K) : key_eqb ops a b = false <-> a <> b.
Proof.
  split.
  - intros H E. apply eqb_spec in E. congruence.
  - intros N. destruct (key_eqb ops a b) eqn:E; [|reflexivity].
    apply eqb_spec in E. contradiction.
Qed.

Lemma distinct_In (l : list K) (x : K) :
  In x (distinct (key_eqb ops) l) <-> In x l.
Proof.
  induction l as [|y l IH]; [reflexivity|]. cbn [distinct In].
  rewrite filter_In, IH, negb_true_iff, key_eqb_false.
  destruct (key_eqb ops x y) eqn:E.
  - apply eqb_spec in E. subst. tauto.
  - apply key_eqb_false in E. split; [tauto|].
    intros [->|H]; [contradiction|]. right. auto.
Qed.

Lemma distinct_NoDup (l : list K) : NoDup (distinct (key_eqb ops) l).
Proof.
  induction l as [|y l IH]; cbn [distinct]; constructor.
  - rewrite filter_In, negb_true_iff, key_eqb_refl. intros [_ H].
    discriminate.
  - now apply NoDup_filter.
Qed.

Lemma group_keys_In (key : A -> option K) (l : list A) (k : K) :
  In k (group_keys ops key l) <-> exists r, In r l /\ key r = Some k.
Proof.
  unfold group_keys. rewrite sort_by_In, distinct_In. apply values_In.
Qed.

Lemma group_keys_NoDup (key : A -> option K) (l : list A) :
  NoDup (group_keys ops key l).
Proof.
  unfold group_keys.
  apply (Permutation_NoDup (l := distinct (key_eqb ops) (values key l))).
  - symmetry. apply sort_by_perm.
  - apply distinct_NoDup.
Qed.

Lemma group_In (key : A -> option K) (k : K) (l : list A) (r : A) :
  In r (group ops key k l) <-> In r l /\ key r = Some k.
Proof.
  unfold group. rewrite filter_In. destruct (key r) as [k'|].
  - rewrite (eqb_spec k' k). split; intros [H1 H2]; split; congruence.
  - split; intros [_ H]; discriminate.
Qed.

Lemma group_nil (key : A -> option K) (k : K) (l : list A) :
  ~ In k (group_keys ops key l) -> group ops key k l = [].
Proof.
  intros N. destruct (group ops key k l) as [|r g] eqn:E; [reflexivity|].
  exfalso. apply N. apply group_keys_In. exists r.
  apply group_In. rewrite E. now left.
Qed.

Lemma lookup_map (V : Type) (F : K -> V) (index : list K) (k : K) :
  lookup (key_eqb ops) k (map (fun k => (k, F k)) index)
  = if existsb (fun k' => key_eqb ops k' k) index then Some (F k) else None.
Proof.
  induction index as [|k' index IH]; [reflexivity|]. cbn [map lookup existsb].
  destruct (key_eqb ops k' k) eqn:E; [|exact IH].
  apply eqb_spec in E. subst. reflexivity.
Qed.

Lemma existsb_key (index : list K) (k : K) :
  existsb (fun k' => key_eqb ops k' k) index = true <-> In k index.
Proof.
  rewrite existsb_exists. split.
  - intros (x & Hin & E). apply eqb_spec in E. now subst.
  - intros H. exists k. split; [exact H|apply key_eqb_refl].
Qed.

Lemma sum_amount_cons (r : Row) (l : list Row) :
  sum_amount (r :: l) = (tx_amount r + sum_amount l)%Q.
Proof. reflexivity. Qed.

Lemma group_cons (B : Type) (key : B -> option K) (k : K) (r : B)
      (l : list B) :
  group ops key k (r :: l)
  = if match key r with Some k' => key_eqb ops k' k | None => false end
    then r :: group ops key k l else group ops key k l.
Proof. reflexivity. Qed.


End GroupFacts.

(** ** Location totals *)

Lemma string_eqb_spec : EqbSpec String.eqb.
Proof. intros a b. apply String.eqb_eq. Qed.

Lemma string_key_spec : EqbSpec (key_eqb string_key).
Proof. exact string_eqb_spec. Qed.

Lemma at_location_group (loc : string) (l : list Row) :
  group string_key tx_location loc l = at_location loc l.
Proof.
  unfold group, at_location. apply filter_ext. intros r.
  destruct (tx_location r); reflexivity.
Qed.

(** C3, as stated, fails: a spending row without a location value belongs
    to no location group. In the sample table, as the preprocessor leaves
    it, the location totals add up to 12 while the spending rows add up
    to 16. *)
Lemma location_totals_omit_rows_without_location :
  preprocess_data tmall_table = Ok tmall_table_filtered
  /\ location_spending (select_spending tmall_table_filtered)
     = Ok [("观畴园", 12%Q)]
  /\ ~ (Qsum (map snd [("观畴园", 12%Q)])
        == sum_amount (rows (select_spending tmall_table_filtered)))%Q.
Proof.
  split; [reflexivity|]. split; [reflexivity|]. vm_compute. discriminate.
Qed.

(** C3, amended. On a table with a location column the location totals
    hold one entry for each location that occurs among the spending rows,
    and the total of a location is the sum of the amounts of the spending
    rows at that location. A spending row enters one of the totals
    exactly when it carries a location value: the totals account for the
    located rows only. *)
Theorem location_totals_sum_located_rows (df : DataFrame) :
  has_location df = true ->
  exists totals,
    location_spending (select_spending df) = Ok totals
    /\ NoDup (map fst totals)
    /\ (forall loc, In loc (map fst totals) <->
                    exists r, In r (rows (select_spending df))
                              /\ tx_location r = Some loc)
    /\ (forall loc total, In (loc, total) totals ->
          total = sum_amount (at_location loc (rows (select_spending df))))
    /\ (forall r, In r (rows (select_spending df)) ->
          (exists loc total,
             In (loc, total) totals
             /\ In r (at_location loc (rows (select_spending df))))
          <-> tx_location r <> None).
Proof.
  intros L. unfold location_spending. cbn [has_location select_spending
    with_rows]. rewrite L. eexists. split; [reflexivity|].
  set (l := rows (select_spending df)).
  change (filter (fun r => isin (tx_event r) spending_events) (rows df))
    with l.
  set (g := groupby string_key tx_location sum_amount l).
  pose proof (sort_by_perm (by_key (descending Qle_bool) snd) g) as P.
  assert (F : map fst g = group_keys string_key tx_location l).
  { unfold g, groupby. rewrite map_map. cbn [fst]. apply map_id. }
  assert (K : forall loc,
             In loc (map fst (sort_by (by_key (descending Qle_bool) snd) g))
             <-> exists r, In r l /\ tx_location r = Some loc).
  { intros loc. rewrite <- (group_keys_In string_key string_key_spec), <- F.
    split; apply Permutation_in;
      [now apply Permutation_map | symmetry; now apply Permutation_map]. }
  split; [|split; [exact K|split]].
  - apply (Permutation_NoDup (l := map fst g)).
    + symmetry. now apply Permutation_map.
    + rewrite F. apply (group_keys_NoDup string_key string_key_spec).
  - intros loc total H. apply (Permutation_in _ P) in H.
    unfold g, groupby in H. apply in_map_iff in H.
    destruct H as (k & [= -> <-] & _). now rewrite at_location_group.
  - intros r Hr. split.
    + intros (loc & total & _ & Hin). rewrite <- at_location_group in Hin.
      apply (group_In string_key string_key_spec) in Hin.
      destruct Hin as [_ E]. congruence.
    + intros N. destruct (tx_location r) as [loc|] eqn:E;
        [|now contradiction N].
      assert (Hl : In loc (map fst (sort_by (by_key (descending Qle_bool)
                                              snd) g)))
        by (apply K; eauto).
      apply in_map_iff in Hl. destruct Hl as ([loc' total] & El & Hin).
      cbn [fst] in El. subst loc'. exists loc, total. split; [exact Hin|].
      rewrite <- at_location_group.
      apply (group_In string_key string_key_spec). auto.
Qed.

Lemma location_totals_example :
  exists totals,
    location_spending (select_spending tmall_table_filtered) = Ok totals
    /\ NoDup (map fst totals).
Proof.
  destruct (location_totals_sum_located_rows tmall_table_filtered eq_refl)
    as (totals & E & N & _).
  exists totals. split; [exact E|exact N].
Defined.

(** ** Visits: distinct (date, period) pairs *)

Lemma date_eqb_spec : EqbSpec date_eqb.
Proof.
  intros [y m d] [y' m' d']. unfold date_eqb. cbn [d_year d_month d_day].
  rewrite !andb_true_iff, !Z.eqb_eq. split.
  - intros [[-> ->] ->]. reflexivity.
  - intros [= -> -> ->]. auto.
Qed.

Lemma option_eqb_spec (A : Type) (eqb : A -> A -> bool) :
  EqbSpec eqb -> EqbSpec (option_eqb eqb).
Proof.
  intros S [a|] [b|]; simpl; try (split; [discriminate|congruence]);
    [|tauto].
  rewrite (S a b). split; congruence.
Qed.

Lemma filter_all (A : Type) (f : A -> bool) (l : list A) :
  (forall x, In x l -> f x = true) -> filter f l = l.
Proof.
  induction l as [|x l IH]; intros H; [reflexivity|]. simpl.
  rewrite (H x (or_introl eq_refl)), IH; [reflexivity|].
  intros y Hy. apply H. now right.
Qed.

Lemma in_meal_spec (m : string) (r : Row) :
  in_meal m r = true <-> meal r = Some m.
Proof.
  unfold in_meal. destruct (meal r) as [k|].
  - rewrite String.eqb_eq. split; congruence.
  - split; discriminate.
Qed.

(** Among the rows of one period, dropping the duplicates of
    (date, period) leaves one row per distinct date. *)
Lemma drop_duplicates_dates (m : string) (l : list Row) :
  map row_date (filter (in_meal m)
                  (drop_duplicates date_meal_eqb date_meal l))
  = distinct (option_eqb date_eqb) (map row_date (filter (in_meal m) l)).
Proof.
  induction l as [|r l IH]; [reflexivity|].
  cbn [drop_duplicates filter].
  set (X := drop_duplicates date_meal_eqb date_meal l) in *.
  rewrite filter_filter_comm.
  destruct (in_meal m r) eqn:P; cbn [map distinct].
  - f_equal. rewrite <- IH, <- map_filter_key. f_equal.
    apply filter_ext_in_iff. intros x Hx. apply filter_In in Hx.
    destruct Hx as [_ Hx]. apply in_meal_spec in Hx, P.
    unfold date_meal_eqb, date_meal. cbn [fst snd]. rewrite Hx, P.
    cbn [option_eqb]. now rewrite String.eqb_refl, andb_true_r.
  - rewrite <- IH. f_equal. apply filter_all. intros x Hx.
    apply filter_In in Hx. destruct Hx as [_ Hx].
    apply in_meal_spec in Hx.
    unfold date_meal_eqb, date_meal. cbn [fst snd]. rewrite Hx.
    unfold in_meal in P. destruct (meal r) as [k|]; cbn [option_eqb].
    + rewrite String.eqb_sym, P, andb_false_r. reflexivity.
    + rewrite andb_false_r. reflexivity.
Qed.

Lemma group_meal (m : string) (l : list Row) :
  group meal_key meal m l = filter (in_meal m) l.
Proof. reflexivity. Qed.

Lemma period_rows_group (m : string) (l : list Row) :
  period_rows m l = group meal_key meal m l.
Proof.
  unfold period_rows, group. apply filter_ext. intros r.
  destruct (meal r); reflexivity.
Qed.

(** [meal_counts] counts the visits. *)
Lemma visit_count_drop_duplicates (m : string) (l : list Row) :
  visit_count m l
    (List.length (group meal_key meal m
                    (drop_duplicates date_meal_eqb date_meal l))).
Proof.
  exists (distinct (option_eqb date_eqb) (map row_date (filter (in_meal m) l))).
  pose (ops := {| key_eqb := option_eqb date_eqb;
                  key_leb := fun _ _ : option date => true |}).
  assert (S : EqbSpec (key_eqb ops))
    by (apply option_eqb_spec, date_eqb_spec).
  pose proof (distinct_In ops S) as DI. unfold ops in DI.
  cbn [key_eqb] in DI.
  split; [exact (distinct_NoDup ops S _)|]. split.
  - intros d. rewrite DI, in_map_iff. split.
    + intros (r & E & H). apply filter_In in H. destruct H as [H1 H2].
      apply in_meal_spec in H2. eauto.
    + intros (r & H1 & H2 & E). exists r. split; [exact E|].
      apply filter_In. split; [exact H1|]. now apply in_meal_spec.
  - rewrite <- drop_duplicates_dates, length_map, group_meal. reflexivity.
Qed.

(** ** Series arithmetic *)

Lemma reindex_groupby_map (A K V : Type) (ops : KeyOps K)
      (key : A -> option K) (agg : list A -> V) (fill : V)
      (index : list K) (l : list A) :
  EqbSpec (key_eqb ops) -> agg [] = fill ->
  reindex (key_eqb ops) index fill (groupby ops key agg l)
  = map (fun k => (k, agg (group ops key k l))) index.
Proof.
  intros S Hfill. unfold reindex. apply map_ext. intros k. f_equal.
  unfold groupby.
  rewrite (lookup_map ops S (fun k => agg (group ops key k l))).
  destruct (existsb _ (group_keys ops key l)) eqn:E; [reflexivity|].
  rewrite (group_nil ops S); [now symmetry|].
  intros H. apply (existsb_key ops S) in H. congruence.
Qed.

Lemma lookup_where_nonzero (K : Type) (eqb : K -> K -> bool) (k : K)
      (b : list (K * Q)) :
  lookup eqb k (where_nonzero b)
  = option_map (fun c => if Qeq_bool c 0 then None else Some c)
               (lookup eqb k b).
Proof.
  induction b as [|[k' c] b IH]; [reflexivity|]. cbn [where_nonzero map lookup
    fst snd]. destruct (eqb k' k); [reflexivity|exact IH].
Qed.

(** Dividing by a series whose zeros were masked never meets a zero
    divisor. *)
Lemma divide_where_nonzero (K : Type) (eqb : K -> K -> bool)
      (a b : list (K * Q)) :
  divide eqb a (where_nonzero b)
  = Ok (map (fun kx =>
               (fst kx,
                match lookup eqb (fst kx) b with
                | Some c => if Qeq_bool c 0 then None
                            else Some (snd kx / c)%Q
                | None => None
                end)) a).
Proof.
  induction a as [|[k x] a IH]; [reflexivity|].
  cbn [divide map fst snd]. rewrite IH, lookup_where_nonzero.
  destruct (lookup eqb k b) as [c|]; cbn [option_map divide_cell];
    [|reflexivity].
  destruct (Qeq_bool c 0) eqn:Z; cbn [divide_cell]; [reflexivity|].
  rewrite Z. reflexivity.
Qed.

Section AggregatorFacts.
Variable parse : string -> option datetime.

Lemma classified_spec (df : DataFrame) (what : string) :
  classified parse df what =
  if empty (parsed parse df) then Skip (no_time_data ++ what)
  else match values (classify_row parse) (rows df) with
       | [] => Skip (no_window_data ++ what)
       | l => Ok (with_rows df l, labels)
       end.
Proof.
  unfold classified. rewrite prepare_meal_period_data_spec.
  destruct (empty (parsed parse df)); [reflexivity|].
  destruct (values (classify_row parse) (rows df)); reflexivity.
Qed.

Lemma classified_Ok (df out : DataFrame) (ls : list string)
      (what : string) :
  classified parse df what = Ok (out, ls) <->
  fst (fst (prepare_meal_period_data parse df)) = Some out /\ ls = labels.
Proof.
  rewrite prepare_meal_period_data_rows, classified_spec.
  destruct (values (classify_row parse) (rows df)) as [|x xs] eqn:V.
  - destruct (empty _); split; try discriminate; intros [[H _] _];
      now contradiction H.
  - assert (P : empty (parsed parse df) = false).
    { unfold empty, parsed, dropna, convert_time, with_rows. cbn [rows].
      pose proof (@values_classify_parsed parse (rows df)) as H.
      rewrite V in H.
      destruct (filter _ _); [exfalso; now apply H|reflexivity]. }
    rewrite P. split.
    + intros [= <- <-]. repeat split. discriminate.
    + intros [[_ ->] ->]. reflexivity.
Qed.

Lemma classified_not_Raise (df : DataFrame) (what : string) (e : Exn) :
  classified parse df what <> Raise e.
Proof.
  rewrite classified_spec. destruct (empty _); [discriminate|].
  destruct (values _ _); discriminate.
Qed.

(** The averages as the code computes them, in closed form. *)
Lemma create_meal_avg_chart_spec (df : DataFrame) :
  create_meal_avg_chart parse df =
  match classified parse df "，跳过各餐顿均消费图表生成。" with
  | Ok (out, ls) =>
      Ok (map (fun m =>
                 let n := List.length
                            (group meal_key meal m
                               (drop_duplicates date_meal_eqb date_meal
                                  (rows out))) in
                 (m, if Qeq_bool (inject_Z (Z.of_nat n)) 0 then 0%Q
                     else (sum_amount (group meal_key meal m (rows out))
                           / inject_Z (Z.of_nat n))%Q))
              ls)
  | Skip msg => Skip msg
  | Raise e => Raise e
  end.
Proof.
  unfold create_meal_avg_chart.
  destruct (classified parse df _) as [[out ls]|msg|e]; try reflexivity.
  unfold visits_per_meal.
  rewrite !(reindex_groupby_map meal_key) by
    (try exact string_eqb_spec; reflexivity).
  rewrite divide_where_nonzero. f_equal.
  unfold fillna. rewrite !map_map. cbn [fst snd].
  apply map_ext_in. intros m Hm. f_equal.
  rewrite (lookup_map meal_key string_eqb_spec
             (fun k => size (group meal_key meal k
                (drop_duplicates date_meal_eqb date_meal (rows out))))).
  assert (E : existsb (fun k' => key_eqb meal_key k' m) ls = true)
    by (apply (existsb_key meal_key string_eqb_spec); exact Hm).
  rewrite E. unfold size.
  destruct (Qeq_bool _ 0); reflexivity.
Qed.

(** C2. For every input table the per-meal-average aggregator ends
    without any fault, a division fault in particular: it either skips the
    chart or yields the averages, and it yields them whenever the
    classifier returns rows. The average of each period is then the
    period's total amount divided by its number of distinct (date, period)
    visits when that number is not zero, and 0 when it is zero. *)
Theorem meal_average_is_total_per_visit (df : DataFrame) :
  (forall e, create_meal_avg_chart parse df <> Raise e)
  /\ (forall out,
        fst (fst (prepare_meal_period_data parse df)) = Some out ->
        exists avg, create_meal_avg_chart parse df = Ok avg)
  /\ (forall avg,
        create_meal_avg_chart parse df = Ok avg ->
        exists out,
          fst (fst (prepare_meal_period_data parse df)) = Some out
          /\ map fst avg = labels
          /\ forall m, In m labels ->
               exists a n,
                 lookup String.eqb m avg = Some a
                 /\ visit_count m (rows out) n
                 /\ (n <> O ->
                     a == period_total m (rows out)
                          / inject_Z (Z.of_nat n))%Q
                 /\ (n = O -> a == 0)%Q).
Proof.
  rewrite create_meal_avg_chart_spec.
  destruct (classified parse df _) as [[out ls]|msg|e] eqn:C.
  - apply classified_Ok in C. destruct C as [C ->].
    split; [discriminate|]. split; [eauto|].
    intros avg E.
    apply (f_equal (fun o => match o with Ok v => v | _ => [] end)) in E.
    cbv beta iota in E. subst avg. exists out. split; [exact C|].
    split; [rewrite map_map; apply map_id|].
    intros m Hm.
    set (n := List.length (group meal_key meal m
                 (drop_duplicates date_meal_eqb date_meal (rows out)))).
    exists (if Qeq_bool (inject_Z (Z.of_nat n)) 0 then 0%Q
            else (sum_amount (group meal_key meal m (rows out))
                  / inject_Z (Z.of_nat n))%Q), n.
    split; [|split; [apply visit_count_drop_duplicates|]].
    + rewrite (lookup_map meal_key string_eqb_spec
                 (fun m => let n := List.length (group meal_key meal m
                     (drop_duplicates date_meal_eqb date_meal (rows out))) in
                   if Qeq_bool (inject_Z (Z.of_nat n)) 0 then 0%Q
                   else (sum_amount (group meal_key meal m (rows out))
                         / inject_Z (Z.of_nat n))%Q)).
      assert (E : existsb (fun k' => key_eqb meal_key k' m) labels = true)
        by (apply (existsb_key meal_key string_eqb_spec); exact Hm).
      rewrite E. reflexivity.
    + unfold period_total. rewrite (period_rows_group m (rows out)).
      destruct (Qeq_bool (inject_Z (Z.of_nat n)) 0) eqn:Z.
      * apply Qeq_bool_iff in Z. unfold Qeq in Z. simpl in Z.
        split; [lia|reflexivity].
      * split; [reflexivity|]. intros ->. discriminate.
  - split; [discriminate|]. split; [|discriminate].
    intros out H. exfalso.
    assert (classified parse df "，跳过各餐顿均消费图表生成。"
            = Ok (out, labels)) by (apply classified_Ok; auto).
    congruence.
  - exfalso. exact (classified_not_Raise _ _ C).
Qed.

End AggregatorFacts.

Lemma meal_average_two_swipes :
  exists avg,
    create_meal_avg_chart never_parses two_swipes = Ok avg
    /\ lookup String.eqb "早饭" avg = Some 15%Q
    /\ lookup String.eqb "午饭" avg = Some 0%Q.
Proof.
  destruct (meal_average_is_total_per_visit never_parses two_swipes)
    as (_ & H & _).
  destruct (H _ eq_refl) as [avg E]. exists avg. split; [exact E|].
  vm_compute in E. injection E as <-. split; reflexivity.
Defined.

(** ** Calendar arithmetic *)

Lemma days_before_year_succ (y : Z) :
  days_before_year (y + 1)
  = days_before_year y + 365 + (if is_leap y then 1 else 0).
Proof.
  unfold days_before_year, is_leap.
  replace (y + 1 - 1) with y by lia.
  destruct (y mod 4 =? 0) eqn:E4; destruct (y mod 100 =? 0) eqn:E100;
    destruct (y mod 400 =? 0) eqn:E400; cbn [andb orb negb];
    rewrite ?Z.eqb_eq, ?Z.eqb_neq in *;
    Z.div_mod_to_equations; lia.
Qed.

Lemma days_before_year_mono (y y' : Z) :
  y <= y' -> days_before_year y <= days_before_year y'.
Proof.
  unfold days_before_year. intros H. Z.div_mod_to_equations. lia.
Qed.

Lemma month_cases (m : Z) :
  1 <= m <= 12 ->
  m = 1 \/ m = 2 \/ m = 3 \/ m = 4 \/ m = 5 \/ m = 6 \/ m = 7 \/ m = 8
  \/ m = 9 \/ m = 10 \/ m = 11 \/ m = 12.
Proof. lia. Qed.

Ltac each_month H :=
  destruct (month_cases H) as
    [->|[->|[->|[->|[->|[->|[->|[->|[->|[->|[->| ->]]]]]]]]]]].

Ltac eval_to_nat :=
  repeat match goal with
    | |- context [Z.to_nat ?k] =>
        let v := eval vm_compute in (Z.to_nat k) in
        change (Z.to_nat k) with v
    | H : context [Z.to_nat ?k] |- _ =>
        let v := eval vm_compute in (Z.to_nat k) in
        change (Z.to_nat k) with v in H
    end.

Ltac calendar_cbn :=
  cbn [nth andb Z.ltb Z.eqb Z.compare Pos.compare Pos.compare_cont Pos.eqb]
    in *.

Lemma day_of_year_bounds (d : date) :
  valid_date d ->
  1 <= days_before_month (d_year d) (d_month d) + d_day d
    <= 365 + (if is_leap (d_year d) then 1 else 0).
Proof.
  destruct d as [y m d]. unfold valid_date. cbn [d_year d_month d_day].
  intros [Hm Hd]. unfold days_before_month, days_in_month in *.
  each_month Hm; destruct (is_leap y); eval_to_nat; calendar_cbn; lia.
Qed.

Lemma day_of_year_mono (y m m' d d' : Z) :
  valid_date {| d_year := y; d_month := m; d_day := d |} ->
  valid_date {| d_year := y; d_month := m'; d_day := d' |} ->
  m < m' ->
  days_before_month y m + d <= days_before_month y m' + d'.
Proof.
  unfold valid_date. cbn [d_year d_month d_day]. intros [Hm Hd] [Hm' Hd'] L.
  unfold days_before_month, days_in_month in *.
  each_month Hm; each_month Hm'; try lia; destruct (is_leap y);
    eval_to_nat; calendar_cbn; lia.
Qed.

(** On calendar dates the day number grows with the date. *)
Lemma toordinal_mono (a b : date) :
  valid_date a -> valid_date b -> date_leb a b = true ->
  toordinal a <= toordinal b.
Proof.
  intros Va Vb. pose proof (day_of_year_bounds Va) as Ba.
  pose proof (day_of_year_bounds Vb) as Bb.
  destruct a as [y m d], b as [y' m' d'].
  unfold date_leb, date_tuple, toordinal, tuple_leb in *.
  cbn [d_year d_month d_day] in *.
  destruct (y <? y') eqn:Y; [apply Z.ltb_lt in Y|apply Z.ltb_ge in Y].
  - intros _. pose proof (days_before_year_succ y) as S.
    pose proof (@days_before_year_mono (y + 1) y' ltac:(lia)). lia.
  - destruct (y' <? y) eqn:Y'; [discriminate|]. apply Z.ltb_ge in Y'.
    assert (y' = y) by lia. subst y'.
    destruct (m <? m') eqn:M; [apply Z.ltb_lt in M|apply Z.ltb_ge in M].
    + intros _. pose proof (day_of_year_mono Va Vb M). lia.
    + destruct (m' <? m) eqn:M'; [discriminate|]. apply Z.ltb_ge in M'.
      assert (m' = m) by lia. subst m'.
      destruct (d <? d') eqn:D; [apply Z.ltb_lt in D; lia|].
      destruct (d' <? d) eqn:D'; [discriminate|].
      apply Z.ltb_ge in D, D'. lia.
Qed.

(** ** Minimum and maximum of a column *)

Lemma min_by_spec (A : Type) (le : A -> A -> bool) (l : list A) (x : A) :
  Total le -> Transitive le ->
  min_by le l = Some x -> In x l /\ forall y, In y l -> le x y = true.
Proof.
  intros T Tr. destruct l as [|a l]; [discriminate|]. cbn [min_by].
  intros [= <-].
  assert (R : forall a0, le a0 a0 = true)
    by (intros a0; destruct (T a0 a0); assumption).
  assert (G : forall l m,
             In (fold_left (fun m y => if le m y then m else y) l m) (m :: l)
             /\ le (fold_left (fun m y => if le m y then m else y) l m) m
                = true
             /\ forall y, In y l ->
                  le (fold_left (fun m y => if le m y then m else y) l m) y
                  = true).
  { clear a l. induction l as [|b l IH]; intros m; cbn [fold_left].
    - split; [now left|]. split; [apply R|contradiction].
    - destruct (le m b) eqn:E.
      + destruct (IH m) as (I1 & I2 & I3).
        split; [destruct I1 as [<-|I1]; [now left|right; now right]|].
        split; [exact I2|].
        intros y [<-|Hy]; [exact (Tr _ _ _ I2 E)|auto].
      + destruct (IH b) as (I1 & I2 & I3).
        assert (E' : le b m = true) by (destruct (T m b); congruence).
        split; [now right|].
        split; [exact (Tr _ _ _ I2 E')|].
        intros y [<-|Hy]; [exact I2|auto]. }
  destruct (G l a) as (I1 & I2 & I3). split; [exact I1|].
  intros y [<-|Hy]; auto.
Qed.

Lemma min_by_nonempty (A : Type) (le : A -> A -> bool) (l : list A) :
  l <> [] -> exists x, min_by le l = Some x.
Proof. destruct l; [contradiction|]. intros _. eexists. reflexivity. Qed.

(** ** Attendance rate *)

Lemma rate_le_100 (n total : Z) :
  0 < total -> n <= total ->
  (inject_Z n / inject_Z total * 100 <= 100)%Q.
Proof.
  intros P L. destruct total as [|p|p]; try lia.
  unfold Qle, Qdiv, Qmult, Qinv, inject_Z. cbn [Qnum Qden]. nia.
Qed.

Section AttendanceFacts.
Variable parse : string -> option datetime.

Lemma parsed_rows_In (df : DataFrame) (r' : Row) :
  In r' (rows (parsed parse df)) <->
  exists r t, In r (rows df) /\ to_datetime parse (tx_time r) = Stamp t
              /\ r' = set_time r (Stamp t).
Proof.
  unfold parsed, dropna, convert_time, with_rows. cbn [rows].
  rewrite filter_In, in_map_iff. split.
  - intros [(r & <- & Hr) S]. rewrite stamp_set_time in S.
    destruct (to_datetime parse (tx_time r)) as [|t|] eqn:E;
      try discriminate.
    exists r, t. auto.
  - intros (r & t & Hr & E & ->). split; [|reflexivity].
    exists r. rewrite E. auto.
Qed.

Lemma all_dates_In (df : DataFrame) (d : date) :
  In d (all_dates parse df) <->
  exists r t, In r (rows df) /\ to_datetime parse (tx_time r) = Stamp t
              /\ d = dt_date t.
Proof.
  unfold all_dates. rewrite values_In. split.
  - intros (r' & H & E). apply parsed_rows_In in H.
    destruct H as (r & t & Hr & Ht & ->). exists r, t.
    cbn in E. injection E as <-. auto.
  - intros (r & t & Hr & Ht & ->). exists (set_time r (Stamp t)).
    split; [|reflexivity]. apply parsed_rows_In. eauto.
Qed.

Lemma in_window_classified (df : DataFrame) (r : Row) (what : string) :
  In r (rows df) -> in_window parse r ->
  classified parse df what
  = Ok (with_rows df (values (classify_row parse) (rows df)), labels).
Proof.
  intros Hr (t & Ht & Hw).
  destruct (proj2 (pd_cut_window _) Hw) as [l Hl].
  assert (V : In (set_meal (set_time r (Stamp t)) (Some l))
                 (values (classify_row parse) (rows df))).
  { apply values_In. exists r. split; [exact Hr|].
    unfold classify_row. now rewrite Ht, Hl. }
  apply classified_Ok. split; [|reflexivity].
  apply prepare_meal_period_data_rows. split; [|reflexivity].
  intros E. rewrite E in V. contradiction.
Qed.

Lemma classified_parsed_nonempty (df out : DataFrame) (ls : list string)
      (what : string) :
  classified parse df what = Ok (out, ls) -> empty (parsed parse df) = false.
Proof.
  rewrite classified_spec. destruct (empty (parsed parse df));
    [discriminate|reflexivity].
Qed.

Lemma classify_row_in_window (r : Row) :
  (exists r', classify_row parse r = Some r') <-> in_window parse r.
Proof.
  unfold classify_row, in_window. split.
  - intros [r' H].
    destruct (to_datetime parse (tx_time r)) as [|t|]; try discriminate.
    destruct (pd_cut bins labels (Some (hour t * 60 + minute t)))
      as [l|] eqn:C; [|discriminate].
    exists t. split; [reflexivity|]. apply pd_cut_window. eauto.
  - intros (t & -> & W). apply pd_cut_window in W. destruct W as [l ->].
    eauto.
Qed.

(** The rates of a dataset with a row inside the day window. *)
Lemma attendance_rates_in_window (df : DataFrame) :
  (forall r t, In r (rows df) -> to_datetime parse (tx_time r) = Stamp t ->
               valid_date (dt_date t)) ->
  (exists r, In r (rows df) /\ in_window parse r) ->
  exists out earliest latest att,
    fst (fst (prepare_meal_period_data parse df)) = Some out
    /\ is_earliest earliest (all_dates parse df)
    /\ is_latest latest (all_dates parse df)
    /\ 1 <= days_between earliest latest + 1
    /\ create_meal_attendance_chart parse df = Ok att
    /\ map fst att = labels
    /\ forall m, In m labels ->
         exists a n,
           lookup String.eqb m att = Some a
           /\ visit_count m (rows out) n
           /\ (a == inject_Z (Z.of_nat n)
                    / inject_Z (days_between earliest latest + 1) * 100)%Q
           /\ (Z.of_nat n <= days_between earliest latest + 1 ->
               (a <= 100)%Q)
           /\ (earliest = latest -> n = 1%nat -> (a == 100)%Q).
Proof.
  intros Valid (r0 & Hr0 & W0).
  set (what := "，跳过各餐出勤率图表生成。").
  pose proof (in_window_classified df what Hr0 W0) as C.
  set (out := with_rows df (values (classify_row parse) (rows df))) in *.
  pose proof (classified_parsed_nonempty _ _ C) as NE.
  assert (D : all_dates parse df <> []).
  { destruct W0 as (t0 & Ht0 & _).
    assert (H : In (dt_date t0) (all_dates parse df))
      by (apply all_dates_In; eauto).
    intros E. rewrite E in H. contradiction. }
  destruct (min_by_nonempty date_leb D) as [earliest Emin].
  destruct (min_by_nonempty (descending date_leb) D) as [latest Emax].
  pose proof (@min_by_spec _ date_leb _ _ date_leb_total date_leb_trans
                Emin) as [I1 M1].
  pose proof (@min_by_spec _ (descending date_leb) _ _
                (descending_total date_leb_total)
                (descending_trans date_leb_trans) Emax) as [I2 M2].
  assert (VD : forall d, In d (all_dates parse df) -> valid_date d).
  { intros d Hd. apply all_dates_In in Hd.
    destruct Hd as (r & t & Hr & Ht & ->). eauto. }
  assert (T : 1 <= days_between earliest latest + 1).
  { unfold days_between.
    pose proof (toordinal_mono (VD _ I1) (VD _ I2) (M1 _ I2)). lia. }
  set (total := days_between earliest latest + 1) in *.
  set (count := fun m => List.length
                   (group meal_key meal m
                      (drop_duplicates date_meal_eqb date_meal (rows out)))).
  exists out, earliest, latest,
    (map (fun m => (m, (inject_Z (Z.of_nat (count m))
                        / inject_Z total * 100)%Q)) labels).
  split; [now apply (classified_Ok parse df out labels what)|].
  split; [split; assumption|]. split; [split; assumption|].
  split; [exact T|]. split; [|split].
  - unfold create_meal_attendance_chart. rewrite NE. fold what. rewrite C.
    fold (all_dates parse df). rewrite Emin, Emax. fold total.
    replace (total =? 0) with false by (symmetry; apply Z.eqb_neq; lia).
    f_equal. unfold visits_per_meal.
    rewrite (reindex_groupby_map meal_key) by
      (try exact string_eqb_spec; reflexivity).
    unfold fillna. rewrite !map_map. reflexivity.
  - rewrite map_map. apply map_id.
  - intros m Hm. exists (inject_Z (Z.of_nat (count m))
                         / inject_Z total * 100)%Q, (count m).
    split; [|split; [apply visit_count_drop_duplicates|split; [|split]]].
    + rewrite (lookup_map meal_key string_eqb_spec
                 (fun m => (inject_Z (Z.of_nat (count m))
                            / inject_Z total * 100)%Q)).
      assert (E : existsb (fun k' => key_eqb meal_key k' m) labels = true)
        by (apply (existsb_key meal_key string_eqb_spec); exact Hm).
      now rewrite E.
    + reflexivity.
    + intros L. apply rate_le_100; lia.
    + intros E1 E2. unfold total, days_between. rewrite E1, E2.
      replace (toordinal latest - toordinal latest + 1) with 1 by lia.
      reflexivity.
Qed.

(** C4. For every dataset of calendar dates the attendance chart ends
    without a fault. It is computed exactly when some timestamp parses
    and lies inside the day window, and skipped otherwise. When it is
    computed, the rate of each period is its number of distinct
    visit-days, divided by the number of days from the earliest to the
    latest date of all parsed rows (inside the window or not), both
    included, times 100. The rate is at most 100 when the visit-days do
    not exceed that span, and it is exactly 100 for a period with one
    visit when the dataset has a single day. *)
Theorem attendance_rate_is_visit_days_over_span (df : DataFrame) :
  (forall r t, In r (rows df) -> to_datetime parse (tx_time r) = Stamp t ->
               valid_date (dt_date t)) ->
  (forall e, create_meal_attendance_chart parse df <> Raise e)
  /\ ((exists r, In r (rows df) /\ in_window parse r) ->
      exists out earliest latest att,
        fst (fst (prepare_meal_period_data parse df)) = Some out
        /\ is_earliest earliest (all_dates parse df)
        /\ is_latest latest (all_dates parse df)
        /\ 1 <= days_between earliest latest + 1
        /\ create_meal_attendance_chart parse df = Ok att
        /\ map fst att = labels
        /\ forall m, In m labels ->
             exists a n,
               lookup String.eqb m att = Some a
               /\ visit_count m (rows out) n
               /\ (a == inject_Z (Z.of_nat n)
                        / inject_Z (days_between earliest latest + 1)
                        * 100)%Q
               /\ (Z.of_nat n <= days_between earliest latest + 1 ->
                   (a <= 100)%Q)
               /\ (earliest = latest -> n = 1%nat -> (a == 100)%Q))
  /\ ((forall r, In r (rows df) -> ~ in_window parse r) ->
      exists msg, create_meal_attendance_chart parse df = Skip msg)
  /\ (forall att,
        create_meal_attendance_chart parse df = Ok att ->
        exists r, In r (rows df) /\ in_window parse r).
Proof.
  intros Valid.
  destruct (values (classify_row parse) (rows df)) as [|x xs] eqn:V.
  - assert (NW : forall r, In r (rows df) -> ~ in_window parse r).
    { intros r Hr W. apply classify_row_in_window in W.
      destruct W as [r' W].
      rewrite (proj1 (values_nil_iff _ _) V r Hr) in W. discriminate. }
    assert (S : exists msg,
                  create_meal_attendance_chart parse df = Skip msg).
    { unfold create_meal_attendance_chart.
      destruct (empty (parsed parse df)) eqn:E; [eauto|].
      rewrite classified_spec, E, V. eauto. }
    destruct S as [msg S]. rewrite S.
    split; [discriminate|]. split; [|split; [eauto|discriminate]].
    intros (r & Hr & W). now destruct (NW r Hr).
  - assert (W : exists r, In r (rows df) /\ in_window parse r).
    { assert (Hx : In x (values (classify_row parse) (rows df)))
        by (rewrite V; now left).
      apply values_In in Hx. destruct Hx as (r & Hr & C). exists r.
      split; [exact Hr|]. apply classify_row_in_window. eauto. }
    destruct (attendance_rates_in_window df Valid W)
      as (out & e1 & e2 & att & P & I1 & I2 & T & C & R).
    split; [rewrite C; discriminate|]. split; [|split].
    + intros _. exists out, e1, e2, att. auto 10.
    + intros NW. destruct W as (r & Hr & Wr). now destruct (NW r Hr).
    + intros att' _. exact W.
Qed.

End AttendanceFacts.

Lemma attendance_one_lunch :
  exists att,
    create_meal_attendance_chart never_parses one_lunch = Ok att
    /\ lookup String.eqb "午饭" att = Some 100%Q
    /\ lookup String.eqb "早饭" att = Some 0%Q.
Proof.
  assert (Valid : forall r t,
             In r (rows one_lunch) ->
             to_datetime never_parses (tx_time r) = Stamp t ->
             valid_date (dt_date t)).
  { intros r t [<-|[]] [= <-]. vm_compute. intuition discriminate. }
  destruct (@attendance_rate_is_visit_days_over_span never_parses one_lunch
              Valid) as (_ & B & _).
  destruct B as (out & e & l & att & _ & _ & _ & _ & E & _).
  - eexists. split; [now left|]. eexists. split; [reflexivity|].
    vm_compute. intuition discriminate.
  - exists att. split; [exact E|]. vm_compute in E. injection E as <-.
    split; reflexivity.
Defined.

(** ** Extremes: the selections *)

Lemma StronglySorted_filter_keep (A : Type) (R : A -> A -> Prop)
      (f : A -> bool) (l : list A) :
  StronglySorted R l -> StronglySorted R (filter f l).
Proof.
  induction 1 as [|x l S IH F]; simpl; [constructor|].
  destruct (f x); [|exact IH]. constructor; [exact IH|].
  rewrite Forall_forall in *. intros y Hy. apply filter_In in Hy.
  now apply F.
Qed.

Create HintDb orders.

#[local] Hint Resolve by_key_total by_key_trans descending_total
  descending_trans nan_last_total nan_last_trans lex_total lex_trans
  datetime_leb_total datetime_leb_trans Qle_bool_total Qle_bool_trans
  : orders.

#[local] Hint Unfold by_first_time by_first_time_desc by_clock by_clock_desc
  : orders.

Ltac order_laws := autounfold with orders; auto 8 with orders.

Lemma hd_sorted (le : Visit -> Visit -> bool) (ms : list Visit) :
  Total le -> Transitive le -> ms <> [] ->
  exists v, hd_error (sort_by le ms) = Some v /\ In v ms
            /\ forall w, In w ms -> le v w = true.
Proof.
  intros T Tr N. destruct (sort_by_head_exists le N) as [v Hv].
  exists v. split; [exact Hv|]. exact (sort_by_head T Tr ms Hv).
Qed.

Lemma pick_first_row_spec (ms : list Visit) :
  (forall v, In v ms -> timed v) ->
  earliest_overall ms (pick_first_row ms).
Proof.
  intros Ti. destruct ms as [|v0 ms0] eqn:E; [reflexivity|].
  rewrite <- E in *. unfold pick_first_row.
  replace (match ms with [] => None | _ :: _ => hd_error (sort_by by_first_time ms) end)
    with (hd_error (sort_by by_first_time ms)) by (rewrite E; reflexivity).
  destruct (@hd_sorted by_first_time ms) as (v & Hv & Hin & Hle);
    [order_laws|order_laws|rewrite E; discriminate|].
  rewrite Hv. cbn [earliest_overall]. split; [exact Hin|].
  destruct (Ti v Hin) as (t & Ht & _). exists t. split; [exact Ht|].
  intros w t' Hw Hw'. specialize (Hle w Hw).
  unfold by_first_time, by_key in Hle. unfold time_of in Hw'.
  now rewrite Ht, Hw' in Hle.
Qed.

Lemma Qle_bool_false (a b : Q) : Qle_bool a b = false -> (b < a)%Q.
Proof.
  intros H. apply Qnot_le_lt. intros L. apply Qle_bool_iff in L. congruence.
Qed.

Lemma earliest_breakfast_spec (ms : list Visit) :
  (forall v, In v ms -> timed v) ->
  earliest_by_clock ms
    (if nonempty ms
     then hd_error (sort_by (lex by_clock by_first_time) ms) else None).
Proof.
  intros Ti. destruct ms as [|v0 ms0] eqn:E; [reflexivity|].
  rewrite <- E in *. replace (nonempty ms) with true by (now rewrite E).
  destruct (@hd_sorted (lex by_clock by_first_time) ms)
    as (v & Hv & Hin & Hle);
    [order_laws|order_laws|rewrite E; discriminate|].
  rewrite Hv. cbn [earliest_by_clock]. split; [exact Hin|].
  destruct (Ti v Hin) as (t & Ht & Hc). exists t. split; [exact Ht|].
  intros w t' Hw Hw'. specialize (Hle w Hw).
  destruct (Ti w Hw) as (t'' & Ht'' & Hc'). unfold time_of in Hw'.
  assert (t'' = t') by congruence. subst t''.
  unfold lex, by_clock, by_first_time, by_key in Hle.
  rewrite Hc, Hc', Ht, Ht'' in Hle. cbn [nan_last] in Hle.
  destruct (Qle_bool (clock_of t) (clock_of t')) eqn:A; [|discriminate].
  destruct (Qle_bool (clock_of t') (clock_of t)) eqn:B.
  - right. apply Qle_bool_iff in A, B. split; [now apply Qle_antisym|].
    exact Hle.
  - left. now apply Qle_bool_false.
Qed.

Lemma latest_night_spec (ms : list Visit) :
  (forall v, In v ms -> timed v) ->
  latest_by_clock ms
    (if nonempty ms
     then hd_error (sort_by (lex by_clock_desc by_first_time_desc) ms)
     else None).
Proof.
  intros Ti. destruct ms as [|v0 ms0] eqn:E; [reflexivity|].
  rewrite <- E in *. replace (nonempty ms) with true by (now rewrite E).
  destruct (@hd_sorted (lex by_clock_desc by_first_time_desc) ms)
    as (v & Hv & Hin & Hle);
    [order_laws|order_laws|rewrite E; discriminate|].
  rewrite Hv. cbn [latest_by_clock]. split; [exact Hin|].
  destruct (Ti v Hin) as (t & Ht & Hc). exists t. split; [exact Ht|].
  intros w t' Hw Hw'. specialize (Hle w Hw).
  destruct (Ti w Hw) as (t'' & Ht'' & Hc'). unfold time_of in Hw'.
  assert (t'' = t') by congruence. subst t''.
  unfold lex, by_clock_desc, by_first_time_desc, by_key in Hle.
  rewrite Hc, Hc', Ht, Ht'' in Hle. cbn [nan_last] in Hle.
  unfold descending in Hle.
  destruct (Qle_bool (clock_of t') (clock_of t)) eqn:A; [|discriminate].
  destruct (Qle_bool (clock_of t) (clock_of t')) eqn:B.
  - right. apply Qle_bool_iff in A, B. split; [now apply Qle_antisym|].
    exact Hle.
  - left. now apply Qle_bool_false.
Qed.

Lemma idxmax_from_spec (l before mid : list Visit) (best : Visit) (top : Q) :
  total_amount best = Some top ->
  (forall w q', In w before -> total_amount w = Some q' -> (q' < top)%Q) ->
  (forall w q', In w mid -> total_amount w = Some q' -> (q' <= top)%Q) ->
  costliest (before ++ best :: mid ++ l)%list
            (Some (idxmax_from best top l)).
Proof.
  revert before mid best top.
  induction l as [|v vs IH]; intros before mid best top Hb Hlt Hle.
  - cbn [idxmax_from]. exists before, mid, top. rewrite app_nil_r. auto.
  - cbn [idxmax_from].
    replace (before ++ best :: mid ++ v :: vs)%list
      with (before ++ best :: (mid ++ [v]) ++ vs)%list
      by (rewrite <- (app_assoc mid [v] vs); reflexivity).
    destruct (total_amount v) as [q|] eqn:Hq.
    + destruct (Qle_bool q top) eqn:C.
      * apply IH; try assumption. intros w q' Hw Hq'.
        apply in_app_iff in Hw. destruct Hw as [Hw|[<-|[]]]; [eauto|].
        apply Qle_bool_iff in C. congruence.
      * apply Qle_bool_false in C.
        replace (before ++ best :: (mid ++ [v]) ++ vs)%list
          with ((before ++ best :: mid) ++ v :: [] ++ vs)%list
          by (rewrite <- !app_assoc; reflexivity).
        apply IH; [exact Hq| |intros w q' []].
        intros w q' Hw Hq'. apply in_app_iff in Hw.
        destruct Hw as [Hw|[<-|Hw]].
        -- apply Qlt_trans with top; eauto.
        -- congruence.
        -- apply Qle_lt_trans with top; eauto.
    + apply IH; try assumption. intros w q' Hw Hq'.
      apply in_app_iff in Hw. destruct Hw as [Hw|[<-|[]]]; [eauto|].
      congruence.
Qed.

Lemma idxmax_spec (l : list Visit) :
  (forall v, In v l -> priced v) -> costliest l (pick_max_amount l).
Proof.
  intros P. destruct l as [|v vs]; [reflexivity|].
  cbn [pick_max_amount idxmax].
  destruct (P v (or_introl eq_refl)) as [q Hq]. rewrite Hq.
  apply (@idxmax_from_spec vs [] [] v q Hq); intros w q' [].
Qed.

(** ** Extremes: the per-visit records *)

Lemma visit_key_spec : EqbSpec (key_eqb visit_key).
Proof.
  intros [d m] [d' m']. cbn [visit_key pair_key key_eqb fst snd date_key
    meal_key]. rewrite andb_true_iff, (date_eqb_spec d d'), String.eqb_eq.
  split; [intros [-> ->]; reflexivity|intros [= -> ->]; auto].
Qed.

Lemma meal_summary_of_records (l : list Row) :
  meal_summary_of l
  = map (visit_record l) (group_keys visit_key visit_of (sort_by_time l)).
Proof.
  unfold meal_summary_of, groupby. fold (sort_by_time l).
  rewrite map_map. reflexivity.
Qed.

Lemma visit_of_stamp (r : Row) (k : date * string) :
  visit_of r = Some k ->
  exists t, stamp r = Some t /\ dt_date t = fst k /\ meal r = Some (snd k).
Proof.
  unfold visit_of, row_date. destruct (stamp r) as [t|]; [|discriminate].
  cbn [option_map]. destruct (meal r) as [m|]; [|discriminate].
  intros [= <-]. exists t. auto.
Qed.

Lemma sort_by_time_sorted (l : list Row) :
  StronglySorted
    (fun a b => by_key (nan_last datetime_leb) stamp a b = true)
    (sort_by_time l).
Proof.
  apply sort_by_sorted; order_laws.
Qed.

Lemma group_sorted_In (k : date * string) (l : list Row) (r : Row) :
  In r (group visit_key visit_of k (sort_by_time l)) <->
  In r (group visit_key visit_of k l).
Proof.
  rewrite !(group_In visit_key visit_key_spec). unfold sort_by_time.
  now rewrite sort_by_In.
Qed.

Lemma visit_keys_In (l : list Row) (k : date * string) :
  In k (group_keys visit_key visit_of (sort_by_time l)) <->
  exists r, In r l /\ visit_of r = Some k.
Proof.
  rewrite (group_keys_In visit_key visit_key_spec). unfold sort_by_time.
  split; intros (r & H & E); exists r; split; try exact E;
    now apply sort_by_In in H || apply sort_by_In.
Qed.

(** Each record of [meal_summary] is the record of a visit. *)
Lemma visit_record_is_visit (l : list Row) (k : date * string) :
  In k (group_keys visit_key visit_of (sort_by_time l)) ->
  is_visit l (visit_record l k).
Proof.
  intros Hk. pose proof Hk as Hk0. apply visit_keys_In in Hk.
  destruct Hk as (r0 & Hr0 & E0).
  unfold is_visit, visit_rows. cbn [v_date v_meal visit_record first_time
    clock_minutes total_amount].
  replace (fst k, snd k) with k by (now destruct k).
  set (gS := group visit_key visit_of k (sort_by_time l)).
  set (g := group visit_key visit_of k l).
  assert (G0 : In r0 g)
    by (apply (group_In visit_key visit_key_spec); auto).
  split; [intros E; rewrite E in G0; contradiction|].
  split.
  - assert (S0 : In r0 gS) by (now apply group_sorted_In).
    pose proof (StronglySorted_filter_keep
                  (fun r => match visit_of r with
                            | Some k' => key_eqb visit_key k' k
                            | None => false
                            end) (sort_by_time_sorted l)) as SS.
    fold (group visit_key visit_of k (sort_by_time l)) in SS. fold gS in SS.
    destruct gS as [|r1 rest] eqn:EgS; [contradiction|].
    assert (H1 : In r1 g)
      by (apply group_sorted_In; fold gS; rewrite EgS; now left).
    pose proof H1 as K1. apply (group_In visit_key visit_key_spec) in K1.
    destruct K1 as [_ K1]. apply visit_of_stamp in K1.
    destruct K1 as (t1 & St1 & _).
    exists t1. cbn [map first_valid]. rewrite St1. cbn [option_map].
    split; [reflexivity|]. split; [reflexivity|].
    split; [exists r1; auto|].
    intros r t' Hr St'. apply group_sorted_In in Hr. fold gS in Hr.
    rewrite EgS in Hr. inversion SS as [|? ? _ F]; subst.
    destruct Hr as [<-|Hr].
    + assert (t' = t1) by congruence. subst.
      destruct (datetime_leb_total t1 t1); assumption.
    + rewrite Forall_forall in F. specialize (F r Hr).
      unfold by_key in F. now rewrite St1, St' in F.
  - unfold groupby.
    rewrite (lookup_map visit_key visit_key_spec
               (fun k => sum_amount (group visit_key visit_of k l))).
    assert (E : existsb (fun k' => key_eqb visit_key k' k)
                  (group_keys visit_key visit_of l) = true).
    { apply (existsb_key visit_key visit_key_spec).
      apply (group_keys_In visit_key visit_key_spec). eauto. }
    now rewrite E.
Qed.

Lemma is_visit_timed (l : list Row) (v : Visit) : is_visit l v -> timed v.
Proof. intros (_ & (t & H1 & H2 & _) & _). exists t. auto. Qed.

Lemma is_visit_priced (l : list Row) (v : Visit) : is_visit l v -> priced v.
Proof. intros (_ & _ & H). eexists. exact H. Qed.

(** The first time of a visit lies in the visit's period. *)
Lemma is_visit_period (l : list Row) (v : Visit) (t : datetime) :
  (forall r, In r l -> well_classified r) ->
  is_visit l v -> first_time v = Some t ->
  pd_cut bins labels (Some (hour t * 60 + minute t)) = Some (v_meal v).
Proof.
  intros W (_ & (t1 & H1 & _ & (r & Hr & St) & _) & _) Ht.
  assert (t1 = t) by congruence. subst t1.
  apply (group_In visit_key visit_key_spec) in Hr. destruct Hr as [Hr K].
  apply visit_of_stamp in K. destruct K as (t' & St' & _ & M).
  destruct (W r Hr) as (t2 & l2 & S2 & M2 & C2). cbn [snd] in M.
  congruence.
Qed.

(** The first time of a visit fixes its date and its period. *)
Lemma is_visit_key (l : list Row) (v : Visit) (t : datetime) :
  (forall r, In r l -> well_classified r) ->
  is_visit l v -> first_time v = Some t ->
  v_date v = dt_date t
  /\ pd_cut bins labels (Some (hour t * 60 + minute t)) = Some (v_meal v).
Proof.
  intros W V Ht. split; [|exact (is_visit_period W V Ht)].
  destruct V as (_ & (t1 & H1 & _ & (r & Hr & St) & _) & _).
  assert (t1 = t) by congruence. subst t1.
  apply (group_In visit_key visit_key_spec) in Hr. destruct Hr as [_ K].
  apply visit_of_stamp in K. destruct K as (t' & St' & D & _).
  cbn [fst] in D. congruence.
Qed.

Lemma shown_of_pick (candidates : list Visit) (pick : option Visit) :
  (pick = None -> candidates = []) ->
  (forall v, pick = Some v -> In v candidates /\ timed v) ->
  shown candidates pick.
Proof.
  intros N S. destruct pick as [v|].
  - right. destruct (S v eq_refl) as [Hin (t & Ht & _)].
    exists v, t. split; [intros E; rewrite E in Hin; contradiction|].
    split; [reflexivity|]. split; [exact Ht|].
    cbn [format_row]. now rewrite Ht.
  - left. split; [now apply N|reflexivity].
Qed.

(** ** Extremes: the table *)

Section ExtremesFacts.
Variable parse : string -> option datetime.

Lemma of_year_rows (y : Z) (df : DataFrame) (r : Row) :
  In r (rows (of_year y df)) <->
  In r (rows df) /\ exists t, tx_time r = Stamp t /\ year t = y.
Proof.
  unfold of_year, with_rows. cbn [rows]. rewrite filter_In.
  unfold stamp. destruct (tx_time r) as [s|t|].
  - split; [intros [_ H]; discriminate|intros [_ (t & H & _)]; discriminate].
  - rewrite Z.eqb_eq. split.
    + intros [H E]. split; [exact H|]. exists t. auto.
    + intros [H (t' & [= <-] & E)]. auto.
  - split; [intros [_ H]; discriminate|intros [_ (t & H & _)]; discriminate].
Qed.

(** The rows the extremes are computed from: rows of the target year, as
    the classifier leaves them. *)
Lemma classified_of_year (y : Z) (df out : DataFrame) (r : Row) :
  fst (fst (prepare_meal_period_data parse (of_year y (parsed parse df))))
  = Some out ->
  In r (rows out) ->
  well_classified r /\ exists t, stamp r = Some t /\ year t = y.
Proof.
  intros H Hr. apply prepare_meal_period_data_rows in H.
  destruct H as [_ ->]. cbn [rows with_rows] in Hr.
  apply values_In in Hr. destruct Hr as (r0 & Hr0 & C).
  apply of_year_rows in Hr0. destruct Hr0 as [_ (t & Ht & Y)].
  unfold classify_row in C. rewrite Ht in C. cbn [to_datetime] in C.
  destruct (pd_cut bins labels (Some (hour t * 60 + minute t)))
    as [l|] eqn:Cut; [|discriminate].
  injection C as <-. split.
  - exists t, l. auto.
  - exists t. auto.
Qed.

Lemma yearly_extremes_Ok (df : DataFrame) (y : Z) (e : Extremes) :
  yearly_extremes parse df y = Ok e ->
  exists out,
    fst (fst (prepare_meal_period_data parse (of_year y (parsed parse df))))
    = Some out
    /\ has_location out = true
    /\ e = select_extremes (meal_summary_of (rows out)).
Proof.
  unfold yearly_extremes.
  destruct (empty (of_year y (parsed parse df))); [discriminate|].
  destruct (classified parse _ _) as [[out ls]|msg|ex] eqn:C;
    try discriminate.
  apply classified_Ok in C. destruct C as [C _].
  destruct (has_location out) eqn:L; [|discriminate].
  intros [= <-]. exists out. auto.
Qed.

(** C5. When the extremes table of a target year is produced, its four
    entries are picked among the per-(date, period) visit records of the
    classified rows of that year, one record per visit, each holding the
    visit's earliest timestamp and its total amount, and no two records
    sharing their first timestamp:
    - the first entry is the visit with the earliest first timestamp;
    - the second is, among the breakfast visits, the one with the earliest
      clock time, the earliest timestamp deciding among equal clock times;
    - the third is, among the late-snack visits, the one with the latest
      clock time, the latest timestamp deciding among equal clock times;
    - the fourth is the visit with the highest total, the first in the
      order of the records among equal totals.
    A category without a visit shows the placeholder in its three fields,
    any other shows the location, total and time of its pick. The records
    are built from classified rows only, so the time of the late-snack
    pick lies in [19:30, 22:30): a transaction at 23:00 never takes part
    in the selection. *)
Theorem extremes_pick_among_visits (df : DataFrame) (y : Z) (e : Extremes) :
  yearly_extremes parse df y = Ok e ->
  exists out ms,
    fst (fst (prepare_meal_period_data parse (of_year y (parsed parse df))))
    = Some out
    /\ ms = meal_summary_of (rows out)
    /\ (forall r, In r (rows out) ->
          well_classified r
          /\ (exists t, stamp r = Some t /\ year t = y)
          /\ exists v, In v ms /\ visit_of r = Some (v_date v, v_meal v))
    /\ (forall v, In v ms -> is_visit (rows out) v)
    /\ NoDup (map (fun v => (v_date v, v_meal v)) ms)
    /\ (forall v w, In v ms -> In w ms -> first_time v = first_time w ->
                    v = w)
    /\ earliest_overall ms (first_meal e)
    /\ earliest_by_clock (of_meal breakfast ms) (earliest_breakfast e)
    /\ latest_by_clock (of_meal night ms) (latest_night e)
    /\ costliest ms (most_expensive e)
    /\ shown ms (first_meal e)
    /\ shown (of_meal breakfast ms) (earliest_breakfast e)
    /\ shown (of_meal night ms) (latest_night e)
    /\ shown ms (most_expensive e)
    /\ create_yearly_extremes_table parse df y = Ok (table_rows e)
    /\ (forall v t, latest_night e = Some v -> first_time v = Some t ->
                    1170 <= hour t * 60 + minute t < 1350).
Proof.
  intros H. pose proof H as H0. apply yearly_extremes_Ok in H.
  destruct H as (out & P & L & ->).
  set (ms := meal_summary_of (rows out)).
  exists out, ms. split; [exact P|]. split; [reflexivity|].
  assert (R : ms = map (visit_record (rows out))
                     (group_keys visit_key visit_of
                        (sort_by_time (rows out))))
    by apply meal_summary_of_records.
  assert (V : forall v, In v ms -> is_visit (rows out) v).
  { intros v Hv. rewrite R in Hv. apply in_map_iff in Hv.
    destruct Hv as (k & <- & Hk). now apply visit_record_is_visit. }
  assert (W : forall r, In r (rows out) -> well_classified r)
    by (intros r Hr; apply (@classified_of_year y df out r P Hr)).
  assert (Ti : forall v, In v ms -> timed v)
    by (intros v Hv; exact (is_visit_timed (V v Hv))).
  assert (Pr : forall v, In v ms -> priced v)
    by (intros v Hv; exact (is_visit_priced (V v Hv))).
  assert (TiB : forall m v, In v (of_meal m ms) -> timed v)
    by (intros m v Hv; apply filter_In in Hv; apply Ti; tauto).
  pose proof (@pick_first_row_spec ms Ti) as S1.
  pose proof (@earliest_breakfast_spec _ (TiB breakfast)) as S2.
  pose proof (@latest_night_spec _ (TiB night)) as S3.
  pose proof (@idxmax_spec ms Pr) as S4.
  split.
  { intros r Hr. destruct (@classified_of_year y df out r P Hr) as [Wr Yr].
    split; [exact Wr|]. split; [exact Yr|].
    destruct Wr as (t & l & St & Ml & _).
    exists (visit_record (rows out) (dt_date t, l)). split.
    - rewrite R. apply in_map. apply visit_keys_In. exists r.
      split; [exact Hr|]. unfold visit_of, row_date. now rewrite St, Ml.
    - unfold visit_of, row_date. now rewrite St, Ml. }
  split; [exact V|]. split.
  { rewrite R, map_map.
    rewrite (map_ext _ (fun k => k)) by (intros [d m]; reflexivity).
    rewrite map_id. apply (group_keys_NoDup visit_key visit_key_spec). }
  split.
  { intros v w Hv Hw E. destruct (Ti v Hv) as (t & Ht & _).
    assert (Ht' : first_time w = Some t) by congruence.
    destruct (is_visit_key W (V v Hv) Ht) as [D1 M1].
    destruct (is_visit_key W (V w Hw) Ht') as [D2 M2].
    rewrite R in Hv, Hw. apply in_map_iff in Hv, Hw.
    destruct Hv as ([d1 m1] & <- & _), Hw as ([d2 m2] & <- & _).
    cbn [visit_record v_date v_meal fst snd] in D1, D2, M1, M2.
    assert (m1 = m2) by congruence. congruence. }
  cbn [select_extremes first_meal earliest_breakfast latest_night
         most_expensive].
  fold ms. split; [exact S1|]. split; [exact S2|]. split; [exact S3|].
  split; [exact S4|].
  split.
  { apply shown_of_pick.
    - intros E. unfold earliest_overall in S1. now rewrite E in S1.
    - intros v E. unfold earliest_overall in S1. rewrite E in S1.
      destruct S1 as [Hin _]. auto. }
  split.
  { apply shown_of_pick.
    - intros E. unfold earliest_by_clock in S2. now rewrite E in S2.
    - intros v E. unfold earliest_by_clock in S2. rewrite E in S2.
      destruct S2 as [Hin _]. split; [exact Hin|exact (TiB _ _ Hin)]. }
  split.
  { apply shown_of_pick.
    - intros E. unfold latest_by_clock in S3. now rewrite E in S3.
    - intros v E. unfold latest_by_clock in S3. rewrite E in S3.
      destruct S3 as [Hin _]. split; [exact Hin|exact (TiB _ _ Hin)]. }
  split.
  { apply shown_of_pick.
    - intros E. unfold costliest in S4. now rewrite E in S4.
    - intros v E. unfold costliest in S4. rewrite E in S4.
      destruct S4 as (before & after & q & Hms & _).
      assert (Hin : In v ms)
        by (rewrite Hms; apply in_app_iff; right; now left).
      auto. }
  split.
  { unfold create_yearly_extremes_table. now rewrite H0. }
  intros v t E Ht. unfold latest_by_clock in S3. rewrite E in S3.
  destruct S3 as [Hin _]. apply filter_In in Hin. destruct Hin as [Hin M].
  apply String.eqb_eq in M.
  pose proof (is_visit_period W (V v Hin) Ht) as C. rewrite M in C.
  rewrite pd_cut_cases in C. unfold night in C. split_ltb;
    try discriminate; lia.
Qed.

End ExtremesFacts.

(** The scenario of the specification: of a transaction at 23:00 and one
    at 20:00 on the same day, the visit of 20:00 is the latest late
    snack, and there is no breakfast. *)
Lemma extremes_late_snack_scenario :
  exists e,
    yearly_extremes never_parses late_snack_scenario 2025 = Ok e
    /\ latest_night e = Some visit_at_20
    /\ first_meal e = Some visit_at_20
    /\ format_row (earliest_breakfast e) = placeholder
    /\ latest_by_clock
         (of_meal night
            (meal_summary_of
               [set_meal (row_at (at_time 2025 3 1 20 0 0) "持卡人消费"
                                 (Some "Canteen A") 6) (Some "夜宵")]))
         (latest_night e).
Proof.
  eexists. split; [reflexivity|]. split; [reflexivity|].
  split; [reflexivity|]. split; [reflexivity|].
  destruct (@extremes_pick_among_visits never_parses late_snack_scenario
              2025 _ eq_refl)
    as (out & ms & P & -> & _ & _ & _ & _ & _ & _ & S3 & _).
  vm_compute in P. injection P as <-. exact S3.
Defined.

(** * Part III: further properties of the code *)

(** ** File resolver *)

Lemma sorted_by_mtime_length (l : list File) :
  List.length (sorted_by_mtime l) = List.length l.
Proof. apply Permutation_length, sort_by_perm. Qed.

(** X1. When every candidate of the directory can be read, auto-discovery
    returns a most recently modified [.csv] file whenever the directory
    holds one, whatever Excel files it holds and however recent they
    are. *)
Theorem find_data_file_prefers_newest_csv (fs : FileSystem) (d : string) :
  stat_ok fs d ->
  glob fs d ".csv" <> [] ->
  exists f,
    snd (find_data_file fs None d) = Ok (path f)
    /\ is_newest f (glob fs d ".csv")
    /\ ends_with ".csv" (path f) = true.
Proof.
  intros S H. cbn [find_data_file]. rewrite (search_stat_ok S).
  destruct (search_prefers_csv fs d H) as (f & E & N).
  exists f. split; [exact E|]. split; [exact N|].
  destruct N as [Hin _]. apply glob_In in Hin. tauto.
Qed.

Lemma find_data_file_prefers_csv_example :
  snd (find_data_file csv_and_excel None ".") = Ok "b.csv".
Proof.
  destruct (@find_data_file_prefers_newest_csv csv_and_excel ".")
    as (f & E & _); [intros f _ _; reflexivity|discriminate|].
  pose proof E as E'. vm_compute in E'. injection E' as E'.
  rewrite E. f_equal. symmetry. exact E'.
Defined.

(** X2. When every candidate of the directory can be read and none is a
    [.csv] file, auto-discovery returns a most recently modified [.xlsx]
    file when the directory holds one, and a most recently modified
    [.xls] file only when it holds no [.xlsx] file. *)
Theorem find_data_file_excel_preference (fs : FileSystem) (d : string) :
  stat_ok fs d ->
  glob fs d ".csv" = [] ->
  (glob fs d ".xlsx" <> [] ->
   exists f, snd (find_data_file fs None d) = Ok (path f)
             /\ is_newest f (glob fs d ".xlsx"))
  /\ (glob fs d ".xlsx" = [] -> glob fs d ".xls" <> [] ->
      exists f, snd (find_data_file fs None d) = Ok (path f)
                /\ is_newest f (glob fs d ".xls")).
Proof.
  intros S C. cbn [find_data_file]. rewrite (search_stat_ok S).
  exact (search_excel_order fs d C).
Qed.

Lemma find_data_file_excel_preference_example :
  stat_ok two_excel_files "."
  /\ exists f, snd (find_data_file two_excel_files None ".") = Ok (path f)
               /\ is_newest f (glob two_excel_files "." ".xlsx").
Proof.
  assert (S : stat_ok two_excel_files ".") by (intros f _ _; reflexivity).
  split; [exact S|].
  apply (proj1 (@find_data_file_excel_preference two_excel_files "."
                  S eq_refl)).
  discriminate.
Defined.

Lemma first_stat_error_Some (fs : FileSystem) (l : list File) (f : File) :
  In f l -> stat_error fs f <> None -> first_stat_error fs l <> None.
Proof.
  intros Hf N E. induction l as [|g l IH]; [contradiction|].
  cbn [first_stat_error] in E.
  destruct (stat_error fs g) eqn:G; [discriminate|].
  destruct Hf as [->|Hf]; [contradiction|]. exact (IH Hf E).
Qed.

(** X3. The ways the resolver ends. A path that cannot be expanded or tested
    raises the error of the failing call. An existing file that is not a
    directory is returned as it is, nothing printed, whatever its
    extension; a directory is searched in place of the default one; no
    path, an empty path or a path to nothing searches the default
    directory. A search raises as soon as one candidate cannot be read,
    even beside readable ones; when all can be read, it returns a path
    exactly when the directory holds a candidate, and otherwise raises
    the no-data-file error, nothing printed. *)
Theorem find_data_file_cases
  (fs : FileSystem) (file_path : option string) (search_dir : string) :
  (forall fp e, file_path = Some fp -> fp <> "" ->
     expanduser fs fp = inl e
     \/ (exists p, expanduser fs fp = inr p
                   /\ (is_dir fs p = inl e
                       \/ (is_dir fs p = inr false
                           /\ exists_ fs p = inl e))) ->
     find_data_file fs file_path search_dir = ([], Raise e))
  /\ (forall fp p, file_path = Some fp -> fp <> "" ->
        expanduser fs fp = inr p ->
        is_dir fs p = inr false ->
        exists_ fs p = inr true ->
        find_data_file fs file_path search_dir = ([], Ok p))
  /\ (forall fp p, file_path = Some fp -> fp <> "" ->
        expanduser fs fp = inr p ->
        is_dir fs p = inr true ->
        find_data_file fs file_path search_dir = search fs p)
  /\ (file_path = None \/ file_path = Some ""
      \/ (exists fp p, file_path = Some fp
                       /\ expanduser fs fp = inr p
                       /\ is_dir fs p = inr false
                       /\ exists_ fs p = inr false) ->
      find_data_file fs file_path search_dir = search fs search_dir)
  /\ (forall d f,
        In f (listdir fs d) -> has_extension f ->
        stat_error fs f <> None ->
        exists e g, search fs d = ([], Raise e)
                    /\ In g (listdir fs d) /\ has_extension g
                    /\ stat_error fs g = Some e)
  /\ (forall d,
        stat_ok fs d ->
        (has_candidate fs d <-> exists p, snd (search fs d) = Ok p)
        /\ (~ has_candidate fs d <->
            search fs d = ([], Raise (FileNotFoundError no_data_file)))).
Proof.
  split; [|split; [|split; [|split; [|split]]]].
  - intros fp e -> N H. unfold find_data_file.
    apply String.eqb_neq in N. rewrite N.
    destruct H as [->|(p & -> & [->|[-> ->]])]; reflexivity.
  - intros fp p -> N X D E. unfold find_data_file.
    apply String.eqb_neq in N. now rewrite N, X, D, E.
  - intros fp p -> N X D. unfold find_data_file.
    apply String.eqb_neq in N. now rewrite N, X, D.
  - intros [->|[->|(fp & p & -> & X & D & E)]]; try reflexivity.
    unfold find_data_file. rewrite X, D, E.
    now destruct (String.eqb fp "").
  - intros d f Hf X N. unfold search, sorted_candidates.
    destruct (first_stat_error fs (glob fs d ".csv")) as [e|] eqn:C.
    { apply first_stat_error_In in C. destruct C as (g & Hg & E).
      apply glob_In in Hg. exists e, g. unfold has_extension. tauto. }
    destruct (first_stat_error fs (glob fs d ".xlsx")) as [e|] eqn:Cx.
    { apply first_stat_error_In in Cx. destruct Cx as (g & Hg & E).
      apply glob_In in Hg. exists e, g. unfold has_extension. tauto. }
    destruct (first_stat_error fs (glob fs d ".xls")) as [e|] eqn:Cs.
    { apply first_stat_error_In in Cs. destruct Cs as (g & Hg & E).
      apply glob_In in Hg. exists e, g. unfold has_extension. tauto. }
    exfalso. destruct X as [X|[X|X]].
    + exact (first_stat_error_Some fs _ f
               (proj2 (glob_In fs d _ f) (conj Hf X)) N C).
    + exact (first_stat_error_Some fs _ f
               (proj2 (glob_In fs d _ f) (conj Hf X)) N Cx).
    + exact (first_stat_error_Some fs _ f
               (proj2 (glob_In fs d _ f) (conj Hf X)) N Cs).
  - intros d S. rewrite (search_stat_ok S).
    destruct (search_outcome fs d) as [[H [p P]]|[H R]].
    + split; split; intros; eauto; try contradiction.
      rewrite H0 in P. discriminate.
    + split; split; intros; try contradiction; auto.
      destruct H0 as [p P]. rewrite R in P. discriminate.
Qed.

Lemma find_data_file_cases_example :
  find_data_file typo_fs (Some "reports/data.xlsx") "."
  = ([], Ok "reports/data.xlsx")
  /\ find_data_file dangling_link_fs None "."
     = ([], Raise (no_such_file "gone.csv")).
Proof.
  split.
  - apply (proj1 (proj2 (find_data_file_cases typo_fs
                           (Some "reports/data.xlsx") "."))
             "reports/data.xlsx" "reports/data.xlsx" eq_refl);
      [discriminate| | |]; reflexivity.
  - reflexivity.
Defined.

Lemma nonempty_length (A : Type) (l : list A) :
  nonempty l = true <-> (1 <= List.length l)%nat.
Proof. destruct l; simpl; split; intros; try discriminate; lia. Qed.

(** X4. When every candidate of the directory can be read, a note is printed
    exactly when the directory holds more than one candidate: the CSV
    note when one of them is a [.csv] file, else the Excel note. A lone
    candidate is returned silently. *)
Theorem find_data_file_note_iff_several (fs : FileSystem) (d : string) :
  stat_ok fs d ->
  (fst (find_data_file fs None d) = []
   <-> (List.length (candidates fs d) <= 1)%nat)
  /\ ((1 < List.length (candidates fs d))%nat ->
      fst (find_data_file fs None d)
      = if nonempty (glob fs d ".csv") then [note_csv] else [note_excel]).
Proof.
  intros St. unfold candidates. rewrite !length_app.
  cbn [find_data_file]. rewrite (search_stat_ok St).
  unfold search_sorted, choose.
  pose proof (sorted_by_mtime_length (glob fs d ".csv")) as Lc.
  pose proof (sorted_by_mtime_length (glob fs d ".xlsx")) as Lx.
  pose proof (sorted_by_mtime_length (glob fs d ".xls")) as Ls.
  unfold sorted_by_mtime in *. rewrite !sort_by_nonempty.
  destruct (glob fs d ".csv") as [|c cs] eqn:C.
  - cbn [sort_by nonempty negb andb List.length] in *.
    destruct (glob fs d ".xlsx") as [|x xs] eqn:X.
    + cbn [sort_by nonempty negb andb app List.length] in *.
      destruct (glob fs d ".xls") as [|s ss] eqn:S.
      * cbn. split; [split; [lia|reflexivity]|lia].
      * cbn [nonempty negb]. cbn [List.length] in *.
        destruct (sort_by newest_first (s :: ss)) as [|s' ss'] eqn:E;
          [discriminate|].
        cbn [fst List.length] in *.
        destruct ss' as [|s2 ss']; cbn [List.length Nat.ltb Nat.leb] in *.
        -- split; [split; [lia|reflexivity]|lia].
        -- split; [split; [discriminate|lia]|reflexivity].
    + cbn [nonempty negb andb List.length] in *.
      destruct (sort_by newest_first (x :: xs)) as [|x' xs'] eqn:E;
        [discriminate|].
      cbn [app fst]. rewrite length_cons, length_app.
      cbn [List.length] in Lx.
      destruct (1 <? S (List.length xs' + List.length
                  (sort_by newest_first (glob fs d ".xls"))))%nat eqn:B;
        [apply Nat.ltb_lt in B|apply Nat.ltb_ge in B];
        (split; [split; [try discriminate; lia|try reflexivity; lia]
                |try reflexivity; lia]).
  - cbn [nonempty negb andb List.length] in *.
    destruct (sort_by newest_first (c :: cs)) as [|c' cs'] eqn:E;
      [discriminate|].
    cbn [fst List.length] in *.
    destruct ((1 <? S (List.length cs'))%nat
              || nonempty (glob fs d ".xlsx")
              || nonempty (glob fs d ".xls")) eqn:B.
    + split; [split; [discriminate|]|reflexivity].
      intros L. exfalso.
      assert (List.length cs = O) by lia.
      assert (List.length (glob fs d ".xlsx") = O) by lia.
      assert (List.length (glob fs d ".xls") = O) by lia.
      destruct (glob fs d ".xlsx"); [|discriminate].
      destruct (glob fs d ".xls"); [|discriminate].
      assert (List.length cs' = O) by lia.
      destruct cs'; [|discriminate]. discriminate.
    + apply orb_false_iff in B. destruct B as [B B3].
      apply orb_false_iff in B. destruct B as [B1 B2].
      apply nonempty_false in B2, B3. rewrite B2, B3.
      apply Nat.ltb_ge in B1. cbn [List.length].
      split; [split; [lia|reflexivity]|lia].
Qed.

Lemma find_data_file_note_example :
  stat_ok csv_and_excel "."
  /\ fst (find_data_file csv_and_excel None ".") = [note_csv].
Proof.
  assert (S : stat_ok csv_and_excel ".") by (intros f _ _; reflexivity).
  split; [exact S|].
  apply (proj2 (@find_data_file_note_iff_several csv_and_excel "." S)).
  cbv. lia.
Defined.

(** X5. Whatever auto-discovery returns is the path of an entry of the
    searched directory that carries one of the three extensions. *)
Theorem find_data_file_returns_candidate
  (fs : FileSystem) (d p : string) :
  snd (find_data_file fs None d) = Ok p ->
  exists f, In f (listdir fs d) /\ path f = p /\ has_extension f.
Proof.
  cbn [find_data_file]. intros H. rewrite (search_Ok _ _ H) in H.
  assert (G : forall ext f, In f (sorted_by_mtime (glob fs d ext)) ->
                In f (listdir fs d) /\ ends_with ext (path f) = true).
  { intros ext f Hf. apply sort_by_In in Hf. now apply glob_In in Hf. }
  unfold search_sorted, choose in H.
  destruct (negb (nonempty (sorted_by_mtime (glob fs d ".csv")))
            && negb (nonempty (sorted_by_mtime (glob fs d ".xlsx")))
            && negb (nonempty (sorted_by_mtime (glob fs d ".xls"))));
    [discriminate|].
  destruct (sorted_by_mtime (glob fs d ".csv")) as [|c cs] eqn:C.
  - destruct (sorted_by_mtime (glob fs d ".xlsx")) as [|x xs] eqn:X.
    + destruct (sorted_by_mtime (glob fs d ".xls")) as [|s ss] eqn:S;
        [discriminate|].
      cbn in H. injection H as <-. exists s.
      destruct (G ".xls" s) as [I E]; [rewrite S; now left|].
      unfold has_extension. tauto.
    + cbn in H. injection H as <-. exists x.
      destruct (G ".xlsx" x) as [I E]; [rewrite X; now left|].
      unfold has_extension. tauto.
  - cbn in H. injection H as <-. exists c.
    destruct (G ".csv" c) as [I E]; [rewrite C; now left|].
    unfold has_extension. tauto.
Qed.

Lemma find_data_file_single_excel_example :
  find_data_file single_excel None "." = ([], Ok "card.xlsx")
  /\ exists f, In f (listdir single_excel ".") /\ path f = "card.xlsx"
               /\ has_extension f.
Proof.
  split; [reflexivity|].
  apply (@find_data_file_returns_candidate single_excel "." "card.xlsx").
  reflexivity.
Defined.

(** ** Preprocessor and location totals *)

Lemma filter_idem (A : Type) (f : A -> bool) (l : list A) :
  filter f (filter f l) = filter f l.
Proof.
  apply filter_all. intros x Hx. apply filter_In in Hx. tauto.
Qed.

(** X6. Preprocessing a table that the preprocessor returned returns it
    again: nothing more is dropped and nothing is raised. *)
Theorem preprocess_data_idempotent (df out : DataFrame) :
  preprocess_data df = Ok out -> preprocess_data out = Ok out.
Proof.
  unfold preprocess_data. destruct (has_location df) eqn:L; cbn [negb].
  2: { intros [= <-]. now rewrite L. }
  destruct (str_location df) eqn:T; [|discriminate]. intros [= <-].
  cbn [has_location str_location with_rows rows]. rewrite L, T.
  cbn [negb]. unfold with_rows. cbn [has_location str_location rows].
  now rewrite filter_idem.
Qed.

Lemma preprocess_data_idempotent_example :
  preprocess_data tmall_table = Ok tmall_table_filtered
  /\ preprocess_data tmall_table_filtered = Ok tmall_table_filtered.
Proof.
  split; [reflexivity|].
  apply (@preprocess_data_idempotent tmall_table). reflexivity.
Defined.

(** X7. The preprocessor and the spending filter can be applied in either
    order: the same table comes out, or the same error. *)
Theorem preprocess_data_commutes_with_spending_filter (df : DataFrame) :
  and_then (preprocess_data df) (fun d => Ok (select_spending d))
  = preprocess_data (select_spending df).
Proof.
  unfold preprocess_data.
  cbn [has_location str_location select_spending with_rows].
  destruct (has_location df) eqn:L; cbn [negb and_then]; [|reflexivity].
  destruct (str_location df); cbn [and_then]; [|reflexivity].
  unfold select_spending, with_rows. cbn [rows has_location str_location].
  now rewrite filter_filter_comm.
Qed.

Lemma location_order_total :
  Total (by_key (descending Qle_bool) (@snd string Q)).
Proof. apply by_key_total, descending_total, Qle_bool_total. Qed.

Lemma location_order_trans :
  Transitive (by_key (descending Qle_bool) (@snd string Q)).
Proof. apply by_key_trans, descending_trans, Qle_bool_trans. Qed.

(** X8. The location totals come out in descending order of amount, one entry
    per location. *)
Theorem location_spending_sorted_descending
  (df : DataFrame) (totals : list (string * Q)) :
  location_spending df = Ok totals ->
  StronglySorted (fun a b => (snd b <= snd a)%Q) totals
  /\ NoDup (map fst totals).
Proof.
  unfold location_spending. destruct (has_location df); [|discriminate].
  intros [= <-]. split.
  - pose proof (sort_by_sorted location_order_total location_order_trans
                  (groupby string_key tx_location sum_amount (rows df)))
      as S.
    induction S as [|x l S IH F]; constructor; [exact IH|].
    rewrite Forall_forall in *. intros y Hy. specialize (F y Hy).
    unfold by_key, descending in F. now apply Qle_bool_iff.
  - apply (Permutation_NoDup
             (l := map fst (groupby string_key tx_location sum_amount
                              (rows df)))).
    + symmetry. apply Permutation_map, sort_by_perm.
    + unfold groupby. rewrite map_map. cbn [fst]. rewrite map_id.
      apply (group_keys_NoDup string_key string_key_spec).
Qed.

Lemma location_spending_sorted_example :
  StronglySorted (fun a b => (snd b <= snd a)%Q)
    [("Canteen A", 15%Q); ("B", 7%Q)].
Proof.
  apply (@location_spending_sorted_descending
           {| has_location := true; str_location := true;
              rows := [ row_at (at_time 2025 3 2 23 0 0) "持卡人消费"
                               (Some "B") 7;
                        row_at (at_time 2025 3 1 7 0 0) "持卡人消费"
                               (Some "Canteen A") 10;
                        row_at (at_time 2025 3 1 7 10 0) "持卡人消费"
                               (Some "Canteen A") 5 ] |}).
  reflexivity.
Defined.

(** The entries of the location totals. *)
Lemma location_spending_entries (l : list Row) (loc : string) (total : Q) :
  In (loc, total)
     (sort_by (by_key (descending Qle_bool) snd)
        (groupby string_key tx_location sum_amount l)) <->
  (exists r, In r l /\ tx_location r = Some loc)
  /\ total = sum_amount (at_location loc l).
Proof.
  rewrite sort_by_In. unfold groupby. rewrite in_map_iff. split.
  - intros (k & [= -> <-] & Hk).
    apply (group_keys_In string_key string_key_spec) in Hk.
    split; [exact Hk|]. now rewrite at_location_group.
  - intros [Hk ->]. exists loc. rewrite at_location_group.
    split; [reflexivity|].
    now apply (group_keys_In string_key string_key_spec).
Qed.

(** X10. No denylisted location ever shows in the location totals of [main]:
    the totals list exactly the locations of the spending rows whose
    location holds none of the three tokens, each with the sum of the
    amounts of all spending rows at that location. *)
Theorem main_location_spending_excludes_denylist
  (df : DataFrame) (totals : list (string * Q)) :
  main_location_spending df = Ok totals ->
  (forall loc tok, In loc (map fst totals) -> In tok denylist ->
                   ~ occurs_in tok loc)
  /\ (forall loc,
        In loc (map fst totals) <->
        exists r, In r (rows df)
                  /\ isin (tx_event r) spending_events = true
                  /\ tx_location r = Some loc /\ ~ denylisted r)
  /\ (forall loc total,
        In (loc, total) totals ->
        total = sum_amount (at_location loc (rows (select_spending df)))).
Proof.
  unfold main_location_spending, and_then. intros H.
  destruct (preprocess_data df) as [out| |] eqn:PE; try discriminate.
  unfold preprocess_data in PE.
  destruct (has_location df) eqn:L; cbn [negb] in PE.
  2: { injection PE as <-. unfold location_spending, select_spending in H.
       cbn in H. rewrite L in H. discriminate. }
  destruct (str_location df) eqn:Tx; [|discriminate]. injection PE as <-.
  pose proof (fun r => denylist_filter_In (rows df) r) as K.
  set (P := select_spending
              (with_rows df
                 (filter (fun r =>
                            negb (str_contains denylist false
                                    (tx_location r))) (rows df)))) in *.
  assert (LP : has_location P = true) by (cbn; exact L).
  assert (T : totals
              = sort_by (by_key (descending Qle_bool) snd)
                  (groupby string_key tx_location sum_amount (rows P)))
    by (unfold location_spending in H; rewrite LP in H; congruence).
  clear H. subst totals.
  assert (R : forall r, In r (rows P) <->
                In r (rows df) /\ isin (tx_event r) spending_events = true
                /\ ~ denylisted r).
  { intros r. unfold P, select_spending, with_rows. cbn [rows].
    rewrite filter_In, K. tauto. }
  assert (Keys : forall loc,
             In loc (map fst
                       (sort_by (by_key (descending Qle_bool) snd)
                          (groupby string_key tx_location sum_amount
                             (rows P)))) <->
             exists r, In r (rows P) /\ tx_location r = Some loc).
  { intros loc. rewrite in_map_iff. split.
    - intros ([l t] & <- & Hin). apply location_spending_entries in Hin.
      tauto.
    - intros E. exists (loc, sum_amount (at_location loc (rows P))).
      split; [reflexivity|]. apply location_spending_entries. auto. }
  split; [|split].
  - intros loc tok Hloc Htok Hocc. apply Keys in Hloc.
    destruct Hloc as (r & Hr & E). apply R in Hr.
    destruct Hr as (_ & _ & N). apply N. exists loc, tok. auto.
  - intros loc. split.
    + intros Hloc. apply Keys in Hloc. destruct Hloc as (r & Hr & E).
      apply R in Hr. exists r. tauto.
    + intros (r & Hr & Ev & E & N). apply Keys. exists r.
      split; [|exact E]. apply R. tauto.
  - intros loc total Hin. apply location_spending_entries in Hin.
    destruct Hin as [(r0 & Hr0 & E0) ->]. f_equal.
    unfold at_location, P, select_spending, with_rows. cbn [rows].
    set (fS := fun r => isin (tx_event r) spending_events).
    set (D := fun r => negb (str_contains denylist false (tx_location r))).
    set (A := fun r => option_eqb String.eqb (tx_location r) (Some loc)).
    rewrite (filter_filter_comm fS D), (filter_filter_comm A D).
    apply filter_all. intros r Hr. apply filter_In in Hr.
    destruct Hr as [Hr E]. apply R in Hr0. destruct Hr0 as (_ & _ & N0).
    unfold A in E. unfold D.
    destruct (tx_location r) as [s|] eqn:Es; [|discriminate].
    cbn [option_eqb] in E. apply String.eqb_eq in E. subst s.
    destruct (str_contains denylist false (Some loc)) eqn:C; [|reflexivity].
    exfalso. apply N0. apply str_contains_denylist. now rewrite E0.
Qed.

Lemma main_location_spending_tmall_example :
  main_location_spending tmall_table = Ok [("观畴园", 12%Q)]
  /\ ~ occurs_in "天猫" "观畴园".
Proof.
  split; [reflexivity|].
  apply (proj1 (@main_location_spending_excludes_denylist tmall_table
                  [("观畴园", 12%Q)] eq_refl));
    simpl; tauto.
Defined.

(** ** Meal-period classifier: outcomes *)

Section ClassifierOutcomes.
Variable parse : string -> option datetime.

Lemma parsed_empty_iff (df : DataFrame) :
  empty (parsed parse df) = true <->
  forall r, In r (rows df) -> ~ parses parse r.
Proof.
  unfold empty. split.
  - intros E r Hr [t Ht].
    assert (H : In (set_time r (Stamp t)) (rows (parsed parse df)))
      by (apply parsed_rows_In; eauto).
    destruct (rows (parsed parse df)); [contradiction|discriminate].
  - intros H. destruct (rows (parsed parse df)) as [|r' l] eqn:E;
      [reflexivity|].
    assert (Hr : In r' (rows (parsed parse df))) by (rewrite E; now left).
    apply parsed_rows_In in Hr. destruct Hr as (r & t & Hr & Ht & _).
    exfalso. apply (H r Hr). now exists t.
Qed.

(** X11. The three outcomes of the classifier, told apart by its message: no
    table and no labels when no time parses; no table, but the labels,
    when times parse and none lies in the day window; the table, the
    labels and no message when some time lies in the window. *)
Theorem prepare_meal_period_data_outcomes (df : DataFrame) :
  ((forall r, In r (rows df) -> ~ parses parse r) <->
   prepare_meal_period_data parse df = (None, None, Some no_time_data))
  /\ ((exists r, In r (rows df) /\ parses parse r)
      /\ (forall r, In r (rows df) -> ~ in_window parse r) <->
      prepare_meal_period_data parse df
      = (None, Some labels, Some no_window_data))
  /\ ((exists r, In r (rows df) /\ in_window parse r) <->
      exists out,
        prepare_meal_period_data parse df = (Some out, Some labels, None)).
Proof.
  rewrite prepare_meal_period_data_spec.
  pose proof (parsed_empty_iff df) as PE.
  assert (VN : values (classify_row parse) (rows df) = [] <->
               forall r, In r (rows df) -> ~ in_window parse r).
  { rewrite values_nil_iff. split; intros H r Hr.
    - intros W. apply classify_row_in_window in W. destruct W as [r' W].
      rewrite (H r Hr) in W. discriminate.
    - destruct (classify_row parse r) as [r'|] eqn:C; [|reflexivity].
      exfalso. apply (H r Hr). apply classify_row_in_window. eauto. }
  assert (WP : forall r, in_window parse r -> parses parse r)
    by (intros r (t & Ht & _); now exists t).
  destruct (empty (parsed parse df)) eqn:E.
  - assert (N : forall r, In r (rows df) -> ~ parses parse r)
      by (now apply PE).
    split; [tauto|]. split.
    + split; [|discriminate]. intros [(r & Hr & P) _]. now apply N in P.
    + split; [|intros [out H]; discriminate].
      intros (r & Hr & W). exfalso. apply (N r Hr). auto.
  - assert (N : ~ forall r, In r (rows df) -> ~ parses parse r)
      by (intros H; apply PE in H; congruence).
    assert (P : exists r, In r (rows df) /\ parses parse r).
    { destruct (rows (parsed parse df)) as [|r' l] eqn:R;
        [unfold empty in E; rewrite R in E; discriminate|].
      assert (Hr : In r' (rows (parsed parse df))) by (rewrite R; now left).
      apply parsed_rows_In in Hr. destruct Hr as (r & t & Hr & Ht & _).
      exists r. split; [exact Hr|now exists t]. }
    destruct (values (classify_row parse) (rows df)) as [|x xs] eqn:V.
    + assert (NW : forall r, In r (rows df) -> ~ in_window parse r)
        by (now apply VN).
      split; [split; [intros H; contradiction|discriminate]|].
      split; [tauto|].
      split; [|intros [out H]; discriminate].
      intros (r & Hr & W). now apply NW in W.
    + assert (W : exists r, In r (rows df) /\ in_window parse r).
      { assert (Hx : In x (values (classify_row parse) (rows df)))
          by (rewrite V; now left).
        apply values_In in Hx. destruct Hx as (r & Hr & C). exists r.
        split; [exact Hr|]. apply classify_row_in_window. eauto. }
      split; [split; [intros H; contradiction|discriminate]|].
      split; [|split; eauto].
      split; [|discriminate].
      intros [_ NW]. destruct W as (r & Hr & W). now apply NW in W.
Qed.

Lemma is_some_classify (r : Row) :
  is_some (classify_row parse r) = true <->
  exists r', classify_row parse r = Some r'.
Proof.
  destruct (classify_row parse r); simpl; split; eauto; try discriminate.
  intros [r' H]. discriminate.
Qed.

Lemma classify_row_payload (r r' : Row) :
  classify_row parse r = Some r' -> payload r' = payload r.
Proof.
  unfold classify_row.
  destruct (to_datetime parse (tx_time r)); try discriminate.
  destruct (pd_cut _ _ _); [|discriminate]. intros [= <-]. reflexivity.
Qed.

Lemma values_map_filter (A B C : Type) (f : A -> option B) (g : B -> C)
      (h : A -> C) (l : list A) :
  (forall x y, f x = Some y -> g y = h x) ->
  map g (values f l) = map h (filter (fun x => is_some (f x)) l).
Proof.
  intros H. induction l as [|x l IH]; [reflexivity|].
  unfold values in *. cbn [flat_map filter].
  destruct (f x) as [y|] eqn:F; cbn [is_some app map]; [|exact IH].
  now rewrite (H x y F), IH.
Qed.

Lemma classifier_rows_classified (df out : DataFrame) :
  fst (fst (prepare_meal_period_data parse df)) = Some out ->
  forall r, In r (rows out) -> well_classified r.
Proof.
  intros H. apply prepare_meal_period_data_rows in H. destruct H as [_ ->].
  cbn [rows with_rows]. intros r Hr. apply values_In in Hr.
  destruct Hr as (r0 & _ & C). unfold classify_row in C.
  destruct (to_datetime parse (tx_time r0)) as [|t|]; try discriminate.
  destruct (pd_cut bins labels (Some (hour t * 60 + minute t)))
    as [l|] eqn:Cut; [|discriminate].
  injection C as <-. exists t, l. auto.
Qed.

(** X12. The classifier only drops rows: the rows it returns are the rows
    whose time parses into the day window, in their order, each with its
    event kind, location and amount untouched; the location column is
    there exactly when it was. *)
Theorem classifier_keeps_transactions (df out : DataFrame) :
  fst (fst (prepare_meal_period_data parse df)) = Some out ->
  map payload (rows out)
  = map payload (filter (fun r => is_some (classify_row parse r)) (rows df))
  /\ has_location out = has_location df
  /\ (List.length (rows out) <= List.length (rows df))%nat
  /\ (forall r, In r (rows out) -> well_classified r).
Proof.
  intros H. apply prepare_meal_period_data_rows in H.
  destruct H as [H0 ->]. cbn [rows has_location with_rows].
  pose proof (values_map_filter (classify_row parse) payload payload
                (rows df) classify_row_payload) as M.
  split; [exact M|]. split; [reflexivity|]. split.
  - rewrite <- (length_map payload), M, length_map. apply filter_length_le.
  - apply (@classifier_rows_classified df (with_rows df
             (values (classify_row parse) (rows df)))).
    apply prepare_meal_period_data_rows. split; [|reflexivity].
    intros E. apply H0. exact E.
Qed.

End ClassifierOutcomes.

Lemma prepare_meal_period_data_mixed_example :
  exists out,
    fst (fst (prepare_meal_period_data parses_noon mixed_table)) = Some out
    /\ map payload (rows out) = [("持卡人消费", Some "A", 8%Q)].
Proof.
  eexists. split; [reflexivity|].
  apply (proj1 (@classifier_keeps_transactions parses_noon mixed_table
                  _ eq_refl)).
Defined.

(** ** Per-meal totals and counts *)

Lemma labels_distinct : NoDup labels.
Proof.
  unfold labels. repeat constructor; simpl; intuition discriminate.
Qed.

Lemma well_classified_label (r : Row) :
  well_classified r -> exists m, meal r = Some m /\ In m labels.
Proof.
  intros (t & l & _ & M & C). exists l. split; [exact M|].
  rewrite pd_cut_cases in C. unfold labels.
  split_ltb; try discriminate; injection C as <-; simpl; tauto.
Qed.

Lemma drop_duplicates_incl (K : Type) (eqb : K -> K -> bool)
      (key : Row -> K) (l : list Row) (r : Row) :
  In r (drop_duplicates eqb key l) -> In r l.
Proof.
  induction l as [|x l IH]; [contradiction|]. cbn [drop_duplicates].
  intros [<-|H]; [now left|]. apply filter_In in H. right. tauto.
Qed.

Lemma drop_duplicates_filter_length (K : Type) (eqb : K -> K -> bool)
      (key : Row -> K) (f : Row -> bool) (l : list Row) :
  (List.length (filter f (drop_duplicates eqb key l))
   <= List.length (filter f l))%nat.
Proof.
  induction l as [|x l IH]; [reflexivity|]. cbn [drop_duplicates filter].
  pose proof (filter_length_le f
                (filter (fun r' => negb (eqb (key r') (key x)))
                   (drop_duplicates eqb key l))) as L1.
  rewrite filter_filter_comm.
  pose proof (filter_length_le (fun r' => negb (eqb (key r') (key x)))
                (filter f (drop_duplicates eqb key l))) as L2.
  destruct (f x); cbn [List.length]; lia.
Qed.

Section MealChartFacts.
Variable parse : string -> option datetime.

Lemma classified_rows_well (df out : DataFrame) (ls : list string)
      (what : string) :
  classified parse df what = Ok (out, ls) ->
  fst (fst (prepare_meal_period_data parse df)) = Some out
  /\ ls = labels
  /\ forall r, In r (rows out) -> well_classified r.
Proof.
  intros C. apply classified_Ok in C. destruct C as [C ->].
  split; [exact C|]. split; [reflexivity|].
  apply (classifier_rows_classified parse df C).
Qed.

(** X13. The chart of per-meal totals never faults and is drawn whenever the
    classifier returns rows. It has one bar per period, in the order of
    the labels, and the bar of a period is the sum of the amounts of the
    classified rows of that period, 0 for a period without rows. *)
Theorem meal_period_chart_bars_are_period_totals (df : DataFrame) :
  (forall e, create_meal_period_chart parse df <> Raise e)
  /\ (forall out,
        fst (fst (prepare_meal_period_data parse df)) = Some out ->
        exists series, create_meal_period_chart parse df = Ok series)
  /\ forall series,
       create_meal_period_chart parse df = Ok series ->
       exists out,
         fst (fst (prepare_meal_period_data parse df)) = Some out
         /\ map fst series = labels
         /\ (forall m, In m labels ->
               lookup String.eqb m series
               = Some (period_total m (rows out)))
         /\ (forall m, In m labels -> period_rows m (rows out) = [] ->
               lookup String.eqb m series = Some 0%Q).
Proof.
  unfold create_meal_period_chart.
  destruct (classified parse df _) as [[out ls]|msg|e] eqn:C.
  2: { split; [discriminate|]. split; [|discriminate].
       intros out P.
       assert (C' : classified parse df "，跳过各餐消费图表生成。"
                    = Ok (out, labels)) by (apply classified_Ok; auto).
       congruence. }
  2: { exfalso. exact (@classified_not_Raise _ _ _ _ C). }
  split; [discriminate|]. split; [eauto|].
  apply classified_rows_well in C. destruct C as (P & -> & W).
  rewrite (reindex_groupby_map meal_key) by
    (try exact string_eqb_spec; reflexivity).
  intros series E.
  apply (f_equal (fun o => match o with Ok v => v | _ => [] end)) in E.
  cbv beta iota in E. subst series. exists out. split; [exact P|].
  split; [rewrite map_map; apply map_id|].
  assert (L : forall m, In m labels ->
            lookup String.eqb m
              (map (fun k => (k, sum_amount
                                   (group meal_key meal k (rows out))))
                 labels)
            = Some (period_total m (rows out))).
  { intros m Hm.
    rewrite (lookup_map meal_key string_eqb_spec
               (fun m => sum_amount (group meal_key meal m (rows out)))).
    assert (E : existsb (fun k' => key_eqb meal_key k' m) labels = true)
      by (apply (existsb_key meal_key string_eqb_spec); exact Hm).
    rewrite E. unfold period_total.
    now rewrite (period_rows_group m (rows out)). }
  split; [exact L|].
  intros m Hm N. rewrite (L m Hm). unfold period_total. now rewrite N.
Qed.

(** X14. The chart of per-meal counts gives each period its number of distinct
    visit dates: never more than the period's transactions, at least one
    when the period has a transaction and zero when it has none. *)
Theorem meal_count_chart_counts_visits
  (df : DataFrame) (series : list (string * Q)) :
  create_meal_count_chart parse df = Ok series ->
  exists out,
    fst (fst (prepare_meal_period_data parse df)) = Some out
    /\ map fst series = labels
    /\ forall m, In m labels ->
         exists n,
           lookup String.eqb m series = Some (inject_Z (Z.of_nat n))
           /\ visit_count m (rows out) n
           /\ (n <= List.length (period_rows m (rows out)))%nat
           /\ (period_rows m (rows out) <> [] -> (1 <= n)%nat)
           /\ (period_rows m (rows out) = [] -> n = O).
Proof.
  unfold create_meal_count_chart.
  destruct (classified parse df _) as [[out ls]|msg|e] eqn:C;
    try discriminate.
  apply classified_rows_well in C. destruct C as (P & -> & W).
  unfold visits_per_meal.
  rewrite (reindex_groupby_map meal_key) by
    (try exact string_eqb_spec; reflexivity).
  intros E.
  apply (f_equal (fun o => match o with Ok v => v | _ => [] end)) in E.
  cbv beta iota in E. subst series. exists out. split; [exact P|].
  split; [rewrite map_map; apply map_id|].
  intros m Hm.
  set (dd := drop_duplicates date_meal_eqb date_meal (rows out)).
  exists (List.length (group meal_key meal m dd)).
  split; [|split; [apply visit_count_drop_duplicates|]].
  - rewrite (lookup_map meal_key string_eqb_spec
               (fun m => size (group meal_key meal m dd))).
    assert (E : existsb (fun k' => key_eqb meal_key k' m) labels = true)
      by (apply (existsb_key meal_key string_eqb_spec); exact Hm).
    now rewrite E.
  - rewrite (period_rows_group m (rows out)), !group_meal.
    split; [apply drop_duplicates_filter_length|].
    pose proof (drop_duplicates_dates m (rows out)) as D. fold dd in D.
    assert (L : List.length (filter (in_meal m) dd)
                = List.length (distinct (option_eqb date_eqb)
                                 (map row_date
                                    (filter (in_meal m) (rows out)))))
      by (rewrite <- D; symmetry; apply length_map).
    rewrite L.
    destruct (filter (in_meal m) (rows out)) as [|x xs];
      cbn [map distinct List.length]; split; intros; try contradiction;
      try discriminate; try reflexivity; lia.
Qed.

End MealChartFacts.

Lemma meal_period_chart_two_swipes :
  exists series,
    create_meal_period_chart never_parses two_swipes = Ok series
    /\ map fst series = labels.
Proof.
  eexists. split; [reflexivity|].
  destruct (proj2 (proj2 (@meal_period_chart_bars_are_period_totals
                            never_parses two_swipes)) _ eq_refl)
    as (out & _ & L & _).
  exact L.
Defined.

Lemma meal_count_chart_two_swipes :
  exists series,
    create_meal_count_chart never_parses two_swipes = Ok series
    /\ lookup String.eqb "早饭" series = Some 1%Q
    /\ exists out,
         fst (fst (prepare_meal_period_data never_parses two_swipes))
         = Some out
         /\ map fst series = labels.
Proof.
  eexists. split; [reflexivity|]. split; [reflexivity|].
  destruct (@meal_count_chart_counts_visits never_parses two_swipes _
              eq_refl) as (out & P & L & _).
  exists out. split; [exact P|exact L].
Defined.

(** ** Average per visit and location *)

(** Dropping duplicates of a key and then looking at the rows that pass
    [f] leaves one row per distinct value of [g], when the key tells rows
    passing [f] apart exactly by [g] and from the other rows always. *)
Lemma drop_duplicates_project (K G : Type) (eqbK : K -> K -> bool)
      (key : Row -> K) (eqbG : G -> G -> bool) (g : Row -> G)
      (f : Row -> bool) (l : list Row) :
  (forall r r', f r = true -> f r' = true ->
                eqbK (key r') (key r) = eqbG (g r') (g r)) ->
  (forall r r', f r' = true -> f r = false ->
                eqbK (key r') (key r) = false) ->
  map g (filter f (drop_duplicates eqbK key l))
  = distinct eqbG (map g (filter f l)).
Proof.
  intros Same Other. induction l as [|r l IH]; [reflexivity|].
  cbn [drop_duplicates filter].
  set (X := drop_duplicates eqbK key l) in *.
  rewrite filter_filter_comm.
  destruct (f r) eqn:P; cbn [map distinct].
  - f_equal. rewrite <- IH, <- map_filter_key. f_equal.
    apply filter_ext_in_iff. intros x Hx. apply filter_In in Hx.
    destruct Hx as [_ Hx]. now rewrite (Same r x P Hx).
  - rewrite <- IH. f_equal. apply filter_all. intros x Hx.
    apply filter_In in Hx. destruct Hx as [_ Hx].
    now rewrite (Other r x Hx P).
Qed.

Lemma at_loc_spec (loc : string) (r : Row) :
  at_loc loc r = true <-> tx_location r = Some loc.
Proof.
  unfold at_loc. destruct (tx_location r) as [k|].
  - rewrite String.eqb_eq. split; congruence.
  - split; discriminate.
Qed.

Lemma date_meal_eqb_spec : EqbSpec date_meal_eqb.
Proof.
  intros [d m] [d' m']. unfold date_meal_eqb. cbn [fst snd].
  rewrite andb_true_iff, (option_eqb_spec date_eqb_spec d d'),
    (option_eqb_spec string_eqb_spec m m').
  split; [intros [-> ->]; reflexivity|intros [= -> ->]; auto].
Qed.

(** Among the rows of one location, dropping the duplicates of
    (date, period, location) leaves one row per visit. *)
Lemma location_visit_count_drop_duplicates (loc : string) (l : list Row) :
  location_visit_count loc l
    (List.length
       (group string_key tx_location loc
          (drop_duplicates date_meal_location_eqb date_meal_location l)))
  /\ ((exists r, In r l /\ tx_location r = Some loc) ->
      (1 <= List.length
              (group string_key tx_location loc
                 (drop_duplicates date_meal_location_eqb
                    date_meal_location l)))%nat).
Proof.
  assert (D : map date_meal
                (filter (at_loc loc)
                   (drop_duplicates date_meal_location_eqb
                      date_meal_location l))
              = distinct date_meal_eqb (map date_meal
                                          (filter (at_loc loc) l))).
  { apply drop_duplicates_project.
    - intros r r' P P'. apply at_loc_spec in P, P'.
      unfold date_meal_location_eqb, date_meal_location. cbn [fst snd].
      rewrite P, P'. cbn [option_eqb].
      now rewrite String.eqb_refl, andb_true_r.
    - intros r r' P' P. apply at_loc_spec in P'.
      unfold date_meal_location_eqb, date_meal_location. cbn [fst snd].
      rewrite P'. unfold at_loc in P.
      destruct (tx_location r) as [k|]; cbn [option_eqb].
      + rewrite String.eqb_sym, P. apply andb_false_r.
      + apply andb_false_r. }
  change (group string_key tx_location loc) with (filter (at_loc loc)).
  rewrite <- (length_map date_meal), D.
  pose (ops := {| key_eqb := date_meal_eqb;
                  key_leb := fun _ _ : option date * option string => true |}).
  pose proof (distinct_In ops date_meal_eqb_spec) as DI.
  cbn [key_eqb ops] in DI. split.
  - exists (distinct date_meal_eqb (map date_meal (filter (at_loc loc) l))).
    split; [exact (distinct_NoDup ops date_meal_eqb_spec _)|].
    split; [|reflexivity].
    intros v. rewrite DI, in_map_iff. split.
    + intros (r & E & H). apply filter_In in H. destruct H as [H1 H2].
      apply at_loc_spec in H2. eauto.
    + intros (r & H1 & H2 & E). exists r. split; [exact E|].
      apply filter_In. split; [exact H1|]. now apply at_loc_spec.
  - intros (r & Hr & E).
    assert (H : In r (filter (at_loc loc) l))
      by (apply filter_In; split; [exact Hr|now apply at_loc_spec]).
    destruct (filter (at_loc loc) l) as [|x xs]; [contradiction|].
    cbn [map distinct List.length]. lia.
Qed.

Lemma size_nonzero (g : list Row) :
  (1 <= List.length g)%nat -> Qeq_bool (size g) 0 = false.
Proof.
  intros H. unfold size. destruct (Qeq_bool _ 0) eqn:E; [|reflexivity].
  apply Qeq_bool_iff in E. unfold Qeq in E. simpl in E. lia.
Qed.

Lemma StronglySorted_weaken (A : Type) (R R' : A -> A -> Prop)
      (l : list A) :
  (forall a b, R a b -> R' a b) -> StronglySorted R l ->
  StronglySorted R' l.
Proof.
  intros W S. induction S as [|x l S IH Fa]; constructor; [exact IH|].
  rewrite Forall_forall in *. auto.
Qed.

Section CanteenAverageFacts.
Variable parse : string -> option datetime.

(** The averages per location, in closed form. *)
Lemma canteen_average_series (l : list Row) :
  divide String.eqb (groupby string_key tx_location sum_amount l)
    (where_nonzero
       (groupby string_key tx_location size
          (drop_duplicates date_meal_location_eqb date_meal_location l)))
  = Ok (map (fun loc =>
               (loc,
                Some (sum_amount (at_location loc l)
                      / size (group string_key tx_location loc
                                (drop_duplicates date_meal_location_eqb
                                   date_meal_location l)))%Q))
            (group_keys string_key tx_location l)).
Proof.
  rewrite divide_where_nonzero. apply f_equal. unfold groupby.
  rewrite map_map. cbn [fst snd]. apply map_ext_in. intros loc Hloc.
  apply f_equal.
  rewrite (lookup_map string_key string_eqb_spec
             (fun k => size (group string_key tx_location k
                (drop_duplicates date_meal_location_eqb
                   date_meal_location l)))).
  apply (group_keys_In string_key string_key_spec) in Hloc.
  pose proof (proj2 (location_visit_count_drop_duplicates loc l) Hloc) as N.
  assert (E : existsb (fun k' => key_eqb string_key k' loc)
                (group_keys string_key tx_location
                   (drop_duplicates date_meal_location_eqb
                      date_meal_location l)) = true).
  { apply (existsb_key string_key string_eqb_spec).
    apply (group_keys_In string_key string_key_spec).
    destruct (group string_key tx_location loc
                (drop_duplicates date_meal_location_eqb
                   date_meal_location l)) as [|r g] eqn:G;
      [simpl in N; lia|].
    exists r. apply (group_In string_key string_key_spec).
    rewrite G. now left. }
  rewrite E, (size_nonzero _ N), at_location_group. reflexivity.
Qed.

(** X15. The chart of averages per location never faults. It lists exactly the
    locations of the classified rows, in descending order of the average,
    and the average of a location is the sum of its amounts divided by
    its number of distinct (date, period) visits, which is at least one:
    the zero fill never applies. *)
Theorem canteen_average_is_total_per_visit (df : DataFrame) :
  (forall e, create_canteen_avg_per_meal_chart parse df <> Raise e)
  /\ forall avg,
       create_canteen_avg_per_meal_chart parse df = Ok avg ->
       exists out,
         fst (fst (prepare_meal_period_data parse df)) = Some out
         /\ has_location out = true
         /\ NoDup (map fst avg)
         /\ StronglySorted (fun a b => (snd b <= snd a)%Q) avg
         /\ (forall loc,
               In loc (map fst avg) <->
               exists r, In r (rows out) /\ tx_location r = Some loc)
         /\ forall loc a,
              In (loc, a) avg ->
              exists n,
                location_visit_count loc (rows out) n
                /\ (1 <= n)%nat
                /\ a = (sum_amount (at_location loc (rows out))
                        / inject_Z (Z.of_nat n))%Q.
Proof.
  unfold create_canteen_avg_per_meal_chart.
  destruct (classified parse df _) as [[out ls]|msg|e] eqn:C.
  2: { split; [discriminate|]. intros avg H. discriminate. }
  2: { exfalso. exact (@classified_not_Raise _ _ _ _ C). }
  apply classified_Ok in C. destruct C as [C _].
  destruct (has_location out) eqn:L; cbn [negb].
  2: { split; [discriminate|]. intros avg H. discriminate. }
  rewrite canteen_average_series.
  set (series := map (fun loc => _) (group_keys string_key tx_location
                                       (rows out))).
  set (avg0 := sort_by (by_key (descending Qle_bool) snd)
                 (fillna 0%Q series)).
  split; [destruct (negb (nonempty avg0)); discriminate|].
  intros avg H. destruct (negb (nonempty avg0)); [discriminate|].
  injection H as <-. exists out. split; [exact C|]. split; [exact L|].
  assert (F : map fst (fillna 0%Q series)
              = group_keys string_key tx_location (rows out)).
  { unfold fillna, series. rewrite !map_map. cbn [fst]. apply map_id. }
  assert (Pm : Permutation avg0 (fillna 0%Q series)) by apply sort_by_perm.
  split; [|split; [|split]].
  - apply (Permutation_NoDup (l := map fst (fillna 0%Q series))).
    + symmetry. now apply Permutation_map.
    + rewrite F. apply (group_keys_NoDup string_key string_key_spec).
  - pose proof (sort_by_sorted location_order_total location_order_trans
                  (fillna 0%Q series)) as S. fold avg0 in S.
    revert S. apply StronglySorted_weaken. intros x y Fa.
    unfold by_key, descending in Fa. now apply Qle_bool_iff.
  - intros loc. rewrite <- (group_keys_In string_key string_key_spec), <- F.
    split; apply Permutation_in;
      [now apply Permutation_map | symmetry; now apply Permutation_map].
  - intros loc a Hin. apply (Permutation_in _ Pm) in Hin.
    unfold fillna, series in Hin. rewrite map_map in Hin.
    apply in_map_iff in Hin. destruct Hin as (k & E & Hk).
    cbn [fst snd] in E. injection E as -> <-.
    apply (group_keys_In string_key string_key_spec) in Hk.
    destruct (location_visit_count_drop_duplicates loc (rows out))
      as [V N]. eexists. split; [exact V|]. split; [exact (N Hk)|].
    reflexivity.
Qed.

End CanteenAverageFacts.

Lemma canteen_average_three_visits :
  create_canteen_avg_per_meal_chart never_parses three_visits
  = Ok [("B", 20%Q); ("A", (24 # 1) / inject_Z 2)%Q]
  /\ exists out,
       fst (fst (prepare_meal_period_data never_parses three_visits))
       = Some out
       /\ has_location out = true.
Proof.
  split; [reflexivity|].
  destruct (proj2 (canteen_average_is_total_per_visit never_parses
                     three_visits) _ eq_refl) as (out & P & L & _).
  exists out. auto.
Defined.

(** ** Spending of one year *)

Lemma filter_andb (A : Type) (f g : A -> bool) (l : list A) :
  filter f (filter g l) = filter (fun x => g x && f x) l.
Proof.
  induction l as [|x l IH]; [reflexivity|]. simpl.
  destruct (g x); simpl; [destruct (f x)|]; now rewrite IH.
Qed.

Section YearlySpendingFacts.
Variable parse : string -> option datetime.

(** The amounts of the year's rows that pass [q], read off the source
    table. *)
Lemma year_amounts (df : DataFrame) (y : Z) (q : Row -> bool) :
  map tx_amount (filter q (rows (of_year y (parsed parse df))))
  = map tx_amount
      (filter (fun r =>
                 match to_datetime parse (tx_time r) with
                 | Stamp t =>
                     (year t =? y)
                     && q (set_time r (to_datetime parse (tx_time r)))
                 | _ => false
                 end) (rows df)).
Proof.
  unfold of_year, parsed, dropna, convert_time, with_rows. cbn [rows].
  rewrite !filter_andb.
  rewrite <- (map_filter_key
                (fun r => set_time r (to_datetime parse (tx_time r)))).
  rewrite map_map. cbn [set_time tx_amount]. f_equal.
  apply filter_ext_in_iff. intros r _. rewrite stamp_set_time.
  destruct (to_datetime parse (tx_time r)); reflexivity.
Qed.

Lemma year_total (df : DataFrame) (y : Z) :
  sum_amount (rows (select_spending (of_year y (parsed parse df))))
  = sum_amount (filter (spent_in_year parse y) (rows df)).
Proof.
  unfold sum_amount, select_spending, with_rows. cbn [rows].
  rewrite year_amounts. f_equal. f_equal. apply filter_ext_in_iff.
  intros r _. unfold spent_in_year. cbn [set_time tx_event].
  destruct (to_datetime parse (tx_time r));
    rewrite ?andb_false_r; [reflexivity|apply andb_comm|reflexivity].
Qed.

Lemma month_total (df : DataFrame) (y m : Z) :
  sum_amount
    (group int_key row_month m
       (rows (select_spending (of_year y (parsed parse df)))))
  = sum_amount (filter (spent_in_month parse y m) (rows df)).
Proof.
  unfold sum_amount, group, select_spending, with_rows. cbn [rows].
  rewrite filter_andb, year_amounts. f_equal. f_equal.
  apply filter_ext_in_iff. intros r _. unfold spent_in_month, row_month.
  cbn [set_time tx_event]. rewrite stamp_set_time.
  destruct (to_datetime parse (tx_time r)) as [s|t|];
    rewrite ?andb_false_r; try reflexivity.
  cbn [option_map key_eqb int_key].
  destruct (isin (tx_event r) spending_events), (year t =? y),
    (month t =? m); reflexivity.
Qed.

(** X16. The chart of a year is skipped exactly when no row of the table has a
    time that parses into that year; it never faults. A year that holds
    only events other than spending still gets its chart, with a total of
    zero and twelve bars of zero. *)
Theorem yearly_spending_chart_outcomes (df : DataFrame) (y : Z) :
  (forall e, create_yearly_spending_chart parse df y <> Raise e)
  /\ (forall msg,
        create_yearly_spending_chart parse df y = Skip msg <->
        msg = no_records_of_year y
        /\ forall r t, In r (rows df) ->
                       to_datetime parse (tx_time r) = Stamp t ->
                       year t <> y)
  /\ ((forall r, In r (rows df) -> isin (tx_event r) spending_events = false)
      -> forall total monthly,
        create_yearly_spending_chart parse df y = Ok (total, monthly) ->
        total = 0%Q /\ monthly = map (fun m => (m, 0%Q)) months).
Proof.
  unfold create_yearly_spending_chart.
  assert (E : empty (of_year y (parsed parse df)) = true <->
              forall r t, In r (rows df) ->
                          to_datetime parse (tx_time r) = Stamp t ->
                          year t <> y).
  { unfold empty. split.
    - intros N r t Hr Ht Y.
      assert (H : In (set_time r (Stamp t))
                     (rows (of_year y (parsed parse df)))).
      { apply of_year_rows. split; [apply parsed_rows_In; eauto|].
        exists t. auto. }
      destruct (rows (of_year y (parsed parse df)));
        [contradiction|discriminate].
    - intros H. destruct (rows (of_year y (parsed parse df)))
        as [|r' l] eqn:R; [reflexivity|]. exfalso.
      assert (Hr' : In r' (rows (of_year y (parsed parse df))))
        by (rewrite R; now left).
      apply of_year_rows in Hr'. destruct Hr' as [Hp (t & T & Y)].
      apply parsed_rows_In in Hp. destruct Hp as (r & t' & Hr & Ht & ->).
      cbn [set_time tx_time] in T. injection T as ->.
      exact (H r t Hr Ht Y). }
  destruct (empty (of_year y (parsed parse df))) eqn:Em.
  - split; [discriminate|]. split.
    + intros msg. split.
      * intros [= <-]. split; [reflexivity|]. now apply E.
      * intros [-> _]. reflexivity.
    + intros _ total monthly H. discriminate.
  - split; [discriminate|]. split.
    + intros msg. split; [discriminate|]. intros [_ H].
      apply E in H. discriminate.
    + intros NoSp total monthly H.
      assert (Z0 : rows (select_spending (of_year y (parsed parse df))) = []).
      { unfold select_spending, with_rows. cbn [rows].
        destruct (filter _ _) as [|r' l] eqn:F; [reflexivity|]. exfalso.
        assert (Hr' : In r' (r' :: l)) by now left.
        rewrite <- F in Hr'. apply filter_In in Hr'.
        destruct Hr' as [Hr' Sp]. apply of_year_rows in Hr'.
        destruct Hr' as [Hp _]. apply parsed_rows_In in Hp.
        destruct Hp as (r & t & Hr & _ & ->). cbn [set_time tx_event] in Sp.
        rewrite (NoSp r Hr) in Sp. discriminate. }
      rewrite Z0 in H. injection H as <- <-. split; reflexivity.
Qed.

(** X17. The chart of a year has one bar for each month from January to
    December, in this order; the bar of a month is the sum of the amounts
    of the spending rows whose time parses into that month of the year,
    in their order in the table, and the total in the title is the sum of
    the amounts of the spending rows of the year. A month without such a
    row has a bar of 0. *)
Theorem yearly_spending_bars_by_month
  (df : DataFrame) (y : Z) (total : Q) (monthly : list (Z * Q)) :
  create_yearly_spending_chart parse df y = Ok (total, monthly) ->
  map fst monthly = months
  /\ total = sum_amount (filter (spent_in_year parse y) (rows df))
  /\ (forall m, In m months ->
        lookup Z.eqb m monthly
        = Some (sum_amount (filter (spent_in_month parse y m) (rows df))))
  /\ (forall m, In m months ->
        (forall r, In r (rows df) -> spent_in_month parse y m r = false) ->
        lookup Z.eqb m monthly = Some 0%Q).
Proof.
  unfold create_yearly_spending_chart.
  destruct (empty _); [discriminate|].
  assert (ZS : EqbSpec Z.eqb) by (intros a b; apply Z.eqb_eq).
  rewrite (reindex_groupby_map int_key) by (try exact ZS; reflexivity).
  intros H.
  assert (T : total
              = sum_amount (rows (select_spending
                                    (of_year y (parsed parse df)))))
    by congruence.
  assert (M : monthly
              = map (fun k =>
                       (k, sum_amount
                             (group int_key row_month k
                                (rows (select_spending
                                         (of_year y (parsed parse df)))))))
                  months) by congruence.
  clear H. subst total monthly.
  split; [rewrite map_map; apply map_id|]. split; [apply year_total|].
  assert (L : forall m, In m months ->
            lookup Z.eqb m
              (map (fun k =>
                      (k, sum_amount
                            (group int_key row_month k
                               (rows (select_spending
                                        (of_year y (parsed parse df)))))))
                 months)
            = Some (sum_amount
                      (filter (spent_in_month parse y m) (rows df)))).
  { intros m Hm.
    rewrite (lookup_map int_key ZS
               (fun k => sum_amount
                           (group int_key row_month k
                              (rows (select_spending
                                       (of_year y (parsed parse df))))))).
    assert (E : existsb (fun k' => key_eqb int_key k' m) months = true)
      by (apply (existsb_key int_key ZS); exact Hm).
    rewrite E. f_equal. apply month_total. }
  split; [exact L|].
  intros m Hm N. rewrite (L m Hm). f_equal.
  assert (E : filter (spent_in_month parse y m) (rows df) = []).
  { destruct (filter _ _) as [|r l] eqn:F; [reflexivity|]. exfalso.
    assert (Hr : In r (filter (spent_in_month parse y m) (rows df)))
      by (rewrite F; now left).
    apply filter_In in Hr. destruct Hr as [Hr S].
    rewrite (N r Hr) in S. discriminate. }
  now rewrite E.
Qed.

End YearlySpendingFacts.

Lemma yearly_spending_recharge_only :
  (forall r, In r (rows recharge_only) ->
             isin (tx_event r) spending_events = false)
  /\ create_yearly_spending_chart never_parses recharge_only 2025
     = Ok (0%Q, map (fun m => (m, 0%Q)) months).
Proof.
  assert (H : forall r, In r (rows recharge_only) ->
                        isin (tx_event r) spending_events = false).
  { intros r [<-|[]]. reflexivity. }
  split; [exact H|].
  destruct (proj2 (proj2 (yearly_spending_chart_outcomes never_parses
                            recharge_only 2025)) H _ _ eq_refl) as [_ _].
  reflexivity.
Defined.

Lemma yearly_spending_year_table :
  exists monthly,
    create_yearly_spending_chart never_parses year_table 2025
    = Ok ((10 + (5 + (7 + 0)))%Q, monthly)
    /\ lookup Z.eqb 3 monthly = Some (10 + (5 + 0))%Q
    /\ lookup Z.eqb 4 monthly = Some 0%Q
    /\ map fst monthly = months.
Proof.
  eexists. split; [reflexivity|].
  destruct (@yearly_spending_bars_by_month never_parses year_table 2025
              _ _ eq_refl) as (M & _).
  split; [reflexivity|]. split; [reflexivity|]. exact M.
Defined.

(** ** Average per active day *)

Lemma period_key_spec : EqbSpec (key_eqb period_key).
Proof.
  intros [y m] [y' m']. cbn [period_key pair_key key_eqb fst snd int_key].
  rewrite andb_true_iff, !Z.eqb_eq.
  split; [intros [-> ->]; reflexivity|intros [= -> ->]; auto].
Qed.

Lemma date_key_spec : EqbSpec (key_eqb date_key).
Proof. exact date_eqb_spec. Qed.

Lemma period_order_total :
  Total (by_key (key_leb period_key) (@fst (Z * Z) (option Q))).
Proof.
  apply by_key_total. cbn [period_key pair_key key_leb int_key].
  apply lex_total; apply by_key_total; exact Zleb_total.
Qed.

Lemma period_order_trans :
  Transitive (by_key (key_leb period_key) (@fst (Z * Z) (option Q))).
Proof.
  apply by_key_trans. cbn [period_key pair_key key_leb int_key].
  apply lex_trans; apply by_key_trans; exact Zleb_trans.
Qed.

Section MonthlyDailyAverageFacts.
Variable parse : string -> option datetime.

(** The amounts of the parsed rows that pass [q], read off the source
    table. *)
Lemma parsed_amounts (df : DataFrame) (q : Row -> bool) :
  map tx_amount (filter q (rows (parsed parse df)))
  = map tx_amount
      (filter (fun r =>
                 match to_datetime parse (tx_time r) with
                 | Stamp t => q (set_time r (Stamp t))
                 | _ => false
                 end) (rows df)).
Proof.
  unfold parsed, dropna, convert_time, with_rows. cbn [rows].
  rewrite filter_andb.
  rewrite <- (map_filter_key
                (fun r => set_time r (to_datetime parse (tx_time r)))).
  rewrite map_map. cbn [set_time tx_amount]. f_equal.
  apply filter_ext_in_iff. intros r _. rewrite stamp_set_time.
  destruct (to_datetime parse (tx_time r)); reflexivity.
Qed.

(** The total of a date, read off the source table. *)
Lemma daily_total_group (df : DataFrame) (d : date) :
  sum_amount (group date_key row_date d (rows (parsed parse df)))
  = daily_total parse df d.
Proof.
  unfold daily_total, sum_amount, group. rewrite parsed_amounts.
  apply f_equal. apply f_equal. apply filter_ext_in_iff. intros r _. unfold on_date.
  destruct (to_datetime parse (tx_time r)); reflexivity.
Qed.

(** X18. The chart of daily averages has one bar per month in which some row's
    time parses, in order of time; the bar of a month is never missing:
    it is the mean of the daily totals of the distinct dates of that
    month on which the table has a row, taken in order of date, the total
    of a date being the sum of the amounts of its rows. The days of a
    month without a row do not enter the mean. *)
Theorem monthly_average_is_mean_of_active_days
  (df : DataFrame) (series : list (Z * Z * option Q)) :
  create_monthly_daily_avg_chart parse df = Ok series ->
  NoDup (map fst series)
  /\ StronglySorted
       (fun a b => key_leb period_key (fst a) (fst b) = true) series
  /\ (forall ym, In ym (map fst series) <->
                 exists d, In d (all_dates parse df) /\ to_period_M d = ym)
  /\ forall ym a,
       In (ym, a) series ->
       exists days avg,
         a = Some avg
         /\ active_days parse df ym days
         /\ StronglySorted (fun d d' => date_leb d d' = true) days
         /\ (1 <= List.length days)%nat
         /\ mean (map (daily_total parse df) days) = Some avg.
Proof.
  unfold create_monthly_daily_avg_chart.
  destruct (empty (parsed parse df)); [discriminate|].
  set (R := rows (parsed parse df)).
  set (daily := groupby date_key row_date sum_amount R).
  set (G := groupby period_key _ _ daily).
  intros H.
  assert (E : series = sort_by (by_key (key_leb period_key) fst) G)
    by congruence.
  clear H. subst series.
  assert (Pm : Permutation (sort_by (by_key (key_leb period_key) fst) G) G)
    by apply sort_by_perm.
  assert (F : map fst G
              = group_keys period_key
                  (fun dt : date * Q => Some (to_period_M (fst dt))) daily).
  { unfold G, groupby. rewrite map_map. cbn [fst]. apply map_id. }
  assert (D : forall d, In d (group_keys date_key row_date R) <->
                        In d (all_dates parse df)).
  { intros d. rewrite (group_keys_In date_key date_key_spec).
    unfold all_dates. now rewrite values_In. }
  assert (K : forall ym,
             In ym (map fst G) <->
             exists d, In d (all_dates parse df) /\ to_period_M d = ym).
  { intros ym. rewrite F, (group_keys_In period_key period_key_spec).
    split.
    - intros ([d x] & Hd & [= <-]). exists d. split; [|reflexivity].
      apply D. unfold daily, groupby in Hd. apply in_map_iff in Hd.
      destruct Hd as (d' & [= -> _] & Hd). exact Hd.
    - intros (d & Hd & <-). apply D in Hd.
      exists (d, sum_amount (group date_key row_date d R)).
      split; [|reflexivity]. unfold daily, groupby.
      apply in_map_iff. exists d. auto. }
  split; [|split; [|split]].
  - apply (Permutation_NoDup (l := map fst G)).
    + symmetry. now apply Permutation_map.
    + rewrite F. apply (group_keys_NoDup period_key period_key_spec).
  - exact (sort_by_sorted period_order_total period_order_trans G).
  - intros ym. rewrite <- K.
    split; apply Permutation_in;
      [now apply Permutation_map | symmetry; now apply Permutation_map].
  - intros ym a Hin. apply (Permutation_in _ Pm) in Hin.
    assert (Hk : In ym (map fst G))
      by (apply in_map_iff; exists (ym, a); auto).
    unfold G, groupby in Hin. apply in_map_iff in Hin.
    destruct Hin as (k & [= -> <-] & _).
    set (days := filter (fun d => key_eqb period_key (to_period_M d) ym)
                   (group_keys date_key row_date R)).
    assert (Gk : map snd
                   (group period_key
                      (fun dt : date * Q => Some (to_period_M (fst dt)))
                      ym daily)
                 = map (fun d => sum_amount (group date_key row_date d R))
                     days).
    { unfold group, daily, groupby, days.
      rewrite <- (map_filter_key
                    (fun d => (d, sum_amount
                                    (group date_key row_date d R)))
                    (fun dt => key_eqb period_key (to_period_M (fst dt))
                                 ym)).
      rewrite map_map. reflexivity. }
    assert (A : active_days parse df ym days).
    { split.
      - apply NoDup_filter.
        apply (group_keys_NoDup date_key date_key_spec).
      - intros d. unfold days. rewrite filter_In, D.
        now rewrite (period_key_spec (to_period_M d) ym). }
    assert (N : (1 <= List.length days)%nat).
    { apply K in Hk. destruct Hk as (d & Hd & Y).
      assert (I : In d days) by (apply A; auto).
      destruct days; [contradiction|simpl; lia]. }
    rewrite Gk.
    destruct (mean _) as [avg|] eqn:M.
    2: { destruct days; [simpl in N; lia|discriminate]. }
    exists days, avg. split; [reflexivity|]. split; [exact A|].
    split; [|split; [exact N|]].
    + apply StronglySorted_filter_keep. unfold group_keys.
      exact (sort_by_sorted date_leb_total date_leb_trans _).
    + rewrite <- M. f_equal. apply map_ext. intros d. symmetry.
      apply daily_total_group.
Qed.

End MonthlyDailyAverageFacts.

Lemma monthly_average_two_months :
  create_monthly_daily_avg_chart never_parses two_months
  = Ok [ ((2025, 1), Some ((9 + 0) / inject_Z 1)%Q);
         ((2025, 3), Some ((10 + 6 + 0 + (4 + 0)) / inject_Z 2)%Q) ]
  /\ NoDup [(2025, 1); (2025, 3)].
Proof.
  split; [reflexivity|].
  exact (proj1 (@monthly_average_is_mean_of_active_days never_parses
                  two_months _ eq_refl)).
Defined.

(** ** Pie chart *)

Lemma Qsum_app (a b : list Q) : (Qsum (a ++ b) == Qsum a + Qsum b)%Q.
Proof.
  induction a as [|x a IH]; simpl.
  - now rewrite Qplus_0_l.
  - rewrite IH. apply Qplus_assoc.
Qed.

(** A table splits into the rows that pass a test and those that fail
    it. *)
Lemma Qsum_partition (A : Type) (f : A -> Q) (p : A -> bool) (l : list A) :
  (Qsum (map f (filter p l)) + Qsum (map f (filter (fun x => negb (p x)) l))
   == Qsum (map f l))%Q.
Proof.
  induction l as [|x l IH]; simpl; [reflexivity|].
  destruct (p x); simpl; rewrite <- IH; ring.
Qed.

(** In a sorted table a test that is passed by everything before a row
    that passes it selects a prefix, and its negation the rest. *)
Lemma filter_sorted_prefix (A : Type) (R : A -> A -> Prop) (p : A -> bool)
      (l : list A) :
  StronglySorted R l ->
  (forall x y, R x y -> p y = true -> p x = true) ->
  filter p l = firstn (List.length (filter p l)) l
  /\ filter (fun x => negb (p x)) l = skipn (List.length (filter p l)) l.
Proof.
  intros S Mono. induction S as [|x l S [IH1 IH2] Fa].
  - split; reflexivity.
  - rewrite Forall_forall in Fa. cbn [filter].
    destruct (p x) eqn:P; cbn [negb List.length firstn skipn].
    + split; [now f_equal|exact IH2].
    + assert (N : forall y, In y l -> p y = false).
      { intros y Hy. destruct (p y) eqn:Py; [|reflexivity].
        rewrite (Mono x y (Fa y Hy) Py) in P. discriminate. }
      assert (E : filter p l = []).
      { destruct (filter p l) as [|y ys] eqn:F; [reflexivity|].
        assert (Hy : In y (filter p l)) by (rewrite F; now left).
        apply filter_In in Hy. destruct Hy as [Hy Py].
        rewrite (N y Hy) in Py. discriminate. }
      rewrite E. cbn [List.length firstn skipn]. split; [reflexivity|].
      f_equal. apply filter_all. intros y Hy. now rewrite (N y Hy).
Qed.

Lemma Qlt_bool_iff (a b : Q) : Qlt_bool a b = true <-> (a < b)%Q.
Proof.
  unfold Qlt_bool. rewrite negb_true_iff. split.
  - intros H. apply Qnot_le_lt. intros L. apply Qle_bool_iff in L.
    congruence.
  - intros H. destruct (Qle_bool b a) eqn:E; [|reflexivity].
    apply Qle_bool_iff in E. exfalso. exact (Qlt_not_le _ _ H E).
Qed.

(** X20. On totals in descending order with a positive sum, as [main] passes
    them, and for a percentage that does not decrease with the amount, as
    the rounded one does not, the pie keeps a leading part of the table,
    every slice of it with a percentage at or above the threshold, and
    merges all the rest, every one of them with a percentage under the
    threshold, into one last slice; without a slice under the threshold
    the table is drawn as it is. *)
Theorem pie_chart_merges_trailing_slices
  (series_sum : list Q -> Q) (percent : Q -> Q -> Q)
  (location_spending : list (string * Q)) (min_percent : Q) :
  (forall total x y, (0 < total)%Q -> (x <= y)%Q ->
                     (percent total x <= percent total y)%Q) ->
  StronglySorted (fun a b => (snd b <= snd a)%Q) location_spending ->
  (0 < series_sum (map snd location_spending))%Q ->
  exists k,
    (k <= List.length location_spending)%nat
    /\ (forall kv, In kv (firstn k location_spending) ->
                   (min_percent
                    <= share percent
                         (series_sum (map snd location_spending)) kv)%Q)
    /\ (forall kv, In kv (skipn k location_spending) ->
                   (share percent
                      (series_sum (map snd location_spending)) kv
                    < min_percent)%Q)
    /\ create_pie_chart series_sum percent location_spending min_percent
       = if (k <? List.length location_spending)%nat
         then (firstn k location_spending
               ++ [(other,
                    series_sum (map snd (skipn k location_spending)))])%list
         else location_spending.
Proof.
  intros Incr S Pos.
  set (total := series_sum (map snd location_spending)) in *.
  set (p := fun kv => Qle_bool min_percent (share percent total kv)).
  assert (Mono : forall x y : string * Q,
             (snd y <= snd x)%Q -> p y = true -> p x = true).
  { intros x y L Py. unfold p in *. apply Qle_bool_iff in Py.
    apply Qle_bool_iff. apply (Qle_trans _ _ _ Py). unfold share.
    now apply Incr. }
  destruct (filter_sorted_prefix p S Mono) as [F1 F2].
  set (k := List.length (filter p location_spending)) in *.
  assert (Q2 : filter (fun kv => Qlt_bool (share percent total kv)
                                   min_percent)
                 location_spending
               = skipn k location_spending).
  { rewrite <- F2. apply filter_ext. intros kv. reflexivity. }
  assert (Lk : (k <= List.length location_spending)%nat)
    by apply filter_length_le.
  exists k. split; [exact Lk|]. split; [|split].
  - intros kv H. rewrite <- F1 in H. apply filter_In in H.
    destruct H as [_ H]. now apply Qle_bool_iff.
  - intros kv H. rewrite <- Q2 in H. apply filter_In in H.
    destruct H as [_ H]. now apply Qlt_bool_iff.
  - unfold create_pie_chart. fold total.
    assert (P : Qlt_bool 0 total = true) by now apply Qlt_bool_iff.
    rewrite P. fold p. rewrite Q2, F1.
    destruct (k <? List.length location_spending)%nat eqn:Lt.
    + apply Nat.ltb_lt in Lt.
      assert (N : nonempty (skipn k location_spending) = true).
      { pose proof (length_skipn k location_spending) as Ls.
        destruct (skipn k location_spending); [simpl in Ls; lia|].
        reflexivity. }
      now rewrite N.
    + apply Nat.ltb_ge in Lt.
      rewrite skipn_all2 by exact Lt. reflexivity.
Qed.

Lemma exact_percent_increasing (total x y : Q) :
  (0 < total)%Q -> (x <= y)%Q ->
  (exact_percent total x <= exact_percent total y)%Q.
Proof.
  intros Pos L. unfold exact_percent.
  apply Qmult_le_compat_r; [|discriminate].
  unfold Qdiv. apply Qmult_le_compat_r; [exact L|].
  apply Qlt_le_weak, Qinv_lt_0_compat, Pos.
Qed.

Lemma pie_chart_merges_two_slices :
  create_pie_chart Qsum exact_percent pie_totals 3
  = [("A", 60%Q); ("B", 37%Q); (other, (2 + (1 + 0))%Q)]
  /\ exists k, (k <= List.length pie_totals)%nat.
Proof.
  split; [reflexivity|].
  assert (S : StronglySorted (fun a b : string * Q => (snd b <= snd a)%Q)
                pie_totals).
  { unfold pie_totals.
    repeat first [apply SSorted_cons | apply SSorted_nil
                 | apply Forall_cons | apply Forall_nil];
      unfold Qle; simpl; lia. }
  assert (P : (0 < Qsum (map snd pie_totals))%Q) by reflexivity.
  destruct (@pie_chart_merges_trailing_slices Qsum exact_percent pie_totals
              3 exact_percent_increasing S P) as (k & Lk & _).
  exists k. exact Lk.
Defined.

(** ** First and last time of each period *)

(** On one day, the later timestamp has the later time of day. *)
Lemma clock_of_mono (a b : datetime) :
  valid_clock a -> valid_clock b -> dt_date a = dt_date b ->
  datetime_leb a b = true -> (clock_of a <= clock_of b)%Q.
Proof.
  destruct a as [y mo d h mi s], b as [y' mo' d' h' mi' s'].
  unfold valid_clock, dt_date, datetime_leb, datetime_tuple, clock_of.
  cbn [year month day hour minute second].
  intros [M S] [M' S'] [= <- <- <-].
  cbn [tuple_leb]. rewrite !Z.ltb_irrefl. intros L.
  assert (T : 3600 * h + 60 * mi + s <= 3600 * h' + 60 * mi' + s').
  { destruct (h <? h') eqn:H1; [apply Z.ltb_lt in H1; lia|].
    destruct (h' <? h) eqn:H2; [discriminate|].
    destruct (mi <? mi') eqn:H3; [apply Z.ltb_lt in H3, H1 || idtac|].
    - apply Z.ltb_ge in H1, H2. apply Z.ltb_lt in H3. lia.
    - destruct (mi' <? mi) eqn:H4; [discriminate|].
      destruct (s <? s') eqn:H5.
      + apply Z.ltb_ge in H1, H2, H3, H4. apply Z.ltb_lt in H5. lia.
      + destruct (s' <? s) eqn:H6; [discriminate|].
        apply Z.ltb_ge in H1, H2, H3, H4, H5, H6. lia. }
  unfold Qle, Qplus, Qdiv, Qmult, Qinv, inject_Z. simpl. lia.
Qed.

Lemma clock_of_within (t : datetime) (lo hi : Z) :
  valid_clock t -> lo <= hour t * 60 + minute t < hi ->
  (inject_Z lo <= clock_of t)%Q /\ (clock_of t < inject_Z hi)%Q.
Proof.
  intros [_ S] B. unfold clock_of.
  unfold Qle, Qlt, Qplus, Qdiv, Qmult, Qinv, inject_Z. simpl. lia.
Qed.

Lemma min_by_descending (A : Type) (le : A -> A -> bool) (l : list A)
      (x : A) :
  Total le -> Transitive le ->
  min_by (descending le) l = Some x ->
  In x l /\ forall y, In y l -> le y x = true.
Proof.
  intros T Tr H.
  exact (@min_by_spec _ (descending le) l x (descending_total T)
           (descending_trans Tr) H).
Qed.

Lemma interval_of_label (i j : Z * Z * string) :
  In i intervals -> In j intervals -> snd i = snd j -> i = j.
Proof.
  unfold intervals. cbn [In].
  intros [<-|[<-|[<-|[<-|[]]]]] [<-|[<-|[<-|[<-|[]]]]]; cbn [snd];
    intros E; try reflexivity; discriminate.
Qed.

Section VisitTimes.
Variable R : list Row.
Hypothesis V : forall r t, In r R -> stamp r = Some t -> valid_clock t.

(** Every visit has a first and a last time, taken among its rows. *)
Lemma visit_first_last (k : date * string) :
  In k (group_keys visit_key visit_of R) ->
  exists tmin tmax,
    first_last (group visit_key visit_of k R) = (Some tmin, Some tmax)
    /\ In tmin (values stamp (group visit_key visit_of k R))
    /\ In tmax (values stamp (group visit_key visit_of k R))
    /\ forall t, In t (values stamp (group visit_key visit_of k R)) ->
                 datetime_leb tmin t = true /\ datetime_leb t tmax = true.
Proof.
  intros Hk. apply (group_keys_In visit_key visit_key_spec) in Hk.
  destruct Hk as (r & Hr & Vr).
  destruct (visit_of_stamp _ Vr) as (t0 & S0 & _).
  assert (N : values stamp (group visit_key visit_of k R) <> []).
  { assert (H : In t0 (values stamp (group visit_key visit_of k R))).
    { apply values_In. exists r. split; [|exact S0].
      apply (group_In visit_key visit_key_spec). auto. }
    intros E. rewrite E in H. contradiction. }
  unfold first_last.
  destruct (min_by_nonempty datetime_leb N) as [tmin Emin].
  destruct (min_by_nonempty (descending datetime_leb) N) as [tmax Emax].
  rewrite Emin, Emax. exists tmin, tmax. split; [reflexivity|].
  destruct (@min_by_spec _ datetime_leb _ _ datetime_leb_total
              datetime_leb_trans Emin) as [I1 L1].
  destruct (@min_by_descending _ datetime_leb _ _ datetime_leb_total
              datetime_leb_trans Emax)
    as [I2 L2].
  repeat split; auto.
Qed.

(** A time of a visit lies on the visit's date and belongs to the
    visit's period. *)
Lemma visit_time (k : date * string) (t : datetime) :
  In t (values stamp (group visit_key visit_of k R)) ->
  valid_clock t /\ dt_date t = fst k
  /\ In (clock_of t) (clock_times (snd k) R).
Proof.
  intros H. apply values_In in H. destruct H as (r & Hr & S).
  apply (group_In visit_key visit_key_spec) in Hr. destruct Hr as [Hr Vr].
  destruct (visit_of_stamp _ Vr) as (t' & S' & D & M).
  assert (t' = t) by congruence. subst t'.
  split; [exact (V r Hr S)|]. split; [exact D|].
  unfold clock_times. apply in_map. apply values_In. exists r.
  split; [|exact S]. unfold period_rows. apply filter_In.
  split; [exact Hr|]. rewrite M. cbn [option_eqb]. apply String.eqb_refl.
Qed.

(** A time of a period is a time of one of the period's visits. *)
Lemma clock_times_visit (m : string) (y : Q) :
  In y (clock_times m R) ->
  exists t,
    y = clock_of t
    /\ In (dt_date t, m) (group_keys visit_key visit_of R)
    /\ In t (values stamp (group visit_key visit_of (dt_date t, m) R))
    /\ exists r, In r R /\ stamp r = Some t /\ meal r = Some m.
Proof.
  unfold clock_times. intros H. apply in_map_iff in H.
  destruct H as (t & <- & H). apply values_In in H.
  destruct H as (r & Hr & S). unfold period_rows in Hr.
  apply filter_In in Hr. destruct Hr as [Hr M].
  apply (option_eqb_spec string_eqb_spec) in M.
  assert (Vr : visit_of r = Some (dt_date t, m)).
  { unfold visit_of, row_date. now rewrite S, M. }
  exists t. split; [reflexivity|]. split; [|split].
  - apply (group_keys_In visit_key visit_key_spec). eauto.
  - apply values_In. exists r. split; [|exact S].
    apply (group_In visit_key visit_key_spec). auto.
  - eauto.
Qed.

(** The lines of [per_meal_day] that belong to one period. *)
Lemma per_meal_day_group (m : string)
      (v : date * string * (option datetime * option datetime)) :
  In v (group meal_key
          (fun v : date * string * (option datetime * option datetime) =>
             Some (snd (fst v))) m (per_meal_day R)) <->
  exists k, In k (group_keys visit_key visit_of R) /\ snd k = m
            /\ v = (k, first_last (group visit_key visit_of k R)).
Proof.
  rewrite (group_In meal_key string_eqb_spec). unfold per_meal_day, groupby.
  rewrite in_map_iff. split.
  - intros [(k & <- & Hk) E]. cbn [fst snd] in E. injection E as E.
    exists k. auto.
  - intros (k & Hk & <- & ->). split; [|reflexivity]. exists k. auto.
Qed.

(** The summary line of a period: its earliest and latest time of day,
    and a mean. *)
Lemma summarise_period (m : string) :
  (clock_times m R = [] ->
   summarise (group meal_key
                (fun v : date * string
                         * (option datetime * option datetime) =>
                   Some (snd (fst v))) m (per_meal_day R))
   = missing_summary)
  /\ (clock_times m R <> [] ->
      exists f l a,
        summarise (group meal_key
                     (fun v : date * string
                              * (option datetime * option datetime) =>
                        Some (snd (fst v))) m (per_meal_day R))
        = {| first_minute := Some f; last_minute := Some l;
             avg_first_minute := Some a |}
        /\ In f (clock_times m R)
        /\ (forall x, In x (clock_times m R) -> (f <= x)%Q)
        /\ In l (clock_times m R)
        /\ (forall x, In x (clock_times m R) -> (x <= l)%Q)).
Proof.
  set (G := group meal_key _ m (per_meal_day R)).
  assert (Line : forall v, In v G ->
            exists k tmin tmax,
              In k (group_keys visit_key visit_of R) /\ snd k = m
              /\ first_minute_of v = Some (clock_of tmin)
              /\ last_minute_of v = Some (clock_of tmax)
              /\ In tmin (values stamp (group visit_key visit_of k R))
              /\ In tmax (values stamp (group visit_key visit_of k R))
              /\ forall t,
                   In t (values stamp (group visit_key visit_of k R)) ->
                   datetime_leb tmin t = true
                   /\ datetime_leb t tmax = true).
  { intros v Hv. apply per_meal_day_group in Hv.
    destruct Hv as (k & Hk & Mk & ->).
    destruct (visit_first_last k Hk) as (tmin & tmax & E & I1 & I2 & L).
    exists k, tmin, tmax. unfold first_minute_of, last_minute_of.
    cbn [fst snd]. rewrite E. cbn [fst snd option_map]. auto 10. }
  assert (Mono : forall k a b,
            In a (values stamp (group visit_key visit_of k R)) ->
            In b (values stamp (group visit_key visit_of k R)) ->
            datetime_leb a b = true -> (clock_of a <= clock_of b)%Q).
  { intros k a b Ha Hb L.
    destruct (visit_time k a Ha) as (Va & Da & _).
    destruct (visit_time k b Hb) as (Vb & Db & _).
    apply clock_of_mono; congruence || assumption. }
  assert (FL : forall x, In x (values first_minute_of G) ->
            In x (clock_times m R)
            /\ exists z, In z (values last_minute_of G) /\ (x <= z)%Q).
  { intros x Hx. apply values_In in Hx. destruct Hx as (v & Hv & Ex).
    destruct (Line v Hv) as (k & tmin & tmax & Hk & Mk & E1 & E2 & I1 & I2
                             & L).
    assert (x = clock_of tmin) by congruence. subst x. split.
    - rewrite <- Mk. apply (visit_time k tmin I1).
    - exists (clock_of tmax). split.
      + apply values_In. exists v. auto.
      + apply (Mono k); [exact I1|exact I2|]. apply (L tmax I2). }
  assert (LL : forall z, In z (values last_minute_of G) ->
            In z (clock_times m R)).
  { intros z Hz. apply values_In in Hz. destruct Hz as (v & Hv & Ez).
    destruct (Line v Hv) as (k & tmin & tmax & Hk & Mk & E1 & E2 & I1 & I2
                             & L).
    assert (z = clock_of tmax) by congruence. subst z.
    rewrite <- Mk. apply (visit_time k tmax I2). }
  assert (CT : forall y, In y (clock_times m R) ->
            (exists x, In x (values first_minute_of G) /\ (x <= y)%Q)
            /\ exists z, In z (values last_minute_of G) /\ (y <= z)%Q).
  { intros y Hy. apply clock_times_visit in Hy.
    destruct Hy as (t & -> & Hk & It & _).
    set (k := (dt_date t, m)) in *.
    assert (Hv : In (k, first_last (group visit_key visit_of k R)) G).
    { apply per_meal_day_group. exists k. auto. }
    destruct (Line _ Hv) as (k' & tmin & tmax & _ & _ & E1 & E2 & _).
    destruct (visit_first_last k Hk) as (tmin' & tmax' & E & I1 & I2 & L).
    unfold first_minute_of, last_minute_of in E1, E2.
    cbn [fst snd] in E1, E2. rewrite E in E1, E2.
    cbn [fst snd option_map] in E1, E2. split.
    - exists (clock_of tmin'). split.
      + apply values_In. eexists. split; [exact Hv|].
        unfold first_minute_of. cbn [fst snd]. now rewrite E.
      + apply (Mono k); [exact I1|exact It|]. apply (L t It).
    - exists (clock_of tmax'). split.
      + apply values_In. eexists. split; [exact Hv|].
        unfold last_minute_of. cbn [fst snd]. now rewrite E.
      + apply (Mono k); [exact It|exact I2|]. apply (L t It). }
  unfold summarise. split.
  - intros E.
    assert (E1 : values first_minute_of G = []).
    { destruct (values first_minute_of G) as [|x xs] eqn:Q; [reflexivity|].
      destruct (FL x (or_introl eq_refl)) as [H _].
      rewrite E in H. contradiction. }
    assert (E2 : values last_minute_of G = []).
    { destruct (values last_minute_of G) as [|x xs] eqn:Q; [reflexivity|].
      pose proof (LL x (or_introl eq_refl)) as H.
      rewrite E in H. contradiction. }
    rewrite E1, E2. reflexivity.
  - intros N.
    destruct (clock_times m R) as [|y0 ys] eqn:Q; [now contradiction N|].
    destruct (CT y0 (or_introl eq_refl)) as [(x0 & Hx0 & _) (z0 & Hz0 & _)].
    assert (N1 : values first_minute_of G <> [])
      by (intros E; rewrite E in Hx0; contradiction).
    assert (N2 : values last_minute_of G <> [])
      by (intros E; rewrite E in Hz0; contradiction).
    destruct (min_by_nonempty Qle_bool N1) as [f Ef].
    destruct (min_by_nonempty (descending Qle_bool) N2) as [l El].
    destruct (@min_by_spec _ Qle_bool _ _ Qle_bool_total Qle_bool_trans Ef)
      as [If Lf].
    destruct (@min_by_descending _ Qle_bool _ _ Qle_bool_total
                Qle_bool_trans El)
      as [Il Ll].
    assert (Bf : forall x, In x (y0 :: ys) -> (f <= x)%Q).
    { intros x Hx. destruct (CT x Hx) as [(x' & Hx' & Le) _].
      apply (Qle_trans _ x'); [|exact Le].
      apply Qle_bool_iff. exact (Lf x' Hx'). }
    assert (Bl : forall x, In x (y0 :: ys) -> (x <= l)%Q).
    { intros x Hx. destruct (CT x Hx) as [_ (z' & Hz' & Le)].
      apply (Qle_trans _ z'); [exact Le|].
      apply Qle_bool_iff. exact (Ll z' Hz'). }
    destruct (mean (values first_minute_of G)) as [a|] eqn:Ea.
    2: { destruct (values first_minute_of G);
           [now contradiction N1|discriminate]. }
    rewrite Ef, El. exists f, l, a. split; [reflexivity|].
    split; [apply (FL f If)|]. split; [exact Bf|].
    split; [apply (LL l Il)|]. exact Bl.
Qed.

Lemma values_map_Some (A B C : Type) (f : B -> option C) (F : A -> B)
      (g : A -> C) (l : list A) :
  (forall k, In k l -> f (F k) = Some (g k)) ->
  values f (map F l) = map g l.
Proof.
  induction l as [|k l IH]; intros H; [reflexivity|].
  unfold values in *. cbn [map flat_map].
  rewrite (H k (or_introl eq_refl)). cbn [app]. f_equal.
  apply IH. intros k' Hk'. apply H. now right.
Qed.

Lemma Forall2_map_both (A B C : Type) (P : B -> C -> Prop) (f : A -> B)
      (g : A -> C) (l : list A) :
  (forall k, In k l -> P (f k) (g k)) -> Forall2 P (map f l) (map g l).
Proof.
  induction l as [|k l IH]; intros H; cbn [map]; constructor.
  - apply H. now left.
  - apply IH. intros k' Hk'. apply H. now right.
Qed.

Lemma NoDup_map_fst_filter_snd (l : list (date * string)) (m : string) :
  NoDup l ->
  NoDup (map fst (filter (fun k => String.eqb (snd k) m) l)).
Proof.
  induction 1 as [|k l N ND IH]; cbn [filter map]; [constructor|].
  destruct (String.eqb (snd k) m) eqn:E; [|exact IH].
  cbn [map]. constructor; [|exact IH].
  intros H. apply in_map_iff in H. destruct H as (k' & E' & Hk').
  apply filter_In in Hk'. destruct Hk' as [Hk' Em].
  apply String.eqb_eq in E, Em. apply N.
  destruct k as [d x], k' as [d' x']. cbn in *. now subst.
Qed.

(** The first times that go into the mean of a period: one for each date
    on which the period has a row, the time of day of the first row of
    the period on that date. *)
Lemma period_first_times (m : string) :
  exists days,
    visit_dates m R days
    /\ Forall2 (first_clock_of_visit m R) days
         (values first_minute_of
            (group meal_key
               (fun v : date * string
                        * (option datetime * option datetime) =>
                  Some (snd (fst v))) m (per_meal_day R))).
Proof.
  set (keys := group_keys visit_key visit_of R).
  set (Km := filter (fun k : date * string => String.eqb (snd k) m) keys).
  set (F := fun k => (k, first_last (group visit_key visit_of k R))).
  set (g := fun k => match first_minute_of (F k) with
                     | Some x => x
                     | None => 0%Q
                     end).
  assert (G : group meal_key
                (fun v : date * string
                         * (option datetime * option datetime) =>
                   Some (snd (fst v))) m (per_meal_day R)
              = map F Km).
  { unfold group, per_meal_day, groupby, Km. fold keys. fold F.
    rewrite <- (map_filter_key F
                  (fun v : date * string
                           * (option datetime * option datetime) =>
                     String.eqb (snd (fst v)) m)).
    reflexivity. }
  assert (Each : forall k, In k Km ->
            first_minute_of (F k) = Some (g k)
            /\ first_clock_of_visit m R (fst k) (g k)).
  { intros k Hk. apply filter_In in Hk. destruct Hk as [Hk Em].
    apply String.eqb_eq in Em.
    destruct (visit_first_last k Hk) as (tmin & tmax & E & I1 & _ & L).
    assert (E1 : first_minute_of (F k) = Some (clock_of tmin)).
    { unfold first_minute_of, F. cbn [fst snd]. now rewrite E. }
    assert (Eg : g k = clock_of tmin) by (unfold g; now rewrite E1).
    rewrite Eg. split; [exact E1|]. split.
    - pose proof I1 as I1'. apply values_In in I1'.
      destruct I1' as (r & Hr & S).
      apply (group_In visit_key visit_key_spec) in Hr.
      destruct Hr as [Hr Vr].
      destruct (visit_of_stamp _ Vr) as (t' & S' & D & M).
      assert (t' = tmin) by congruence. subst t'.
      exists r, tmin. rewrite M, Em. auto.
    - intros r t Hr M S D.
      assert (Vr : visit_of r = Some k).
      { unfold visit_of, row_date. rewrite S, M. cbn [option_map].
        destruct k as [d x]. cbn in *. now subst. }
      assert (It : In t (values stamp (group visit_key visit_of k R))).
      { apply values_In. exists r. split; [|exact S].
        apply (group_In visit_key visit_key_spec). auto. }
      destruct (visit_time k tmin I1) as (V1 & D1 & _).
      destruct (visit_time k t It) as (V2 & D2 & _).
      apply clock_of_mono; [exact V1|exact V2|congruence|].
      apply (L t It). }
  exists (map fst Km). split; [split|].
  - apply NoDup_map_fst_filter_snd.
    apply (group_keys_NoDup visit_key visit_key_spec).
  - intros d. rewrite in_map_iff. split.
    + intros (k & <- & Hk). destruct (Each k Hk) as [_ [(r & t & H) _]].
      exists r, t. tauto.
    + intros (r & t & Hr & M & S & D). exists (d, m).
      split; [reflexivity|]. apply filter_In. split.
      * apply (group_keys_In visit_key visit_key_spec). exists r.
        split; [exact Hr|]. unfold visit_of, row_date.
        rewrite S, M. cbn [option_map]. now rewrite D.
      * apply String.eqb_refl.
  - rewrite G.
    rewrite (values_map_Some first_minute_of F g Km)
      by (intros k Hk; apply (Each k Hk)).
    apply Forall2_map_both. intros k Hk. apply (Each k Hk).
Qed.

End VisitTimes.

Section FirstLastTimeFacts.
Variable parse : string -> option datetime.

(** A classified row carries the time its source row converts to. *)
Lemma classified_row_source (df out : DataFrame) :
  fst (fst (prepare_meal_period_data parse df)) = Some out ->
  forall r t, In r (rows out) -> stamp r = Some t ->
              exists r0, In r0 (rows df)
                         /\ to_datetime parse (tx_time r0) = Stamp t.
Proof.
  intros H. apply prepare_meal_period_data_rows in H. destruct H as [_ ->].
  cbn [rows with_rows]. intros r t Hr S. apply values_In in Hr.
  destruct Hr as (r0 & Hr0 & C). exists r0. split; [exact Hr0|].
  unfold classify_row in C.
  destruct (to_datetime parse (tx_time r0)) as [|t'|]; try discriminate.
  destruct (pd_cut bins labels (Some (hour t' * 60 + minute t')));
    [|discriminate].
  injection C as <-. cbn in S. congruence.
Qed.

(** X21. Whenever the classifier returns rows, the chart of first and last
    times is drawn: its second guard never fires. For clock times as a
    timestamp holds them, a period without a row gets an empty line, and a
    period with rows gets the earliest and the latest time of day of its
    rows, both inside the period's interval, and the mean of the first
    times of its visits, one for each date on which the period has a
    row. *)
Theorem first_last_times_bound_the_period (df out : DataFrame) :
  (forall r t, In r (rows df) -> to_datetime parse (tx_time r) = Stamp t ->
               valid_clock t) ->
  fst (fst (prepare_meal_period_data parse df)) = Some out ->
  exists summary,
    create_meal_first_last_time_chart parse df = Ok summary
    /\ map fst summary = labels
    /\ forall m, In m labels ->
         exists s,
           lookup String.eqb m summary = Some s
           /\ (clock_times m (rows out) = [] -> s = missing_summary)
           /\ (clock_times m (rows out) <> [] ->
               exists f l a i,
                 s = {| first_minute := Some f; last_minute := Some l;
                        avg_first_minute := Some a |}
                 /\ In f (clock_times m (rows out))
                 /\ (forall x, In x (clock_times m (rows out)) ->
                               (f <= x)%Q)
                 /\ In l (clock_times m (rows out))
                 /\ (forall x, In x (clock_times m (rows out)) ->
                               (x <= l)%Q)
                 /\ In i intervals /\ snd i = m
                 /\ (inject_Z (fst (fst i)) <= f)%Q
                 /\ (l < inject_Z (snd (fst i)))%Q
                 /\ exists days firsts,
                      visit_dates m (rows out) days
                      /\ Forall2 (first_clock_of_visit m (rows out))
                           days firsts
                      /\ mean firsts = Some a).
Proof.
  intros Valid P.
  pose proof (classifier_rows_classified parse df P) as W.
  assert (V : forall r t, In r (rows out) -> stamp r = Some t ->
                          valid_clock t).
  { intros r t Hr S.
    destruct (classified_row_source df P r Hr S) as (r0 & Hr0 & E).
    exact (Valid r0 t Hr0 E). }
  assert (C : classified parse df
                "，跳过各餐第一笔与最后一笔消费时间图表生成。"
              = Ok (out, labels)) by (apply classified_Ok; auto).
  unfold create_meal_first_last_time_chart. rewrite C.
  assert (N : nonempty (per_meal_day (rows out)) = true).
  { pose proof P as P'. apply prepare_meal_period_data_rows in P'.
    destruct P' as [N' E].
    assert (Rs : rows out <> []) by (rewrite E; exact N').
    destruct (rows out) as [|r l] eqn:Q; [now contradiction Rs|].
    destruct (W r (or_introl eq_refl)) as (t & lb & S & M & _).
    assert (Hk : In (dt_date t, lb)
                    (group_keys visit_key visit_of (r :: l))).
    { apply (group_keys_In visit_key visit_key_spec). exists r.
      split; [now left|]. unfold visit_of, row_date. now rewrite S, M. }
    unfold per_meal_day, groupby.
    destruct (group_keys visit_key visit_of (r :: l));
      [contradiction|reflexivity]. }
  rewrite N. cbn [negb].
  rewrite (reindex_groupby_map meal_key) by
    (try exact string_eqb_spec; reflexivity).
  eexists. split; [reflexivity|].
  split; [rewrite map_map; apply map_id|].
  intros m Hm.
  rewrite (lookup_map meal_key string_eqb_spec
             (fun k => summarise
                         (group meal_key
                            (fun v : date * string
                                     * (option datetime * option datetime)
                             => Some (snd (fst v)))
                            k (per_meal_day (rows out))))).
  assert (E : existsb (fun k' => key_eqb meal_key k' m) labels = true)
    by (apply (existsb_key meal_key string_eqb_spec); exact Hm).
  rewrite E. eexists. split; [reflexivity|].
  destruct (@summarise_period (rows out) V m) as [S0 S1]. split; [exact S0|].
  intros Ne.
  destruct (S1 Ne) as (f & l & a & Es & If & Bf & Il & Bl).
  assert (I : forall y, In y (clock_times m (rows out)) ->
            exists i, In i intervals /\ snd i = m
                      /\ (inject_Z (fst (fst i)) <= y)%Q
                      /\ (y < inject_Z (snd (fst i)))%Q).
  { intros y Hy. apply clock_times_visit in Hy.
    destruct Hy as (t & -> & _ & _ & r & Hr & S & M).
    destruct (W r Hr) as (t' & lb & S' & M' & Cut).
    assert (t' = t) by congruence. assert (lb = m) by congruence.
    subst t' lb. apply pd_cut_intervals in Cut.
    destruct Cut as (i & Hi & Wi & Li & _). exists i.
    split; [exact Hi|]. split; [exact Li|].
    apply clock_of_within; [exact (V r t Hr S)|exact Wi]. }
  destruct (I f If) as (i & Hi & Li & Lo & _).
  destruct (I l Il) as (j & Hj & Lj & _ & Hi').
  assert (j = i) by (apply interval_of_label; congruence). subst j.
  destruct (@period_first_times (rows out) V m) as (days & VD & F2).
  pose proof (f_equal avg_first_minute Es) as Ma.
  cbn [avg_first_minute summarise] in Ma.
  exists f, l, a, i. repeat (split; [assumption|]).
  eexists days, _. split; [exact VD|]. split; [exact F2|exact Ma].
Qed.

End FirstLastTimeFacts.

Lemma first_last_times_breakfasts :
  (forall r t, In r (rows breakfasts) ->
               to_datetime never_parses (tx_time r) = Stamp t ->
               valid_clock t)
  /\ exists summary f l a,
       create_meal_first_last_time_chart never_parses breakfasts
       = Ok summary
       /\ lookup String.eqb "早饭" summary
          = Some {| first_minute := Some f; last_minute := Some l;
                    avg_first_minute := Some a |}
       /\ (f == 841 # 2)%Q /\ (l == 480)%Q /\ (a == 1801 # 4)%Q
       /\ lookup String.eqb "晚饭" summary = Some missing_summary.
Proof.
  assert (V : forall r t, In r (rows breakfasts) ->
                          to_datetime never_parses (tx_time r) = Stamp t ->
                          valid_clock t).
  { intros r t H E. cbn in H.
    repeat (destruct H as [<-|H];
            [injection E as <-; unfold valid_clock; cbn; lia|]).
    contradiction. }
  split; [exact V|].
  destruct (@first_last_times_bound_the_period never_parses breakfasts _
              V eq_refl) as (summary & C & _).
  pose proof C as C'. vm_compute in C'. injection C' as <-.
  eexists _, _, _, _. split; [exact C|].
  split; [vm_compute; reflexivity|].
  repeat split; vm_compute; reflexivity.
Defined.

(** ** Which canteen at which meal *)

Lemma filter_perm (A : Type) (p : A -> bool) (a b : list A) :
  Permutation a b -> Permutation (filter p a) (filter p b).
Proof.
  induction 1 as [|x a b _ IH|x y a|a b c _ IH1 _ IH2]; simpl.
  - constructor.
  - destruct (p x); [now constructor|exact IH].
  - destruct (p x), (p y); try reflexivity. constructor.
  - now transitivity (filter p b).
Qed.

Lemma filter_split_perm (A : Type) (p : A -> bool) (l : list A) :
  Permutation (filter p l ++ filter (fun x => negb (p x)) l) l.
Proof.
  induction l as [|x l IH]; simpl; [constructor|].
  destruct (p x); simpl.
  - now constructor.
  - symmetry. apply Permutation_cons_app. now symmetry.
Qed.

Lemma find_all_false (A : Type) (p : A -> bool) (l : list A) :
  (forall x, In x l -> p x = false) -> find p l = None.
Proof.
  induction l as [|x l IH]; intros H; [reflexivity|]. simpl.
  rewrite (H x (or_introl eq_refl)). apply IH. intros y Hy. apply H.
  now right.
Qed.

Lemma isin_In (x : string) (l : list string) : isin x l = true <-> In x l.
Proof.
  unfold isin. rewrite existsb_exists. split.
  - intros (y & Hy & E). apply String.eqb_eq in E. now subst.
  - intros H. exists x. split; [exact H|apply String.eqb_refl].
Qed.

Lemma lookup_In (K V : Type) (eqb : K -> K -> bool) (k : K)
      (s : list (K * V)) (v : V) :
  lookup eqb k s = Some v -> exists k', In (k', v) s.
Proof.
  induction s as [|[k' v'] s IH]; [discriminate|]. cbn [lookup].
  destruct (eqb k' k).
  - intros [= <-]. exists k'. now left.
  - intros H. destruct (IH H) as [k0 H0]. exists k0. now right.
Qed.

Lemma Qsum_nonneg (l : list Q) :
  (forall x, In x l -> (0 <= x)%Q) -> (0 <= Qsum l)%Q.
Proof.
  induction l as [|x l IH]; intros H; [apply Qle_refl|].
  rewrite Qsum_cons. rewrite <- (Qplus_0_r 0).
  apply Qplus_le_compat; [apply H; now left|].
  apply IH. intros y Hy. apply H. now right.
Qed.

(** A sum of amounts that are not negative is at least each of them. *)
Lemma Qsum_ge_member (l : list Q) (n : Q) :
  (forall x, In x l -> (0 <= x)%Q) -> In n l -> (n <= Qsum l)%Q.
Proof.
  induction l as [|x l IH]; intros H Hn; [contradiction|].
  rewrite Qsum_cons. destruct Hn as [->|Hn].
  - rewrite <- (Qplus_0_r n) at 1. apply Qplus_le_compat; [apply Qle_refl|].
    apply Qsum_nonneg. intros y Hy. apply H. now right.
  - rewrite <- (Qplus_0_l n). apply Qplus_le_compat.
    + apply H. now left.
    + apply IH; [|exact Hn]. intros y Hy. apply H. now right.
Qed.

Lemma no_other_filter (l : list (string * Q)) :
  (forall cv, In cv l -> fst cv <> other) -> filter is_other l = [].
Proof.
  intros H. destruct (filter is_other l) as [|cv xs] eqn:F; [reflexivity|].
  assert (Hc : In cv (filter is_other l)) by (rewrite F; now left).
  apply filter_In in Hc. destruct Hc as [Hc E]. unfold is_other in E.
  apply String.eqb_eq in E. now destruct (H cv Hc).
Qed.

(** Merging the small segments of a bar keeps its height, leaves the
    other segments as they are, and adds at most one segment, named
    其他. *)
Lemma merge_small_spec (row : list (string * Q)) :
  (forall cv, In cv row -> fst cv <> other) ->
  (Qsum (map snd (merge_small row)) == row_sum row)%Q
  /\ (forall c n, In (c, n) (merge_small row) -> c <> other ->
                  In (c, n) row
                  /\ (Qle_bool 3 (row_sum row) = true -> (3 <= n)%Q))
  /\ (forall n, In (other, n) (merge_small row) ->
                Qle_bool 3 (row_sum row) = true
                /\ nonempty (filter is_small row) = true
                /\ n = row_sum (filter is_small row))
  /\ (List.length (filter is_other (merge_small row)) <= 1)%nat.
Proof.
  intros H. unfold merge_small.
  set (big := filter (fun cv => Qle_bool 3 (snd cv)) row).
  assert (Hb : forall cv, In cv big -> fst cv <> other).
  { intros cv Hc. apply filter_In in Hc. apply H, Hc. }
  assert (P : (Qsum (map snd big) + row_sum (filter is_small row)
               == row_sum row)%Q).
  { exact (Qsum_partition snd (fun cv => Qle_bool 3 (snd cv)) row). }
  destruct (Qle_bool 3 (row_sum row)) eqn:T.
  - destruct (nonempty (filter is_small row)) eqn:N.
    + split; [|split; [|split]].
      * rewrite map_app, Qsum_app. cbn [map snd]. rewrite Qsum_cons.
        rewrite Qplus_0_r. exact P.
      * intros c n Hin Hc. apply in_app_or in Hin.
        destruct Hin as [Hin|[[= <- _]|[]]]; [|now contradiction Hc].
        apply filter_In in Hin. destruct Hin as [Hin L]. split; [exact Hin|].
        intros _. now apply Qle_bool_iff.
      * intros n Hin. apply in_app_or in Hin.
        destruct Hin as [Hin|[[= <-]|[]]]; [|auto].
        now destruct (Hb _ Hin).
      * rewrite filter_app, (no_other_filter _ Hb). simpl. lia.
    + assert (E : filter is_small row = [])
        by (destruct (filter is_small row); [reflexivity|discriminate]).
      rewrite E in P. unfold row_sum in P at 1. simpl in P.
      rewrite Qplus_0_r in P.
      split; [exact P|]. split; [|split].
      * intros c n Hin Hc. apply filter_In in Hin.
        destruct Hin as [Hin L]. split; [exact Hin|].
        intros _. now apply Qle_bool_iff.
      * intros n Hin. now destruct (Hb _ Hin).
      * rewrite (no_other_filter _ Hb). simpl. lia.
  - split; [reflexivity|]. split; [|split].
    + intros c n Hin Hc. split; [exact Hin|discriminate].
    + intros n Hin. now destruct (H _ Hin).
    + rewrite (no_other_filter _ H). simpl. lia.
Qed.

(** Moving the segment 其他 to the end rearranges the bar, when the label
    occurs at most once. *)
Lemma others_last_spec (l : list (string * Q)) :
  (List.length (filter is_other l) <= 1)%nat ->
  exists l',
    others_last l = Some l'
    /\ Permutation l' l
    /\ forall n, In (other, n) l' ->
                 exists init, l' = (init ++ [(other, n)])%list
                              /\ forall cv, In cv init -> fst cv <> other.
Proof.
  intros L. unfold others_last.
  pose proof (filter_split_perm is_other l) as Sp.
  destruct (filter is_other l) as [|[k v] [|y ys]] eqn:F.
  - exists l. split; [reflexivity|]. split; [reflexivity|].
    intros n Hin. exfalso.
    assert (H : In (other, n) (filter is_other l)).
    { apply filter_In. split; [exact Hin|]. apply String.eqb_refl. }
    rewrite F in H. contradiction.
  - assert (Hk : k = other).
    { assert (H : In (k, v) (filter is_other l)) by (rewrite F; now left).
      apply filter_In in H. destruct H as [_ H]. now apply String.eqb_eq. }
    subst k. eexists. split; [reflexivity|]. split.
    + rewrite <- Sp at 2. apply Permutation_app_comm.
    + intros n Hin. apply in_app_or in Hin.
      destruct Hin as [Hin|[[= <-]|[]]].
      * apply filter_In in Hin. destruct Hin as [_ Hin].
        unfold is_other in Hin. cbn [fst] in Hin.
        rewrite String.eqb_refl in Hin. discriminate.
      * eexists. split; [reflexivity|]. intros cv Hc.
        apply filter_In in Hc. destruct Hc as [_ Hc]. intros E.
        unfold is_other in Hc. rewrite E, String.eqb_refl in Hc.
        discriminate.
  - simpl in L. lia.
Qed.

Lemma meal_location_key_spec : EqbSpec (key_eqb meal_location_key).
Proof.
  intros [m c] [m' c'].
  cbn [meal_location_key pair_key key_eqb fst snd meal_key string_key].
  rewrite andb_true_iff, !String.eqb_eq.
  split; [intros [-> ->]; reflexivity|intros [= -> ->]; auto].
Qed.

Lemma above_zero_In (f : Frame) (m c : string) (n : Q) :
  In (c, n) (above_zero (frame_loc f m)) <->
  In c (f_columns f) /\ f_cell f m c = Some n /\ (0 < n)%Q.
Proof.
  unfold above_zero, frame_loc. rewrite values_In. split.
  - intros (cv & Hcv & E). apply in_map_iff in Hcv.
    destruct Hcv as (c0 & <- & Hc0). cbn [fst snd] in E.
    destruct (f_cell f m c0) as [n0|] eqn:Ec; [|discriminate].
    destruct (Qlt_bool 0 n0) eqn:P; [|discriminate].
    injection E as <- <-. apply Qlt_bool_iff in P. auto.
  - intros (Hc & E & P). exists (c, f_cell f m c). split.
    + apply in_map_iff. exists c. auto.
    + cbn [fst snd]. rewrite E.
      apply Qlt_bool_iff in P. now rewrite P.
Qed.

(** The bar of a period, when no column is named 其他. *)
Lemma segments_spec (f : Frame) (m : string) :
  (forall cv, In cv (above_zero (frame_loc f m)) -> fst cv <> other) ->
  exists segs,
    segments f m = Some segs
    /\ Permutation segs (merge_small (above_zero (frame_loc f m)))
    /\ forall n, In (other, n) segs ->
                 exists init, segs = (init ++ [(other, n)])%list
                              /\ forall cv, In cv init -> fst cv <> other.
Proof.
  intros H. unfold segments.
  set (ms := merge_small (above_zero (frame_loc f m))).
  pose proof (sort_by_perm (by_key (descending Qle_bool) snd) ms) as Pm.
  destruct (merge_small_spec _ H) as (_ & _ & _ & L). fold ms in L.
  rewrite <- (Permutation_length (filter_perm is_other Pm)) in L.
  destruct (others_last_spec _ L) as (segs & E & P & Last).
  exists segs. split; [exact E|]. split; [|exact Last].
  now transitivity (sort_by (by_key (descending Qle_bool) snd) ms).
Qed.

Lemma draw_bars_ok (legend : list string) (f : Frame) (ms : list string) :
  (forall m, In m ms ->
             exists segs, segments f m = Some segs
                          /\ forall cv, In cv segs -> In (fst cv) legend) ->
  exists bars,
    draw_bars legend f ms = Some (Ok bars)
    /\ map fst bars = ms
    /\ forall m segs, In (m, segs) bars -> segments f m = Some segs.
Proof.
  induction ms as [|m ms IH]; intros H.
  - exists []. split; [reflexivity|]. split; [reflexivity|].
    intros m segs [].
  - destruct (H m (or_introl eq_refl)) as (segs & E & C).
    destruct IH as (bars & D & M & B);
      [intros m' Hm'; apply H; now right|].
    exists ((m, segs) :: bars). cbn [draw_bars]. rewrite E.
    rewrite find_all_false.
    + rewrite D. split; [reflexivity|]. split; [cbn; now rewrite M|].
      intros m' segs' [[= <- <-]|Hin]; [exact E|exact (B _ _ Hin)].
    + intros cv Hcv. apply negb_false_iff, isin_In, C, Hcv.
Qed.

Section MealCanteenFacts.
Variable parse : string -> option datetime.

Lemma classified_row_location (df out : DataFrame) :
  fst (fst (prepare_meal_period_data parse df)) = Some out ->
  has_location out = has_location df
  /\ forall r, In r (rows out) ->
               exists r0, In r0 (rows df)
                          /\ tx_location r = tx_location r0.
Proof.
  intros H. apply prepare_meal_period_data_rows in H. destruct H as [_ ->].
  split; [reflexivity|].
  cbn [rows with_rows]. intros r Hr. apply values_In in Hr.
  destruct Hr as (r0 & Hr0 & C). exists r0. split; [exact Hr0|].
  unfold classify_row in C.
  destruct (to_datetime parse (tx_time r0)) as [|t'|]; try discriminate.
  destruct (pd_cut bins labels (Some (hour t' * 60 + minute t')));
    [|discriminate].
  injection C as <-. reflexivity.
Qed.

Lemma meal_canteen_columns (out : DataFrame) (c : string) :
  In c (f_columns (meal_canteen_of out labels)) ->
  exists r, In r (rows out) /\ tx_location r = Some c.
Proof.
  unfold meal_canteen_of, unstack_reindex. cbn [f_columns].
  rewrite sort_by_In.
  rewrite (distinct_In string_key string_key_spec), in_map_iff.
  intros (e & <- & He). unfold groupby in He. apply in_map_iff in He.
  destruct He as (k & <- & Hk). cbn [fst snd].
  apply (group_keys_In meal_location_key meal_location_key_spec) in Hk.
  destruct Hk as (r & Hr & E). apply drop_duplicates_incl in Hr.
  exists r. split; [exact Hr|]. unfold meal_location in E.
  destruct (meal r); [|discriminate].
  destruct (tx_location r); [|discriminate]. now injection E as <-.
Qed.

Lemma meal_canteen_cell_nonneg (out : DataFrame) (m c : string) (n : Q) :
  f_cell (meal_canteen_of out labels) m c = Some n -> (0 <= n)%Q.
Proof.
  unfold meal_canteen_of, unstack_reindex. cbn [f_cell].
  destruct (isin m _); [|discriminate]. intros [= <-].
  destruct (lookup _ _ _) as [v|] eqn:L; [|apply Qle_refl].
  apply lookup_In in L. destruct L as (k' & L). unfold groupby in L.
  apply in_map_iff in L. destruct L as (k & [= _ <-] & _).
  unfold size, Qle. simpl. lia.
Qed.

(** Every canteen with a visit in some period has a positive column
    total, so it is one of the canteens of the legend. *)
Lemma meal_canteen_segment_in_canteens (out : DataFrame) (m c : string)
      (n : Q) :
  In m labels ->
  In (c, n) (above_zero (frame_loc (meal_canteen_of out labels) m)) ->
  In c (map fst
          (sort_by (by_key (descending Qle_bool) snd)
             (filter (fun cv => Qlt_bool 0 (snd cv))
                (column_sums (meal_canteen_of out labels))))).
Proof.
  intros Hm Hin. apply above_zero_In in Hin. destruct Hin as (Hc & E & P).
  set (f := meal_canteen_of out labels) in *.
  apply in_map_iff.
  exists (c, Qsum (values (fun m => f_cell f m c) (f_index f))).
  split; [reflexivity|]. apply sort_by_In. apply filter_In. split.
  - unfold column_sums. apply in_map_iff. exists c. auto.
  - cbn [snd]. apply Qlt_bool_iff. apply (Qlt_le_trans _ n); [exact P|].
    apply Qsum_ge_member.
    + intros x Hx. apply values_In in Hx. destruct Hx as (m' & _ & Ex).
      exact (meal_canteen_cell_nonneg out m' c Ex).
    + apply values_In. exists m. split; [exact Hm|exact E].
Qed.

(** The bars of the chart, period by period, for a table in which no
    location is named 其他. *)
Lemma meal_canteen_bars (df out : DataFrame) (legend : list string) :
  (forall r, In r (rows df) -> tx_location r <> Some other) ->
  fst (fst (prepare_meal_period_data parse df)) = Some out ->
  legend
  = (let canteens :=
       map fst
         (sort_by (by_key (descending Qle_bool) snd)
            (filter (fun cv => Qlt_bool 0 (snd cv))
               (column_sums (meal_canteen_of out labels)))) in
     if needs_others (meal_canteen_of out labels) labels
     then (canteens ++ [other])%list else canteens) ->
  forall m, In m labels ->
    exists segs,
      segments (meal_canteen_of out labels) m = Some segs
      /\ (Qsum (map snd segs)
          == row_sum (above_zero
                        (frame_loc (meal_canteen_of out labels) m)))%Q
      /\ (forall cv, In cv segs -> In (fst cv) legend)
      /\ (forall c n,
            In (c, n) segs -> c <> other ->
            In (c, n) (above_zero
                         (frame_loc (meal_canteen_of out labels) m))
            /\ ((3 <= row_sum (above_zero
                                 (frame_loc (meal_canteen_of out labels)
                                    m)))%Q -> (3 <= n)%Q))
      /\ (forall n,
            In (other, n) segs ->
            (3 <= row_sum (above_zero
                             (frame_loc (meal_canteen_of out labels) m)))%Q
            /\ n = row_sum (filter is_small
                              (above_zero
                                 (frame_loc (meal_canteen_of out labels)
                                    m)))
            /\ exists init,
                 segs = (init ++ [(other, n)])%list
                 /\ forall cv, In cv init -> fst cv <> other).
Proof.
  intros NoOther P Leg m Hm.
  destruct (classified_row_location df P) as [_ Loc].
  set (mc := meal_canteen_of out labels) in *.
  set (row := above_zero (frame_loc mc m)).
  assert (NoOth : forall cv, In cv row -> fst cv <> other).
  { intros [c n] Hcv. apply above_zero_In in Hcv. destruct Hcv as (Hc & _).
    apply meal_canteen_columns in Hc. destruct Hc as (r & Hr & E).
    destruct (Loc r Hr) as (r0 & Hr0 & E0). cbn [fst]. intros ->.
    apply (NoOther r0 Hr0). congruence. }
  destruct (segments_spec mc m NoOth) as (segs & E & Pm & Last).
  destruct (merge_small_spec row NoOth) as (Sum & Keep & Oth & _).
  exists segs. split; [exact E|]. split; [|split; [|split]].
  - rewrite (Qsum_perm (Permutation_map snd Pm)). exact Sum.
  - intros [c n] Hcv. cbn [fst]. apply (Permutation_in _ Pm) in Hcv.
    destruct (string_dec c other) as [->|Ne].
    + destruct (Oth n Hcv) as (T & N & _).
      assert (X : needs_others mc labels = true).
      { unfold needs_others. apply existsb_exists. exists m.
        split; [exact Hm|]. fold row. rewrite N.
        unfold Qlt_bool. rewrite negb_involutive, T.
        destruct row; [discriminate|reflexivity]. }
      rewrite Leg. cbv zeta. rewrite X. apply in_or_app. right. now left.
    + destruct (Keep c n Hcv Ne) as [Hin _].
      pose proof (@meal_canteen_segment_in_canteens out m c n Hm Hin) as Hc.
      rewrite Leg. cbv zeta. fold mc.
      destruct (needs_others mc labels); [apply in_or_app; left|];
        exact Hc.
  - intros c n Hcv Ne. apply (Permutation_in _ Pm) in Hcv.
    destruct (Keep c n Hcv Ne) as [Hin Big]. split; [exact Hin|].
    intros T. apply Big. now apply Qle_bool_iff.
  - intros n Hcv. pose proof (Last n Hcv) as L.
    apply (Permutation_in _ Pm) in Hcv.
    destruct (Oth n Hcv) as (T & _ & En).
    split; [now apply Qle_bool_iff|]. split; [exact En|exact L].
Qed.

(** X22. When no location is named 其他, the chart of canteens per period
    never fails on a colour: every segment of every bar is a canteen of
    the legend, or the merged segment 其他, which the legend holds as soon
    as one bar has it. A bar is as high as the period's visits, its named
    segments are counts of the table, of three visits or more when the
    bar has three or more, and the merged segment, the sum of the
    smaller counts, comes last. *)
Theorem meal_canteen_chart_colours_every_segment (df : DataFrame) :
  (forall r, In r (rows df) -> tx_location r <> Some other) ->
  create_meal_canteen_chart parse df <> None
  /\ (forall e, create_meal_canteen_chart parse df <> Some (Raise e))
  /\ forall legend bars,
       create_meal_canteen_chart parse df = Some (Ok (legend, bars)) ->
       exists out,
         fst (fst (prepare_meal_period_data parse df)) = Some out
         /\ map fst bars = labels
         /\ forall m segs,
              In (m, segs) bars ->
              (Qsum (map snd segs)
               == row_sum (above_zero
                             (frame_loc (meal_canteen_of out labels) m)))%Q
              /\ (forall cv, In cv segs -> In (fst cv) legend)
              /\ (forall c n,
                    In (c, n) segs -> c <> other ->
                    In (c, n)
                       (above_zero
                          (frame_loc (meal_canteen_of out labels) m))
                    /\ ((3 <= row_sum
                                (above_zero
                                   (frame_loc (meal_canteen_of out labels)
                                      m)))%Q -> (3 <= n)%Q))
              /\ (forall n,
                    In (other, n) segs ->
                    (3 <= row_sum
                            (above_zero
                               (frame_loc (meal_canteen_of out labels)
                                  m)))%Q
                    /\ n = row_sum
                             (filter is_small
                                (above_zero
                                   (frame_loc (meal_canteen_of out labels)
                                      m)))
                    /\ exists init,
                         segs = (init ++ [(other, n)])%list
                         /\ forall cv, In cv init -> fst cv <> other).
Proof.
  intros NoOther. unfold create_meal_canteen_chart.
  destruct (classified parse df _) as [[out ls]|msg|e] eqn:C.
  2: { repeat split; intros; discriminate. }
  2: { exfalso. exact (@classified_not_Raise _ _ _ _ C). }
  apply classified_rows_well in C. destruct C as (P & -> & _).
  destruct (negb (has_location out)).
  { repeat split; intros; discriminate. }
  destruct (frame_empty _ || _).
  { repeat split; intros; discriminate. }
  destruct (negb (nonempty _)).
  { repeat split; intros; discriminate. }
  set (legend := if needs_others _ _ then _ else _).
  pose proof (meal_canteen_bars df NoOther P (legend := legend) eq_refl)
    as Bars.
  destruct (draw_bars_ok legend (meal_canteen_of out labels) labels)
    as (bars & D & M & B).
  { intros m Hm. destruct (Bars m Hm) as (segs & E & _ & Cs & _).
    exists segs. auto. }
  rewrite D. split; [discriminate|]. split; [discriminate|].
  intros legend' bars' H.
  assert (legend' = legend) by congruence.
  assert (bars' = bars) by congruence. subst legend' bars'. clear H.
  exists out. split; [exact P|]. split; [exact M|].
  intros m segs Hin.
  assert (Hm : In m labels).
  { rewrite <- M. apply in_map_iff. exists (m, segs). auto. }
  destruct (Bars m Hm) as (segs' & E & Props).
  assert (segs' = segs) by (pose proof (B m segs Hin); congruence).
  subst segs'. exact Props.
Qed.

End MealCanteenFacts.

Lemma meal_canteen_chart_lunches :
  (forall r, In r (rows lunches) -> tx_location r <> Some other)
  /\ create_meal_canteen_chart never_parses lunches
     = Some (Ok (["A"; "B"; "C"; other],
                 [("早饭", [("B", inject_Z 1)]);
                  ("午饭", [("A", inject_Z 3);
                            (other, (inject_Z 1 + (inject_Z 1 + 0))%Q)]);
                  ("晚饭", []); ("夜宵", [])]))
  /\ exists out,
       fst (fst (prepare_meal_period_data never_parses lunches)) = Some out.
Proof.
  assert (N : forall r, In r (rows lunches) -> tx_location r <> Some other).
  { intros r H. cbn in H.
    repeat (destruct H as [<-|H]; [discriminate|]). contradiction. }
  split; [exact N|]. split; [vm_compute; reflexivity|].
  destruct (proj2 (proj2 (@meal_canteen_chart_colours_every_segment
                            never_parses lunches N)) _ _ eq_refl)
    as (out & P & _).
  exists out. exact P.
Defined.

(** ** Outcomes of the extremes table *)

Section ExtremesOutcomes.
Variable parse : string -> option datetime.

Lemma of_year_parsed_In (df : DataFrame) (y : Z) (r' : Row) :
  In r' (rows (of_year y (parsed parse df))) <->
  exists r t, In r (rows df) /\ to_datetime parse (tx_time r) = Stamp t
              /\ year t = y /\ r' = set_time r (Stamp t).
Proof.
  rewrite of_year_rows, parsed_rows_In. split.
  - intros [(r & t & Hr & Ht & ->) (t' & T & Y)].
    cbn [set_time tx_time] in T. injection T as <-. exists r, t. auto.
  - intros (r & t & Hr & Ht & Y & ->). split; [eauto|].
    exists t. auto.
Qed.

Lemma of_year_empty_iff (df : DataFrame) (y : Z) :
  empty (of_year y (parsed parse df)) = true <->
  forall r, In r (rows df) -> ~ in_year parse y r.
Proof.
  unfold empty. split.
  - intros N r Hr (t & Ht & Y).
    assert (H : In (set_time r (Stamp t))
                   (rows (of_year y (parsed parse df))))
      by (apply of_year_parsed_In; exists r, t; auto).
    destruct (rows (of_year y (parsed parse df)));
      [contradiction|discriminate].
  - intros H. destruct (rows (of_year y (parsed parse df)))
      as [|r' l] eqn:R; [reflexivity|]. exfalso.
    assert (Hr' : In r' (rows (of_year y (parsed parse df))))
      by (rewrite R; now left).
    apply of_year_parsed_In in Hr'.
    destruct Hr' as (r & t & Hr & Ht & Y & _).
    apply (H r Hr). exists t. auto.
Qed.

(** X23. The four ways the extremes table can end: skipped for lack of rows of
    the year, skipped because none of the year's rows lies in the day
    window, stopped by a missing location column once there are rows to
    summarise, or drawn with four lines of four cells. *)
Theorem yearly_extremes_table_outcomes (df : DataFrame) (y : Z) :
  ((forall r, In r (rows df) -> ~ in_year parse y r) ->
   create_yearly_extremes_table parse df y = Skip (year_message y))
  /\ ((exists r, In r (rows df) /\ in_year parse y r) ->
      (forall r, In r (rows df) -> ~ in_year_window parse y r) ->
      create_yearly_extremes_table parse df y
      = Skip (no_window_data ++ "，跳过“之最”表格生成。"))
  /\ ((exists r, In r (rows df) /\ in_year_window parse y r) ->
      has_location df = false ->
      create_yearly_extremes_table parse df y
      = Raise (KeyError "交易地点"))
  /\ ((exists r, In r (rows df) /\ in_year_window parse y r) ->
      has_location df = true ->
      exists table,
        create_yearly_extremes_table parse df y = Ok table
        /\ List.length table = 4%nat
        /\ forall line, In line table -> List.length line = 4%nat).
Proof.
  unfold create_yearly_extremes_table, yearly_extremes.
  pose proof (of_year_empty_iff df y) as EY.
  set (D := of_year y (parsed parse df)) in *.
  set (what := "，跳过“之最”表格生成。").
  assert (Win : (exists r, In r (rows df) /\ in_year_window parse y r) ->
                empty D = false
                /\ exists out, classified parse D what = Ok (out, labels)
                               /\ has_location out = has_location df).
  { intros (r & Hr & t & Ht & Y & W). split.
    - destruct (empty D) eqn:E; [|reflexivity].
      exfalso. apply (proj1 EY eq_refl r Hr). exists t. auto.
    - assert (Hr' : In (set_time r (Stamp t)) (rows D))
        by (apply of_year_parsed_In; exists r, t; auto).
      assert (W' : in_window parse (set_time r (Stamp t)))
        by (exists t; auto).
      eexists. split; [exact (in_window_classified D what Hr' W')|].
      reflexivity. }
  split; [|split; [|split]].
  - intros N. apply EY in N. now rewrite N.
  - intros (r & Hr & Y) NW.
    assert (E : empty D = false).
    { destruct (empty D) eqn:E; [|reflexivity].
      exfalso. exact (proj1 EY eq_refl r Hr Y). }
    rewrite E, classified_spec.
    assert (P : empty (parsed parse D) = false).
    { destruct (empty (parsed parse D)) eqn:P; [|reflexivity]. exfalso.
      destruct Y as (t & Ht & Yt).
      assert (Hr' : In (set_time r (Stamp t)) (rows D))
        by (apply of_year_parsed_In; exists r, t; auto).
      apply (proj1 (parsed_empty_iff parse D) P _ Hr'). now exists t. }
    rewrite P.
    assert (V : values (classify_row parse) (rows D) = []).
    { apply values_nil_iff. intros r' Hr'.
      destruct (classify_row parse r') as [r2|] eqn:C; [|reflexivity].
      exfalso. apply of_year_parsed_In in Hr'.
      destruct Hr' as (r0 & t & Hr0 & Ht & Yt & ->).
      assert (W : in_window parse (set_time r0 (Stamp t)))
        by (apply classify_row_in_window; eauto).
      destruct W as (t' & Ht' & W). cbn in Ht'. injection Ht' as <-.
      apply (NW r0 Hr0). exists t. auto. }
    rewrite V. reflexivity.
  - intros W L. destruct (Win W) as (E & out & C & HL).
    rewrite E. fold what. rewrite C, HL, L. reflexivity.
  - intros W L. destruct (Win W) as (E & out & C & HL).
    rewrite E. fold what. rewrite C, HL, L. eexists.
    split; [reflexivity|]. split; [reflexivity|].
    unfold table_rows, format_row. intros line H. cbn [In] in H.
    repeat (destruct H as [<-|H];
            [repeat match goal with
                    | |- context [match ?x with _ => _ end] => destruct x
                    end; reflexivity|]).
    contradiction.
Qed.

End ExtremesOutcomes.

Lemma yearly_extremes_table_without_column :
  (exists r, In r (rows lunch_without_column)
             /\ in_year_window never_parses 2025 r)
  /\ create_yearly_extremes_table never_parses lunch_without_column 2025
     = Raise (KeyError "交易地点").
Proof.
  assert (W : exists r, In r (rows lunch_without_column)
                        /\ in_year_window never_parses 2025 r).
  { eexists. split; [now left|]. eexists. split; [reflexivity|].
    split; [reflexivity|]. cbn. lia. }
  split; [exact W|].
  destruct (yearly_extremes_table_outcomes never_parses lunch_without_column
              2025) as (_ & _ & R & _).
  exact (R W eq_refl).
Defined.
